(** * lttng-analyses (old tree): memory-event correlator and perf emitter

    A shallow embedding of [old/LTTngAnalyzes/mm.py] (class [Mm]) and of
    [old/perf-info.py] (class [Perf]), with the properties of their
    natural-language specification stated and proved over it.

    Conventions of the embedding.
    - Python integers are unbounded: they are [Z].
    - The registries [cpus] and [tids] are Python dicts used as maps; they
      are [gmap Z _].  A Python object reference to a registered thread is
      its key in [tids] (threads are never removed or replaced by the code
      modelled here).
    - An exception that escapes a method is the [Raised] outcome; the state
      returned next to it is the state at the raise, since every mutation
      before the raise was done in place. *)

From Stdlib Require Import ZArith String List Lia Bool Ascii.
From Stdlib Require Import DecimalString DecimalZ DecimalPos.
From stdpp Require Import gmap strings list fin_maps.
Import ListNotations.

Local Open Scope string_scope.
Local Open Scope Z_scope.

(** ** Python-level building blocks *)

(** The exceptions the modelled code can raise: a failed dict subscript. *)
Inductive exn : Type := KeyError.

(** How a method call ends. *)
Inductive outcome : Type :=
| Returned
| Raised (e : exn).

(** Result of an expression that may raise. *)
Inductive result (A : Type) : Type :=
| Ok (a : A)
| Raise (e : exn).
Arguments Ok {A} a.
Arguments Raise {A} e.

(** [s.startswith(p)] *)
Fixpoint startswith (p s : string) : bool :=
  match p with
  | EmptyString => true
  | String a p' =>
      match s with
      | EmptyString => false
      | String b s' => if Ascii.eqb a b then startswith p' s' else false
      end
  end.

(** [str(n)] for an integer: decimal digits, a leading minus sign when
    negative. *)
Definition str (n : Z) : string := NilEmpty.string_of_int (Z.to_int n).

(** Truth value of a string used as a condition: empty is false. *)
Definition truthy_str (s : string) : bool :=
  match s with EmptyString => false | _ => true end.

(** ** Data model shared by both programs *)

(** The file-descriptor object bound under the ["fd"] key of a syscall
    dict; the code reads its [filename] and [fd] attributes. *)
Record FD : Type := mkFD { fd_filename : string; fd_fd : Z }.

(** [Thread.current_syscall]: a dict, empty when no system call is in
    flight.  The code probes the keys ["name"], ["fd"] and ["alloc"]; each
    is a field that is present or absent.  Keys the code neither reads nor
    writes are kept in [sc_other] (they count for the emptiness test). *)
Record Syscall : Type := mkSyscall {
  sc_name : option string;
  sc_fd : option FD;
  sc_alloc : option Z;
  sc_other : gmap string Z
}.

Definition no_syscall : Syscall := mkSyscall None None None ∅.

(** [len(d.keys()) == 0] *)
Definition syscall_is_empty (d : Syscall) : bool :=
  match sc_name d, sc_fd d, sc_alloc d with
  | None, None, None => bool_decide (sc_other d = ∅)
  | _, _, _ => false
  end.

(** A registered thread (the objects held by [tids]). *)
Module Thread.
Record t : Type := mk {
  pid : Z;
  comm : string;
  perf : gmap string Z;
  allocated_pages : Z;
  freed_pages : Z;
  current_syscall : Syscall
}.
End Thread.

(** A CPU entry (the objects held by [cpus]). *)
Module CPU.
Record t : Type := mk { current_tid : Z }.
End CPU.

(** A decoded trace event.  Subscripts on the fields the input contract
    requires are total; [counters] are the counter-namespaced context
    fields in the order the event lists them. *)
Record Event : Type := mkEvent {
  ev_name : string;
  ev_timestamp : Z;
  ev_cpu_id : Z;
  ev_prev_tid : Z;
  ev_next_tid : Z;
  ev_pid : Z;
  ev_tid : Z;
  ev_comm : string;
  ev_counters : list (string * Z);
  ev_nr_dirty : Z;
  ev_nr_writeback : Z;
  ev_nr_dirtied : Z;
  ev_nr_written : Z
}.

(** A timestamp as handed to the formatter: [ns_to_hour_nsec] of
    [LTTngAnalyzes.common] and the ['{:.9f}'] float format are kept as the
    formatter applied to its integer argument. *)
Inductive timefmt : Type :=
| HourNsec (ns : Z)
| UnixTime (ns : Z).

(** ** [LTTngAnalyzes/mm.py] *)

Module Mm.

(** The [mm] dict: its four keys are set by [__init__] and never removed. *)
Record Global : Type := mkGlobal {
  g_allocated_pages : Z;
  g_freed_pages : Z;
  g_count : Z;
  g_dirty : Z
}.

(** One tuple appended to [dirty_pages["pages"]]; the thread object of
    the tuple is its registry key. *)
Record DirtyEntry : Type := mkDirtyEntry {
  de_thread : Z;
  de_syscall : string;
  de_filename : string;
  de_fd : Z
}.

Record DirtyPages : Type := mkDirtyPages {
  pages : list DirtyEntry;
  global_nr_dirty : Z;
  base_nr_dirty : Z
}.

(** The line printed by [writeback_global_dirty_state], as the arguments
    of its format string. *)
Record SummaryLine : Type := mkSummaryLine {
  sl_time : timefmt;
  sl_count : Z;
  sl_dirty : Z;
  sl_nr_dirty : Z;
  sl_nr_writeback : Z;
  sl_nr_dirtied : Z;
  sl_nr_written : Z
}.

(** The object [self] with the dicts it holds references to, and the
    standard output written so far. *)
Record t : Type := mk {
  mm : Global;
  cpus : gmap Z CPU.t;
  tids : gmap Z Thread.t;
  dirty_pages : option DirtyPages;
  stdout : list SummaryLine
}.

Definition set_mm (g : Global) (s : t) : t :=
  mk g (cpus s) (tids s) (dirty_pages s) (stdout s).
Definition set_tids (r : gmap Z Thread.t) (s : t) : t :=
  mk (mm s) (cpus s) r (dirty_pages s) (stdout s).
Definition set_dirty_pages (d : option DirtyPages) (s : t) : t :=
  mk (mm s) (cpus s) (tids s) d (stdout s).
Definition print (l : SummaryLine) (s : t) : t :=
  mk (mm s) (cpus s) (tids s) (dirty_pages s) (stdout s ++ [l]).

Definition add_count (d : Z) (g : Global) : Global :=
  mkGlobal (g_allocated_pages g) (g_freed_pages g) (g_count g + d) (g_dirty g).
Definition add_allocated_pages (d : Z) (g : Global) : Global :=
  mkGlobal (g_allocated_pages g + d) (g_freed_pages g) (g_count g) (g_dirty g).
Definition add_freed_pages (d : Z) (g : Global) : Global :=
  mkGlobal (g_allocated_pages g) (g_freed_pages g + d) (g_count g) (g_dirty g).
Definition add_dirty (d : Z) (g : Global) : Global :=
  mkGlobal (g_allocated_pages g) (g_freed_pages g) (g_count g) (g_dirty g + d).
Definition set_dirty (v : Z) (g : Global) : Global :=
  mkGlobal (g_allocated_pages g) (g_freed_pages g) (g_count g) v.

(** [Mm.__init__(mm, cpus, tids, dirty_pages)]: the counters start at 0
    and the log is emptied; the registries are the caller's. *)
Definition init (cpus0 : gmap Z CPU.t) (tids0 : gmap Z Thread.t) : t :=
  mk (mkGlobal 0 0 0 0) cpus0 tids0 (Some (mkDirtyPages [] (-1) (-1))) [].

(** [get_current_proc]: [None] for an unseen CPU or the [-1] sentinel,
    otherwise the subscript [self.tids[c.current_tid]], which raises when
    the key is missing. *)
Definition get_current_proc (s : t) (event : Event) : result (option Z) :=
  match cpus s !! ev_cpu_id event with
  | None => Ok None
  | Some c =>
      if CPU.current_tid c =? -1 then Ok None
      else match tids s !! CPU.current_tid c with
           | Some _ => Ok (Some (CPU.current_tid c))
           | None => Raise KeyError
           end
  end.

(** Body of the [for p in self.tids.values()] loop of [page_alloc]. *)
Definition charge_alloc (p : Thread.t) : Thread.t :=
  let d := Thread.current_syscall p in
  if syscall_is_empty d then p
  else
    let d' :=
      match sc_alloc d with
      | None => mkSyscall (sc_name d) (sc_fd d) (Some 1) (sc_other d)
      | Some n => mkSyscall (sc_name d) (sc_fd d) (Some (n + 1)) (sc_other d)
      end in
    Thread.mk (Thread.pid p) (Thread.comm p) (Thread.perf p)
              (Thread.allocated_pages p) (Thread.freed_pages p) d'.

(** [t.allocated_pages += d] and [t.freed_pages += d] *)
Definition add_thread_allocated (d : Z) (p : Thread.t) : Thread.t :=
  Thread.mk (Thread.pid p) (Thread.comm p) (Thread.perf p)
            (Thread.allocated_pages p + d) (Thread.freed_pages p)
            (Thread.current_syscall p).
Definition add_thread_freed (d : Z) (p : Thread.t) : Thread.t :=
  Thread.mk (Thread.pid p) (Thread.comm p) (Thread.perf p)
            (Thread.allocated_pages p) (Thread.freed_pages p + d)
            (Thread.current_syscall p).

Definition page_alloc (s : t) (event : Event) : t * outcome :=
  let s := set_mm (add_count 1 (mm s)) s in
  let s := set_mm (add_allocated_pages 1 (mm s)) s in
  let s := set_tids (charge_alloc <$> tids s) s in
  match get_current_proc s event with
  | Raise e => (s, Raised e)
  | Ok None => (s, Returned)
  | Ok (Some k) => (set_tids (alter (add_thread_allocated 1) k (tids s)) s, Returned)
  end.

Definition page_free (s : t) (event : Event) : t * outcome :=
  let s := set_mm (add_freed_pages 1 (mm s)) s in
  if g_count (mm s) =? 0 then (s, Returned)
  else
    let s := set_mm (add_count (-1) (mm s)) s in
    match get_current_proc s event with
    | Raise e => (s, Raised e)
    | Ok None => (s, Returned)
    | Ok (Some k) => (set_tids (alter (add_thread_freed 1) k (tids s)) s, Returned)
    end.

Definition append_page (e : DirtyEntry) (d : DirtyPages) : DirtyPages :=
  mkDirtyPages (pages d ++ [e]) (global_nr_dirty d) (base_nr_dirty d).

Definition block_dirty_buffer (s : t) (event : Event) : t * outcome :=
  let s := set_mm (add_dirty 1 (mm s)) s in
  match cpus s !! ev_cpu_id event with
  | None => (s, Returned)
  | Some c =>
      if CPU.current_tid c <=? 0 then (s, Returned)
      else
        match tids s !! CPU.current_tid c with
        | None => (s, Raised KeyError)
        | Some p =>
            let current_syscall := Thread.current_syscall p in
            if syscall_is_empty current_syscall then (s, Returned)
            else
              match dirty_pages s with
              | None => (s, Returned)
              | Some dp =>
                  match sc_fd current_syscall with
                  | None => (s, Returned)
                  | Some f =>
                      match sc_name current_syscall with
                      | None => (s, Raised KeyError)
                      | Some n =>
                          (set_dirty_pages
                             (Some (append_page
                                      (mkDirtyEntry (CPU.current_tid c) n
                                                    (fd_filename f) (fd_fd f))
                                      dp)) s,
                           Returned)
                      end
                  end
              end
        end
  end.

Definition writeback_global_dirty_state (s : t) (event : Event) : t * outcome :=
  let s :=
    print (mkSummaryLine (HourNsec (ev_timestamp event))
                         (g_count (mm s)) (g_dirty (mm s))
                         (ev_nr_dirty event) (ev_nr_writeback event)
                         (ev_nr_dirtied event) (ev_nr_written event)) s in
  (set_mm (set_dirty 0 (mm s)) s, Returned).

(** A call of one of the two page handlers, and the processing of a
    sequence of them.  Nothing in the sources catches an exception of a
    handler: a raise ends the processing. *)
Inductive PageCall : Type :=
| PageAlloc (event : Event)
| PageFree (event : Event).

Definition call (s : t) (c : PageCall) : t * outcome :=
  match c with
  | PageAlloc event => page_alloc s event
  | PageFree event => page_free s event
  end.

(** The states reached after each processed call, in order. *)
Fixpoint trace (s : t) (cs : list PageCall) : list t :=
  match cs with
  | [] => []
  | c :: cs' =>
      match call s c with
      | (s', Returned) => s' :: trace s' cs'
      | (s', Raised _) => [s']
      end
  end.

(** The thread that is the target of the CPU-local attribution of the
    page handlers: the one scheduled on the CPU of the event, none for an
    unseen CPU or the [-1] sentinel. *)
Definition scheduled_on (s : t) (event : Event) : option Z :=
  match cpus s !! ev_cpu_id event with
  | None => None
  | Some c => if CPU.current_tid c =? -1 then None else Some (CPU.current_tid c)
  end.

End Mm.

(** ** Python dicts whose key order is observable

    [ret] and the record [d] of [perf-info.py] are dicts from counter name
    to integer that the code iterates over: they are association lists in
    insertion order. *)

Definition dict : Type := list (string * Z).

(** [d.keys()] *)
Definition keys (d : dict) : list string := map fst d.

(** [d[k]], [None] standing for the missing key *)
Fixpoint dict_get (k : string) (d : dict) : option Z :=
  match d with
  | [] => None
  | (k', v) :: d' => if String.eqb k k' then Some v else dict_get k d'
  end.

(** [d[k] = v]: overwrite in place, or append a new key *)
Fixpoint dict_set (k : string) (v : Z) (d : dict) : dict :=
  match d with
  | [] => [(k, v)]
  | (k', v') :: d' =>
      if String.eqb k k' then (k', v) :: d' else (k', v') :: dict_set k v d'
  end.

(** [x in l] for a list of strings *)
Fixpoint str_in (x : string) (l : list string) : bool :=
  match l with
  | [] => false
  | y :: l' => if String.eqb x y then true else str_in x l'
  end.

(** ** The [State] object and its trackers

    [LTTngAnalyzes/state.py], [sched.py] and [statedump.py] are not part of
    the sources at hand; [perf-info.py] reads [state.tids] and calls
    [state.sched.switch] and [state.statedump.process_state]. *)

Module State.
(** The part of the [State] object that [Perf] reads. *)
Record t : Type := mk {
  cpus : gmap Z CPU.t;
  tids : gmap Z Thread.t
}.
End State.

Module Sched.

(** Step 2 of the specified [switch], for one thread and the counter
    fields of the event: the updated counter map of the thread and the
    deltas, in field order. *)
Fixpoint deltas (fields : list (string * Z)) (known : gmap string Z)
    (ret : dict) : gmap string Z * dict :=
  match fields with
  | [] => (known, ret)
  | (c, cur) :: rest =>
      if startswith "perf_" c then
        match known !! c with
        | None => deltas rest (<[c := cur]> known) ret
        | Some prev =>
            deltas rest (<[c := cur]> known) (dict_set c (cur - prev) ret)
        end
      else deltas rest known ret
  end.

(** Modelled from the spec: [Sched.switch] of [LTTngAnalyzes/sched.py],
    which is missing from the sources.  Section 4.1: resolve or create the
    CPU entry; for each counter field look up the value recorded for
    [prev_tid], record a baseline or compute and store the delta; set
    [current_tid] to [next_tid]; return the deltas, empty when [prev_tid]
    is a sentinel or an unseen thread.  Section 3: a thread is created
    when a scheduling event first refers to it, so that [current_tid] is a
    registered thread or one of the sentinels [-1] and [0]: an unseen
    [next_tid] that is no sentinel is registered, with the pid [-1] that
    [output_perf] reads as unknown, no name, no counters and no syscall in
    flight. *)
Definition switch (st : State.t) (event : Event) : State.t * dict :=
  let prev := ev_prev_tid event in
  let next := ev_next_tid event in
  let '(tids', ret) :=
    if (prev =? -1) || (prev =? 0) then (State.tids st, [])
    else
      match State.tids st !! prev with
      | None => (State.tids st, [])
      | Some p =>
          let '(known, ret) := deltas (ev_counters event) (Thread.perf p) [] in
          (<[prev := Thread.mk (Thread.pid p) (Thread.comm p) known
                               (Thread.allocated_pages p) (Thread.freed_pages p)
                               (Thread.current_syscall p)]> (State.tids st),
           ret)
      end in
  let tids'' :=
    if (next =? -1) || (next =? 0) then tids'
    else
      match tids' !! next with
      | Some _ => tids'
      | None => <[next := Thread.mk (-1) "" ∅ 0 0 no_syscall]> tids'
      end in
  (State.mk (<[ev_cpu_id event := CPU.mk next]> (State.cpus st)) tids'', ret).

End Sched.

Module Statedump.

(** Modelled from the spec: [Statedump.process_state] of
    [LTTngAnalyzes/statedump.py], which is missing from the sources.
    Section 6: a process-statedump event carries [pid], [tid] and [comm]
    and registers a Thread; a thread already registered keeps its
    counters. *)
Definition process_state (st : State.t) (event : Event) : State.t :=
  let p :=
    match State.tids st !! ev_tid event with
    | Some p =>
        Thread.mk (ev_pid event) (ev_comm event) (Thread.perf p)
                  (Thread.allocated_pages p) (Thread.freed_pages p)
                  (Thread.current_syscall p)
    | None => Thread.mk (ev_pid event) (ev_comm event) ∅ 0 0 no_syscall
    end in
  State.mk (State.cpus st) (<[ev_tid event := p]> (State.tids st)).

End Statedump.

(** ** [perf-info.py] *)

Module Perf.

(** The parsed command line, after the conversions of [__main__]:
    [tid] is [None] or the comma-separated list, [start] and [end] are
    [None] or nanoseconds. *)
Record Args : Type := mkArgs {
  tid : option (list string);
  pname : option string;
  start : option Z;
  end_ : option Z;
  unixtime : bool;
  delta : bool;
  json : option string;
  mongo : option string;
  quiet : bool
}.

(** Truth values of the optional settings used as conditions. *)
Definition truthy_list {A : Type} (o : option (list A)) : bool :=
  match o with Some (_ :: _) => true | _ => false end.
Definition truthy_int (o : option Z) : bool :=
  match o with Some n => negb (n =? 0) | None => false end.
Definition truthy_opt_str (o : option string) : bool :=
  match o with Some s => truthy_str s | None => false end.

(** One value of [json_metadata]: [{'pname': ..., 'threads': {...}}];
    [threads] maps [str(tid)] to the ['pname'] of its one-key dict. *)
Record Metadatum : Type := mkMetadatum {
  md_pname : string;
  md_threads : gmap string string
}.

(** One printed line, as the arguments of [PERF_FORMAT]. *)
Record Line : Type := mkLine {
  ln_time : timefmt;
  ln_comm : string;
  ln_tid : Z;
  ln_context : string;
  ln_value : Z
}.

(** The object [self] and the standard output written so far. *)
Record t : Type := mk {
  state : State.t;
  perf : list dict;
  json_metadata : gmap Z Metadatum;
  stdout : list Line
}.

Definition set_state (st : State.t) (self : t) : t :=
  mk st (perf self) (json_metadata self) (stdout self).
Definition print (ls : list Line) (self : t) : t :=
  mk (state self) (perf self) (json_metadata self) (stdout self ++ ls).

(** [Perf.__init__]: empty buffer and metadata over a new [State]. *)
Definition init (st : State.t) : t := mk st [] ∅ [].

Definition log_perf_event_json (self : t) (ts : timefmt) (comm : string)
    (tid pid : Z) (ret : dict) : t :=
  let md := json_metadata self in
  let md :=
    if pid =? tid then
      match md !! pid with
      | None => <[pid := mkMetadatum comm ∅]> md
      | Some m =>
          if negb (String.eqb (md_pname m) comm)
          then <[pid := mkMetadatum comm (md_threads m)]> md
          else md
      end
    else
      let md :=
        match md !! pid with
        | None => <[pid := mkMetadatum "unknown" ∅]> md
        | Some _ => md
        end in
      let tid_str := str tid in
      match md !! pid with
      | None => md
      | Some m =>
          match md_threads m !! tid_str with
          | None =>
              <[pid := mkMetadatum (md_pname m) (<[tid_str := comm]> (md_threads m))]> md
          | Some c =>
              if negb (String.eqb c comm)
              then <[pid := mkMetadatum (md_pname m) (<[tid_str := comm]> (md_threads m))]> md
              else md
          end
      end in
  mk (state self) (perf self ++ [ret]) md (stdout self).

(** The [for context in ret.keys()] loop of [output_perf], run over the
    items of [ret] ([ret[context]] is the value stored with [context]): the
    lines it prints and the final value of [insert]. *)
Fixpoint output_loop (args : Args) (endtime : timefmt) (comm : string)
    (tid : Z) (items : dict) (insert : bool) : list Line * bool :=
  match items with
  | [] => ([], insert)
  | (context, v) :: rest =>
      if startswith "perf_" context then
        let insert :=
          if truthy_opt_str (json args) || truthy_opt_str (mongo args)
          then true else insert in
        let '(ls, insert) := output_loop args endtime comm tid rest insert in
        (if negb (quiet args) then mkLine endtime comm tid context v :: ls else ls,
         insert)
      else output_loop args endtime comm tid rest insert
  end.

Definition output_perf (args : Args) (self : t) (event : Event) (ret : dict)
    : t * outcome :=
  let tid_ := ev_prev_tid event in
  if truthy_list (tid args) &&
     negb (match tid args with Some l => str_in (str tid_) l | None => false end)
  then (self, Returned)
  else
    match State.tids (state self) !! tid_ with
    | None => (self, Raised KeyError)
    | Some th =>
        let pid := Thread.pid th in
        let pid := if pid =? -1 then tid_ else pid in
        let comm := Thread.comm th in
        if match pname args with
           | Some n => negb (String.eqb n comm)
           | None => false
           end
        then (self, Returned)
        else
          let name := ev_name event in
          if negb (String.eqb name "sched_switch") then (self, Returned)
          else
            let endtime := ev_timestamp event in
            if truthy_int (start args) &&
               match start args with Some s => endtime <? s | None => false end
            then (self, Returned)
            else if truthy_int (end_ args) &&
                    match end_ args with Some e => endtime >? e | None => false end
            then (self, Returned)
            else
              let endtime :=
                if negb (unixtime args) then HourNsec endtime
                else UnixTime endtime in
              let '(ls, insert) := output_loop args endtime comm tid_ ret false in
              let self := print ls self in
              if insert
              then (log_perf_event_json self endtime comm tid_ pid ret, Returned)
              else (self, Returned)
    end.

(** The [for context in ret.keys()] loop of [process_event], run over the
    items of [ret]: it fills the record [d]; the subscripts
    [self.state.tids[tid]] and [.perf[context]] raise on a missing key. *)
Fixpoint fill_record (args : Args) (types : option (list string))
    (st : State.t) (tid : Z) (items : dict) (d : dict) : result dict :=
  match items with
  | [] => Ok d
  | (context, v) :: rest =>
      if truthy_list types &&
         negb (match types with Some l => str_in context l | None => false end)
      then fill_record args types st tid rest d
      else if startswith "perf_" context then
        if delta args then fill_record args types st tid rest (dict_set context v d)
        else
          match State.tids st !! tid with
          | None => Raise KeyError
          | Some th =>
              match Thread.perf th !! context with
              | None => Raise KeyError
              | Some c => fill_record args types st tid rest (dict_set context c d)
              end
          end
      else fill_record args types st tid rest d
  end.

Section Dispatch.

(** The two trackers of the [State] object that [process_event] calls. *)
Variable switch : State.t -> Event -> State.t * dict.
Variable process_state : State.t -> Event -> State.t.

Definition process_event (args : Args) (types : option (list string))
    (self : t) (event : Event) : t * outcome :=
  if String.eqb (ev_name event) "sched_switch" then
    let '(st, ret) := switch (state self) event in
    let self := set_state st self in
    let tid := ev_prev_tid event in
    if (0 <? Z.of_nat (length (keys ret))) then
      let d := [("ts", ev_timestamp event); ("tid", tid)] in
      match fill_record args types (state self) tid ret d with
      | Raise e => (self, Raised e)
      | Ok d => output_perf args self event d
      end
    else (self, Returned)
  else if String.eqb (ev_name event) "lttng_statedump_process_state" then
    (set_state (process_state (state self) event) self, Returned)
  else (self, Returned).

(** The event loop of [run]; an exception ends it.  The sinks that [run]
    calls afterwards read [perf] and [json_metadata] and are outside the
    model. *)
Fixpoint run (args : Args) (types : option (list string))
    (self : t) (events : list Event) : t * outcome :=
  match events with
  | [] => (self, Returned)
  | event :: rest =>
      match process_event args types self event with
      | (self, Returned) => run args types self rest
      | (self, Raised e) => (self, Raised e)
      end
  end.

End Dispatch.

End Perf.

(** ** The filters of the record emitter, as the specification words them

    Section 4.3: drop a record whose thread id is not in the allow-list
    (no list, no filtering); drop it when a process name is set and differs
    from [comm]; drop it when its timestamp is outside the configured
    window (a bound that is unset, or 0, does not bound). *)

Module Filter.

Definition tid_allowed (args : Perf.Args) (tid : Z) : bool :=
  match Perf.tid args with
  | None | Some [] => true
  | Some l => str_in (str tid) l
  end.

Definition pname_allowed (args : Perf.Args) (comm : string) : bool :=
  match Perf.pname args with
  | None => true
  | Some n => String.eqb n comm
  end.

Definition after_start (args : Perf.Args) (ts : Z) : bool :=
  match Perf.start args with
  | None => true
  | Some s => (s =? 0) || (s <=? ts)
  end.

Definition before_end (args : Perf.Args) (ts : Z) : bool :=
  match Perf.end_ args with
  | None => true
  | Some e => (e =? 0) || (ts <=? e)
  end.

Definition in_window (args : Perf.Args) (ts : Z) : bool :=
  after_start args ts && before_end args ts.

(** The counter-name filter of [process_event] ([types]). *)
Definition type_allowed (types : option (list string)) (context : string) : bool :=
  match types with
  | None | Some [] => true
  | Some l => str_in context l
  end.

(** The record carries at least one counter-namespaced field. *)
Definition has_counter (ret : dict) : bool :=
  existsb (startswith "perf_") (keys ret).

(** A structured-dump directory or a persistence address is configured. *)
Definition sink_configured (args : Perf.Args) : bool :=
  Perf.truthy_opt_str (Perf.json args) || Perf.truthy_opt_str (Perf.mongo args).

(** The process id under which a record of thread [th] is filed. *)
Definition pid_of (th : Thread.t) (tid : Z) : Z :=
  if Thread.pid th =? -1 then tid else Thread.pid th.

(** The timestamp as printed. *)
Definition endtime_of (args : Perf.Args) (ts : Z) : timefmt :=
  if negb (Perf.unixtime args) then HourNsec ts else UnixTime ts.

(** The lines printed for a record: one per counter-namespaced field, in
    field order, none when quiet. *)
Definition lines_of (args : Perf.Args) (endtime : timefmt) (comm : string)
    (tid : Z) (ret : dict) : list Perf.Line :=
  if Perf.quiet args then []
  else map (fun kv => Perf.mkLine endtime comm tid kv.1 kv.2)
           (List.filter (fun kv => startswith "perf_" kv.1) ret).

(** What an emitted record does to [self]: print, then log when a sink is
    configured and the record has a counter field. *)
Definition emit (args : Perf.Args) (self : Perf.t) (event : Event)
    (th : Thread.t) (ret : dict) : Perf.t :=
  let tid := ev_prev_tid event in
  let endtime := endtime_of args (ev_timestamp event) in
  let self := Perf.print (lines_of args endtime (Thread.comm th) tid ret) self in
  if has_counter ret && sink_configured args
  then Perf.log_perf_event_json self endtime (Thread.comm th) tid (pid_of th tid) ret
  else self.

(** The value a record holds under a counter key: the returned delta
    when deltas are asked for, else the cumulative value stored for the
    thread in the registry. *)
Definition stored_value (args : Perf.Args) (st : State.t) (tid : Z)
    (ret : dict) (k : string) : option Z :=
  if Perf.delta args then dict_get k ret
  else State.tids st !! tid ≫= fun th => Thread.perf th !! k.

(** The same command line with another tid allow-list. *)
Definition with_tid (l : option (list string)) (args : Perf.Args) : Perf.Args :=
  Perf.mkArgs l (Perf.pname args) (Perf.start args) (Perf.end_ args)
              (Perf.unixtime args) (Perf.delta args) (Perf.json args)
              (Perf.mongo args) (Perf.quiet args).

(** The record is one of thread [T]. *)
Definition record_of_tid (T : Z) (r : dict) : bool :=
  match dict_get "tid" r with
  | Some t => t =? T
  | None => false
  end.

Definition line_of_tid (T : Z) (l : Perf.Line) : bool := Perf.ln_tid l =? T.

(** [Pf] holds, of the records and lines of [Pu], exactly those of thread
    [T], in the same order, over the same registries. *)
Definition selects (T : Z) (Pu Pf : Perf.t) : Prop :=
  Perf.state Pf = Perf.state Pu /\
  Perf.perf Pf = List.filter (record_of_tid T) (Perf.perf Pu) /\
  Perf.stdout Pf = List.filter (line_of_tid T) (Perf.stdout Pu).

End Filter.

(** ** Concrete inputs used by the examples *)

Definition mm_event (cpu : Z) : Event :=
  mkEvent "mm" 0 cpu 0 0 0 0 "" [] 0 0 0 0.

Definition plain_thread (pid : Z) (comm : string) : Thread.t :=
  Thread.mk pid comm ∅ 0 0 no_syscall.

Definition sched_switch (ts cpu prev next : Z) (counters : list (string * Z)) : Event :=
  mkEvent "sched_switch" ts cpu prev next 0 0 "" counters 0 0 0 0.

Definition statedump (ts pid tid : Z) (comm : string) : Event :=
  mkEvent "lttng_statedump_process_state" ts 0 0 0 pid tid comm [] 0 0 0 0.

(** No option given on the command line. *)
Definition no_args : Perf.Args :=
  Perf.mkArgs None None None None false false None None false.

(** Two threads and their counters sampled at switch-out. *)
Definition sample_events : list Event :=
  [ statedump 0 100 100 "a";
    statedump 0 200 200 "b";
    sched_switch 1 0 100 200 [("perf_x", 10)];
    sched_switch 2 0 200 100 [("perf_x", 5)];
    sched_switch 3 0 100 200 [("perf_x", 25)];
    sched_switch 4 0 200 100 [("perf_x", 9)] ].

(** ** The four handlers of [Mm] over a sequence of events *)

Module MmLoop.

(** A call of one of the handlers of [Mm]. *)
Inductive Call : Type :=
| PageAlloc (event : Event)
| PageFree (event : Event)
| BlockDirtyBuffer (event : Event)
| WritebackGlobalDirtyState (event : Event).

Definition step (s : Mm.t) (c : Call) : Mm.t * outcome :=
  match c with
  | PageAlloc event => Mm.page_alloc s event
  | PageFree event => Mm.page_free s event
  | BlockDirtyBuffer event => Mm.block_dirty_buffer s event
  | WritebackGlobalDirtyState event => Mm.writeback_global_dirty_state s event
  end.

(** The calls in order; a raise ends the processing, the state being the
    one at the raise. *)
Fixpoint exec (s : Mm.t) (cs : list Call) : Mm.t * outcome :=
  match cs with
  | [] => (s, Returned)
  | c :: cs' =>
      match step s c with
      | (s', Returned) => exec s' cs'
      | (s', Raised e) => (s', Raised e)
      end
  end.

Definition is_dirty_call (c : Call) : bool :=
  match c with BlockDirtyBuffer _ => true | _ => false end.

Definition is_writeback_call (c : Call) : bool :=
  match c with WritebackGlobalDirtyState _ => true | _ => false end.

Definition is_alloc_call (c : Call) : bool :=
  match c with PageAlloc _ => true | _ => false end.

Definition is_free_call (c : Call) : bool :=
  match c with PageFree _ => true | _ => false end.

(** How many calls of a kind a sequence holds. *)
Definition count_calls (kind : Call -> bool) (cs : list Call) : Z :=
  Z.of_nat (length (List.filter kind cs)).

(** The value of the ["alloc"] entry of a syscall dict, 0 when absent. *)
Definition alloc_of (p : Thread.t) : Z :=
  match sc_alloc (Thread.current_syscall p) with
  | Some n => n
  | None => 0
  end.

(** The entries of the dirty-page log, none when there is no log. *)
Definition log (s : Mm.t) : list Mm.DirtyEntry :=
  match Mm.dirty_pages s with
  | Some d => Mm.pages d
  | None => []
  end.

(** What every handler keeps of a registered thread: its identity and
    counters read by others, its exclusive page counters up to growth, and
    its syscall dict up to the ["alloc"] entry. *)
Definition thread_kept (p p' : Thread.t) : Prop :=
  Thread.pid p' = Thread.pid p /\
  Thread.comm p' = Thread.comm p /\
  Thread.perf p' = Thread.perf p /\
  Thread.allocated_pages p <= Thread.allocated_pages p' /\
  Thread.freed_pages p <= Thread.freed_pages p' /\
  sc_name (Thread.current_syscall p') = sc_name (Thread.current_syscall p) /\
  sc_fd (Thread.current_syscall p') = sc_fd (Thread.current_syscall p) /\
  sc_other (Thread.current_syscall p') = sc_other (Thread.current_syscall p) /\
  syscall_is_empty (Thread.current_syscall p') =
    syscall_is_empty (Thread.current_syscall p).

(** What every handler keeps of the whole state. *)
Definition kept (s s' : Mm.t) : Prop :=
  Mm.cpus s' = Mm.cpus s /\
  (forall k, option_Forall2 thread_kept (Mm.tids s !! k) (Mm.tids s' !! k)) /\
  Mm.g_allocated_pages (Mm.mm s) <= Mm.g_allocated_pages (Mm.mm s') /\
  Mm.g_freed_pages (Mm.mm s) <= Mm.g_freed_pages (Mm.mm s') /\
  Mm.stdout s `prefix_of` Mm.stdout s' /\
  log s `prefix_of` log s' /\
  (Mm.dirty_pages s = None <-> Mm.dirty_pages s' = None).

End MmLoop.

(** ** More of Python: [split], [join], [replace] and negative indices *)

(** [s.split(sep)] for a one-character separator: the pieces between the
    occurrences of [sep], empty pieces included. *)
Fixpoint split (sep : ascii) (s : string) : list string :=
  match s with
  | EmptyString => [EmptyString]
  | String c s' =>
      if Ascii.eqb c sep then EmptyString :: split sep s'
      else
        match split sep s' with
        | piece :: rest => String c piece :: rest
        | [] => [String c EmptyString]
        end
  end.

(** [sep.join(l)] for a one-character separator *)
Fixpoint join (sep : ascii) (l : list string) : string :=
  match l with
  | [] => EmptyString
  | [x] => x
  | x :: l' => String.append x (String sep (join sep l'))
  end.

(** [s.replace(a, b)] for one-character [a] and [b] *)
Fixpoint replace (a b : ascii) (s : string) : string :=
  match s with
  | EmptyString => EmptyString
  | String c s' => String (if Ascii.eqb c a then b else c) (replace a b s')
  end.

(** [c in s] for a character *)
Fixpoint contains (c : ascii) (s : string) : bool :=
  match s with
  | EmptyString => false
  | String c' s' => if Ascii.eqb c' c then true else contains c s'
  end.

(** [l[-2]], [None] standing for [IndexError] *)
Definition index_minus_2 {A : Type} (l : list A) : option A :=
  match rev l with
  | _ :: x :: _ => Some x
  | _ => None
  end.

(** ** [Perf.__init__] and [__main__]: what is derived from the command line *)

Module Setup.

Definition NS_IN_S : Z := 1000000000.

(** [session_name] of [Perf.__init__]: the last but one ['/']-separated
    piece of the trace path, hyphens replaced by underscores; the subscript
    [[-2]] raises [IndexError] ([None]) when the path has no ['/']. *)
Definition session_name (path : string) : option string :=
  match index_minus_2 (split "/"%char path) with
  | Some name => Some (replace "-"%char "_"%char name)
  | None => None
  end.

(** [types] of [__main__], from [--type] (default ['all']). *)
Definition parse_types (type_ : string) : option (list string) :=
  if negb (String.eqb type_ "all") then Some (split ","%char type_) else None.

(** [args.tid] as rewritten by [__main__], from [--tid]; [None] is the
    default 0. *)
Definition parse_tid (raw : option string) : option (list string) :=
  match raw with
  | Some s => if truthy_str s then Some (split ","%char s) else None
  | None => None
  end.

(** [args.start] and [args.end] as rewritten by [__main__]: seconds to
    nanoseconds, when the option is given and not 0. *)
Definition to_ns (t : option Z) : option Z :=
  match t with
  | Some n => if negb (n =? 0) then Some (n * NS_IN_S) else Some n
  | None => None
  end.

(** The options as typed, before [__main__] rewrites them. *)
Record RawArgs : Type := mkRawArgs {
  raw_type : string;
  raw_tid : option string;
  raw_pname : option string;
  raw_start : option Z;
  raw_end : option Z;
  raw_unixtime : bool;
  raw_delta : bool;
  raw_json : option string;
  raw_mongo : option string;
  raw_quiet : bool
}.

(** The rewriting of [types], [tid], [start] and [end] by [__main__]
    (the check of the persistence address, which only validates, is left
    out). *)
Definition convert (raw : RawArgs) : Perf.Args * option (list string) :=
  (Perf.mkArgs (parse_tid (raw_tid raw)) (raw_pname raw)
               (to_ns (raw_start raw)) (to_ns (raw_end raw))
               (raw_unixtime raw) (raw_delta raw) (raw_json raw)
               (raw_mongo raw) (raw_quiet raw),
   parse_types (raw_type raw)).

End Setup.

(** The same command line with other time bounds. *)
Definition with_window (s e : option Z) (args : Perf.Args) : Perf.Args :=
  Perf.mkArgs (Perf.tid args) (Perf.pname args) s e
              (Perf.unixtime args) (Perf.delta args) (Perf.json args)
              (Perf.mongo args) (Perf.quiet args).

(** The buffer, the output and the metadata keys of [self'] extend those
    of [self]. *)
Definition grows (self self' : Perf.t) : Prop :=
  Perf.perf self `prefix_of` Perf.perf self' /\
  Perf.stdout self `prefix_of` Perf.stdout self' /\
  dom (Perf.json_metadata self) ⊆ dom (Perf.json_metadata self').

(** The record built for a schedule-switch event: its timestamp and
    [prev_tid], then distinct counter-namespaced keys that pass the type
    filter. *)
Definition record_from (types : option (list string)) (event : Event)
    (r : dict) : Prop :=
  exists rest,
    r = ("ts", ev_timestamp event) :: ("tid", ev_prev_tid event) :: rest /\
    NoDup (keys rest) /\
    Forall (fun k => startswith "perf_" k = true /\
                     Filter.type_allowed types k = true) (keys rest).

Definition is_sched_switch (event : Event) : bool :=
  String.eqb (ev_name event) "sched_switch".

(** The counter-namespaced keys of a record, in order. *)
Definition counter_keys (ret : dict) : list string :=
  List.filter (startswith "perf_") (keys ret).

(** * Properties of the memory-event correlator *)

Section MmFacts.

Implicit Types (s : Mm.t) (event : Event).

Lemma get_current_proc_scheduled s event :
  Mm.get_current_proc s event =
  match Mm.scheduled_on s event with
  | None => Ok None
  | Some k =>
      match Mm.tids s !! k with
      | Some _ => Ok (Some k)
      | None => Raise KeyError
      end
  end.
Proof.
  unfold Mm.get_current_proc, Mm.scheduled_on.
  destruct (Mm.cpus s !! ev_cpu_id event) as [c|]; [|reflexivity].
  destruct (CPU.current_tid c =? -1); [reflexivity|].
  destruct (Mm.tids s !! CPU.current_tid c); reflexivity.
Qed.

(** [page_alloc] written out by cases on the attribution target. *)
Lemma page_alloc_cases s event :
  let g := Mm.add_allocated_pages 1 (Mm.add_count 1 (Mm.mm s)) in
  let s1 := Mm.mk g (Mm.cpus s) (Mm.charge_alloc <$> Mm.tids s)
                  (Mm.dirty_pages s) (Mm.stdout s) in
  Mm.page_alloc s event =
  match Mm.scheduled_on s event with
  | None => (s1, Returned)
  | Some k =>
      match Mm.tids s !! k with
      | None => (s1, Raised KeyError)
      | Some _ =>
          (Mm.set_tids (alter (Mm.add_thread_allocated 1) k (Mm.tids s1)) s1,
           Returned)
      end
  end.
Proof.
  intros g s1. unfold Mm.page_alloc.
  rewrite get_current_proc_scheduled. simpl.
  change (Mm.scheduled_on _ event) with (Mm.scheduled_on s event).
  destruct (Mm.scheduled_on s event) as [k|]; [|reflexivity].
  rewrite lookup_fmap. destruct (Mm.tids s !! k); reflexivity.
Qed.

(** [page_free] written out by cases. *)
Lemma page_free_cases s event :
  let g := Mm.add_freed_pages 1 (Mm.mm s) in
  let s0 := Mm.set_mm g s in
  let s1 := Mm.set_mm (Mm.add_count (-1) g) s in
  Mm.page_free s event =
  if Mm.g_count (Mm.mm s) =? 0 then (s0, Returned)
  else
    match Mm.scheduled_on s event with
    | None => (s1, Returned)
    | Some k =>
        match Mm.tids s !! k with
        | None => (s1, Raised KeyError)
        | Some _ =>
            (Mm.set_tids (alter (Mm.add_thread_freed 1) k (Mm.tids s)) s1,
             Returned)
        end
    end.
Proof.
  intros g s0 s1. unfold Mm.page_free. simpl.
  destruct (Mm.g_count (Mm.mm s) =? 0); [reflexivity|].
  rewrite get_current_proc_scheduled. simpl.
  change (Mm.scheduled_on _ event) with (Mm.scheduled_on s event).
  destruct (Mm.scheduled_on s event) as [k|]; [|reflexivity].
  destruct (Mm.tids s !! k); reflexivity.
Qed.

(** With nothing in flight, [page_free] returns right after counting the
    free globally. *)
Lemma page_free_zero_count s event :
  Mm.g_count (Mm.mm s) = 0 ->
  Mm.page_free s event = (Mm.set_mm (Mm.add_freed_pages 1 (Mm.mm s)) s, Returned).
Proof.
  intros H. rewrite page_free_cases. cbv zeta. rewrite H. reflexivity.
Qed.

Lemma page_alloc_count s event :
  Mm.g_count (Mm.mm (Mm.page_alloc s event).1) = Mm.g_count (Mm.mm s) + 1.
Proof.
  rewrite page_alloc_cases.
  destruct (Mm.scheduled_on s event) as [k|]; [|reflexivity].
  destruct (Mm.tids s !! k); reflexivity.
Qed.

Lemma page_free_count s event :
  Mm.g_count (Mm.mm (Mm.page_free s event).1) =
  if Mm.g_count (Mm.mm s) =? 0 then 0 else Mm.g_count (Mm.mm s) - 1.
Proof.
  rewrite page_free_cases.
  destruct (Mm.g_count (Mm.mm s) =? 0) eqn:E.
  - simpl. lia.
  - destruct (Mm.scheduled_on s event) as [k|]; [|simpl; lia].
    destruct (Mm.tids s !! k); simpl; lia.
Qed.

Lemma call_count_nonneg s c :
  0 <= Mm.g_count (Mm.mm s) -> 0 <= Mm.g_count (Mm.mm (Mm.call s c).1).
Proof.
  intros H. destruct c as [event|event]; simpl.
  - rewrite page_alloc_count. lia.
  - rewrite page_free_count. destruct (Mm.g_count (Mm.mm s) =? 0) eqn:E; lia.
Qed.

Lemma trace_count_nonneg cs : forall s,
  0 <= Mm.g_count (Mm.mm s) ->
  Forall (fun s' => 0 <= Mm.g_count (Mm.mm s')) (Mm.trace s cs).
Proof.
  induction cs as [|c cs IH]; intros s H; simpl.
  - constructor.
  - pose proof (call_count_nonneg s c H) as Hc.
    destruct (Mm.call s c) as [s' [|e]]; simpl in Hc.
    + constructor; [exact Hc | apply IH; exact Hc].
    + constructor; [exact Hc | constructor].
Qed.

End MmFacts.

(** C3. Starting from the state set up by [Mm.__init__], over any
    registries, the in-flight page count is non-negative after every
    processed call of any sequence of [page_alloc] and [page_free] calls
    (the state at a raise included). *)
Theorem count_never_negative :
  forall (cpus0 : gmap Z CPU.t) (tids0 : gmap Z Thread.t) (cs : list Mm.PageCall),
    Forall (fun s => 0 <= Mm.g_count (Mm.mm s)) (Mm.trace (Mm.init cpus0 tids0) cs).
Proof.
  intros cpus0 tids0 cs. apply trace_count_nonneg. simpl. lia.
Qed.

(** C7. Right after a writeback summary event the epoch counter [dirty]
    is 0, whatever it was before, and the handler returns normally. *)
Theorem writeback_resets_dirty :
  forall (s : Mm.t) (event : Event),
    Mm.g_dirty (Mm.mm (Mm.writeback_global_dirty_state s event).1) = 0 /\
    (Mm.writeback_global_dirty_state s event).2 = Returned.
Proof. intros s event. split; reflexivity. Qed.

(** C10. A writeback summary event changes no field of the global
    counters but [dirty], and leaves the thread registry, the CPU registry
    and the dirty-page log as they were. *)
Theorem writeback_frame :
  forall (s : Mm.t) (event : Event),
    let s' := (Mm.writeback_global_dirty_state s event).1 in
    Mm.g_allocated_pages (Mm.mm s') = Mm.g_allocated_pages (Mm.mm s) /\
    Mm.g_freed_pages (Mm.mm s') = Mm.g_freed_pages (Mm.mm s) /\
    Mm.g_count (Mm.mm s') = Mm.g_count (Mm.mm s) /\
    Mm.tids s' = Mm.tids s /\
    Mm.cpus s' = Mm.cpus s /\
    Mm.dirty_pages s' = Mm.dirty_pages s.
Proof. intros s event. cbv zeta. repeat split. Qed.

Section MmAttribution.

Implicit Types (s : Mm.t) (event : Event) (p : Thread.t).

Lemma block_dirty_buffer_unseen_cpu s event :
  Mm.cpus s !! ev_cpu_id event = None ->
  Mm.block_dirty_buffer s event = (Mm.set_mm (Mm.add_dirty 1 (Mm.mm s)) s, Returned).
Proof. intros H. unfold Mm.block_dirty_buffer. simpl. rewrite H. reflexivity. Qed.

Lemma block_dirty_buffer_sentinel s event c :
  Mm.cpus s !! ev_cpu_id event = Some c ->
  CPU.current_tid c <= 0 ->
  Mm.block_dirty_buffer s event = (Mm.set_mm (Mm.add_dirty 1 (Mm.mm s)) s, Returned).
Proof.
  intros H Hle. unfold Mm.block_dirty_buffer. simpl. rewrite H.
  destruct (Z.leb_spec (CPU.current_tid c) 0); [reflexivity | lia].
Qed.

Lemma block_dirty_buffer_unregistered s event c :
  Mm.cpus s !! ev_cpu_id event = Some c ->
  Mm.tids s !! CPU.current_tid c = None ->
  (Mm.block_dirty_buffer s event).2 =
  if CPU.current_tid c <=? 0 then Returned else Raised KeyError.
Proof.
  intros H Hn. unfold Mm.block_dirty_buffer. simpl. rewrite H.
  destruct (CPU.current_tid c <=? 0); [reflexivity|]. rewrite Hn. reflexivity.
Qed.

Lemma scheduled_on_unseen s event :
  Mm.cpus s !! ev_cpu_id event = None -> Mm.scheduled_on s event = None.
Proof. intros H. unfold Mm.scheduled_on. rewrite H. reflexivity. Qed.

Lemma scheduled_on_seen s event c :
  Mm.cpus s !! ev_cpu_id event = Some c ->
  Mm.scheduled_on s event =
  if CPU.current_tid c =? -1 then None else Some (CPU.current_tid c).
Proof. intros H. unfold Mm.scheduled_on. rewrite H. reflexivity. Qed.

Lemma charge_alloc_pages p :
  Thread.allocated_pages (Mm.charge_alloc p) = Thread.allocated_pages p /\
  Thread.freed_pages (Mm.charge_alloc p) = Thread.freed_pages p.
Proof.
  unfold Mm.charge_alloc.
  destruct (syscall_is_empty (Thread.current_syscall p)); split; reflexivity.
Qed.

End MmAttribution.

(** C1 (the code departs from the specification). [page_free] on a state whose
    in-flight count is 0, with thread 200 scheduled on the CPU of the
    event: the global [freed_pages] is incremented and the count stays 0,
    but the early return leaves the [freed_pages] of thread 200 at 0,
    whereas [page_alloc] on the same state charges that thread. *)
Theorem page_free_zero_count_skips_thread :
  let s := Mm.init {[0 := CPU.mk 200]} {[200 := plain_thread 200 "b"]} in
  let r := Mm.page_free s (mm_event 0) in
  Mm.scheduled_on s (mm_event 0) = Some 200 /\
  Mm.g_freed_pages (Mm.mm r.1) = 1 /\
  Mm.g_count (Mm.mm r.1) = 0 /\
  r.2 = Returned /\
  Thread.freed_pages <$> (Mm.tids r.1 !! 200) = Some 0 /\
  Thread.allocated_pages <$>
    (Mm.tids (Mm.page_alloc s (mm_event 0)).1 !! 200) = Some 1.
Proof. vm_compute. repeat split. Qed.

(** C2 does not hold as stated: with CPU 0 registered and running
    tid 7, which the thread registry does not hold, each of the three
    handlers raises [KeyError] ([page_free] once the count is not 0). *)
Lemma unregistered_tid_raises :
  let s := Mm.set_mm (Mm.mkGlobal 1 0 1 0) (Mm.init {[0 := CPU.mk 7]} ∅) in
  Mm.cpus s !! 0 = Some (CPU.mk 7) /\
  Mm.tids s !! 7 = None /\
  (Mm.page_alloc s (mm_event 0)).2 = Raised KeyError /\
  (Mm.page_free s (mm_event 0)).2 = Raised KeyError /\
  (Mm.block_dirty_buffer s (mm_event 0)).2 = Raised KeyError.
Proof. vm_compute. repeat split. Qed.

(** C2, amended. For an event whose CPU was never seen, each of the three
    handlers returns normally and skips the attribution: no thread's
    [allocated_pages] or [freed_pages] changes and the dirty-page log is
    untouched.  For an event whose CPU runs a tid that is not registered,
    the handler skips the attribution only for a sentinel ([-1] for the
    page handlers, any tid [<= 0] for the dirty-buffer handler); for any
    other tid the registry subscript raises [KeyError] ([page_free] being
    considered with a non-zero count). *)
Theorem unknown_ids_handling :
  forall (s : Mm.t) (event : Event),
    (Mm.cpus s !! ev_cpu_id event = None ->
       (Mm.page_alloc s event).2 = Returned /\
       (Mm.page_free s event).2 = Returned /\
       (Mm.block_dirty_buffer s event).2 = Returned /\
       (forall k, Thread.allocated_pages <$> (Mm.tids (Mm.page_alloc s event).1 !! k)
                  = Thread.allocated_pages <$> (Mm.tids s !! k)) /\
       Mm.tids (Mm.page_free s event).1 = Mm.tids s /\
       Mm.tids (Mm.block_dirty_buffer s event).1 = Mm.tids s /\
       Mm.dirty_pages (Mm.block_dirty_buffer s event).1 = Mm.dirty_pages s) /\
    (forall c, Mm.cpus s !! ev_cpu_id event = Some c ->
       Mm.tids s !! CPU.current_tid c = None ->
       ((Mm.page_alloc s event).2 =
          if CPU.current_tid c =? -1 then Returned else Raised KeyError) /\
       (Mm.g_count (Mm.mm s) <> 0 ->
        (Mm.page_free s event).2 =
          if CPU.current_tid c =? -1 then Returned else Raised KeyError) /\
       ((Mm.block_dirty_buffer s event).2 =
          if CPU.current_tid c <=? 0 then Returned else Raised KeyError)).
Proof.
  intros s event. split.
  - intros Hc. pose proof (scheduled_on_unseen s event Hc) as Hs.
    rewrite page_alloc_cases, page_free_cases, Hs.
    rewrite (block_dirty_buffer_unseen_cpu s event Hc). simpl.
    repeat split.
    + destruct (Mm.g_count (Mm.mm s) =? 0); reflexivity.
    + intros k. rewrite lookup_fmap.
      destruct (Mm.tids s !! k) as [p|]; simpl; [|reflexivity].
      f_equal. apply charge_alloc_pages.
    + destruct (Mm.g_count (Mm.mm s) =? 0); reflexivity.
  - intros c Hc Hn.
    pose proof (scheduled_on_seen s event c Hc) as Hs.
    rewrite page_alloc_cases, page_free_cases, Hs.
    rewrite (block_dirty_buffer_unregistered s event c Hc Hn).
    repeat split.
    + destruct (CPU.current_tid c =? -1); [reflexivity|]. rewrite Hn. reflexivity.
    + intros Hcount. destruct (Z.eqb_spec (Mm.g_count (Mm.mm s)) 0); [contradiction|].
      destruct (CPU.current_tid c =? -1); [reflexivity|]. rewrite Hn. reflexivity.
Qed.

Lemma unknown_ids_handling_witness :
  (let s := Mm.init ∅ {[200 := plain_thread 200 "b"]} in
   (Mm.page_alloc s (mm_event 3)).2 = Returned /\
   Mm.tids (Mm.block_dirty_buffer s (mm_event 3)).1 = Mm.tids s) /\
  (let s := Mm.set_mm (Mm.mkGlobal 1 0 1 0) (Mm.init {[0 := CPU.mk 7]} ∅) in
   (Mm.page_alloc s (mm_event 0)).2 = Raised KeyError /\
   (Mm.page_free s (mm_event 0)).2 = Raised KeyError /\
   (Mm.block_dirty_buffer s (mm_event 0)).2 = Raised KeyError).
Proof.
  split; cbv zeta.
  - destruct (unknown_ids_handling
                (Mm.init ∅ {[200 := plain_thread 200 "b"]}) (mm_event 3))
      as [H _].
    destruct (H eq_refl) as (Ha & _ & _ & _ & _ & Ht & _).
    split; [exact Ha | exact Ht].
  - destruct (unknown_ids_handling
                (Mm.set_mm (Mm.mkGlobal 1 0 1 0) (Mm.init {[0 := CPU.mk 7]} ∅))
                (mm_event 0))
      as [_ H].
    destruct (H (CPU.mk 7) eq_refl eq_refl) as (Ha & Hf & Hb).
    split; [exact Ha|]. split; [|exact Hb].
    apply Hf. simpl. lia.
Defined.

Lemma charge_alloc_syscall (p : Thread.t) :
  let d := Thread.current_syscall p in
  let d' := Thread.current_syscall (Mm.charge_alloc p) in
  sc_alloc d' =
    (if syscall_is_empty d then None
     else match sc_alloc d with None => Some 1 | Some n => Some (n + 1) end) /\
  sc_name d' = sc_name d /\ sc_fd d' = sc_fd d /\ sc_other d' = sc_other d.
Proof.
  unfold Mm.charge_alloc. cbv zeta.
  destruct (Thread.current_syscall p) as [n f a o] eqn:Ed.
  destruct (syscall_is_empty (mkSyscall n f a o)) eqn:E.
  - rewrite Ed. repeat split. unfold syscall_is_empty in E. simpl in *.
    destruct n, f, a; try discriminate. reflexivity.
  - simpl. destruct a; repeat split.
Qed.

(** C6. [page_alloc] adds one to the global [allocated_pages] and
    [count]; every registered thread stays registered, keeps its syscall
    dict when that dict is empty and otherwise gets its ["alloc"] entry
    incremented (set to 1 when absent), the other keys untouched; and the
    exclusive [allocated_pages] of a thread grows by one exactly when it
    is the thread scheduled on the CPU of the event, the [-1] sentinel and
    an unseen CPU giving no target.  No thread is added. *)
Theorem page_alloc_effects :
  forall (s : Mm.t) (event : Event),
    let s' := (Mm.page_alloc s event).1 in
    Mm.g_allocated_pages (Mm.mm s') = Mm.g_allocated_pages (Mm.mm s) + 1 /\
    Mm.g_count (Mm.mm s') = Mm.g_count (Mm.mm s) + 1 /\
    (forall k, Mm.tids s !! k = None -> Mm.tids s' !! k = None) /\
    (forall k p, Mm.tids s !! k = Some p ->
       exists p', Mm.tids s' !! k = Some p' /\
         let d := Thread.current_syscall p in
         let d' := Thread.current_syscall p' in
         sc_alloc d' =
           (if syscall_is_empty d then None
            else match sc_alloc d with
                 | None => Some 1
                 | Some n => Some (n + 1)
                 end) /\
         sc_name d' = sc_name d /\ sc_fd d' = sc_fd d /\ sc_other d' = sc_other d /\
         Thread.allocated_pages p' =
           Thread.allocated_pages p +
           (if bool_decide (Mm.scheduled_on s event = Some k) then 1 else 0) /\
         Thread.freed_pages p' = Thread.freed_pages p).
Proof.
  intros s event s'.
  pose proof charge_alloc_syscall as Hch.
  subst s'. rewrite page_alloc_cases. cbv zeta.
  destruct (Mm.scheduled_on s event) as [t|] eqn:Hs.
  - destruct (Mm.tids s !! t) as [pt|] eqn:Ht; simpl.
    + split; [reflexivity|]. split; [reflexivity|]. split.
      * intros k Hk. destruct (decide (t = k)) as [->|Hne]; [congruence|].
        rewrite lookup_alter_ne by done. rewrite lookup_fmap, Hk. reflexivity.
      * intros k p Hk. destruct (decide (t = k)) as [->|Hne].
        -- rewrite lookup_alter_eq, lookup_fmap, Hk. simpl.
           eexists; split; [reflexivity|]. simpl.
           destruct (Hch p) as (H1 & H2 & H3 & H4).
           rewrite bool_decide_eq_true_2 by reflexivity.
           destruct (charge_alloc_pages p) as [Ha Hf].
           repeat split; try assumption; lia.
        -- rewrite lookup_alter_ne by done. rewrite lookup_fmap, Hk. simpl.
           eexists; split; [reflexivity|].
           destruct (Hch p) as (H1 & H2 & H3 & H4).
           rewrite bool_decide_eq_false_2 by congruence.
           destruct (charge_alloc_pages p) as [Ha Hf].
           repeat split; try assumption; lia.
    + split; [reflexivity|]. split; [reflexivity|]. split.
      * intros k Hk. rewrite lookup_fmap, Hk. reflexivity.
      * intros k p Hk. rewrite lookup_fmap, Hk. simpl.
        eexists; split; [reflexivity|].
        destruct (Hch p) as (H1 & H2 & H3 & H4).
        rewrite bool_decide_eq_false_2 by congruence.
        destruct (charge_alloc_pages p) as [Ha Hf].
        repeat split; try assumption; lia.
  - simpl. split; [reflexivity|]. split; [reflexivity|]. split.
    + intros k Hk. rewrite lookup_fmap, Hk. reflexivity.
    + intros k p Hk. rewrite lookup_fmap, Hk. simpl.
      eexists; split; [reflexivity|].
      destruct (Hch p) as (H1 & H2 & H3 & H4).
      destruct (charge_alloc_pages p) as [Ha Hf].
      repeat split; try assumption; lia.
Qed.

Lemma page_alloc_effects_witness :
  let s := Mm.init {[0 := CPU.mk 200]}
                   {[100 := Thread.mk 100 "a" ∅ 0 0 (mkSyscall (Some "read") None None ∅);
                     200 := plain_thread 200 "b"]} in
  let s' := (Mm.page_alloc s (mm_event 0)).1 in
  Mm.tids s' !! 7 = None /\
  (exists p', Mm.tids s' !! 100 = Some p' /\
              sc_alloc (Thread.current_syscall p') = Some 1 /\
              Thread.allocated_pages p' = 0) /\
  (exists p', Mm.tids s' !! 200 = Some p' /\
              sc_alloc (Thread.current_syscall p') = None /\
              Thread.allocated_pages p' = 1).
Proof.
  intros s s'.
  destruct (page_alloc_effects s (mm_event 0)) as (_ & _ & Hnone & Hsome).
  split; [apply Hnone; reflexivity|]. split.
  - destruct (Hsome 100 (Thread.mk 100 "a" ∅ 0 0 (mkSyscall (Some "read") None None ∅))
                    eq_refl) as (p' & Hp & Ha & _ & _ & _ & Hal & _).
    exists p'. split; [exact Hp|]. split; [exact Ha | exact Hal].
  - destruct (Hsome 200 (plain_thread 200 "b") eq_refl)
      as (p' & Hp & Ha & _ & _ & _ & Hal & _).
    exists p'. split; [exact Hp|]. split; [exact Ha | exact Hal].
Defined.

(** C9 does not hold as stated for [page_free]: with CPU 0 running tid
    0 and nothing in flight (the state set by [__init__]), [page_free]
    returns before it calls [get_current_proc]; the thread registered
    under tid 0 is not charged, and with no such thread the call returns
    normally although [get_current_proc] itself would raise. *)
Lemma page_free_idle_tid_not_looked_up :
  let s := Mm.init {[0 := CPU.mk 0]} {[0 := plain_thread 0 "swapper"]} in
  let s0 := Mm.init {[0 := CPU.mk 0]} ∅ in
  Mm.cpus s !! 0 = Some (CPU.mk 0) /\
  Mm.g_count (Mm.mm s) = 0 /\
  Mm.get_current_proc s (mm_event 0) = Ok (Some 0) /\
  (Mm.page_free s (mm_event 0)).2 = Returned /\
  Thread.freed_pages <$> (Mm.tids (Mm.page_free s (mm_event 0)).1 !! 0) = Some 0 /\
  Mm.get_current_proc s0 (mm_event 0) = Raise KeyError /\
  (Mm.page_free s0 (mm_event 0)).2 = Returned.
Proof. vm_compute. repeat split. Qed.

(** C9, amended. The idle sentinel is handled asymmetrically.  For an
    event on a registered CPU: [block_dirty_buffer] skips the attribution
    for every [current_tid <= 0], only counting the page as dirty;
    [get_current_proc] gives no target exactly for [-1], and for
    [current_tid = 0] it subscripts the thread registry at 0, so that
    [page_alloc], and [page_free] when the in-flight count is not 0, charge
    the thread registered under tid 0 (and raise [KeyError] when there is
    none). *)
Theorem idle_sentinel_asymmetry :
  forall (s : Mm.t) (event : Event) (c : CPU.t),
    Mm.cpus s !! ev_cpu_id event = Some c ->
    (CPU.current_tid c <= 0 ->
       Mm.block_dirty_buffer s event =
       (Mm.set_mm (Mm.add_dirty 1 (Mm.mm s)) s, Returned)) /\
    (Mm.get_current_proc s event = Ok None <-> CPU.current_tid c = -1) /\
    (CPU.current_tid c = 0 ->
       Mm.get_current_proc s event =
         match Mm.tids s !! 0 with
         | Some _ => Ok (Some 0)
         | None => Raise KeyError
         end /\
       (Mm.tids s !! 0 = None ->
          (Mm.page_alloc s event).2 = Raised KeyError /\
          (Mm.g_count (Mm.mm s) <> 0 ->
           (Mm.page_free s event).2 = Raised KeyError)) /\
       (forall p, Mm.tids s !! 0 = Some p ->
          Mm.tids (Mm.page_alloc s event).1 !! 0 =
            Some (Mm.add_thread_allocated 1 (Mm.charge_alloc p)) /\
          (Mm.g_count (Mm.mm s) <> 0 ->
           Mm.tids (Mm.page_free s event).1 !! 0 =
             Some (Mm.add_thread_freed 1 p)))).
Proof.
  intros s event c Hc. split; [|split].
  - intros Hle. exact (block_dirty_buffer_sentinel s event c Hc Hle).
  - unfold Mm.get_current_proc. rewrite Hc.
    destruct (Z.eqb_spec (CPU.current_tid c) (-1)) as [E|E].
    + split; [intros _; exact E | reflexivity].
    + destruct (Mm.tids s !! CPU.current_tid c); split;
        try discriminate; intros; contradiction.
  - intros Hz.
    assert (Hs : Mm.scheduled_on s event = Some 0).
    { rewrite (scheduled_on_seen s event c Hc), Hz. reflexivity. }
    split; [|split].
    + rewrite get_current_proc_scheduled, Hs. reflexivity.
    + intros Hn. rewrite page_alloc_cases, page_free_cases, Hs, Hn.
      split; [reflexivity|]. intros Hcount.
      destruct (Z.eqb_spec (Mm.g_count (Mm.mm s)) 0); [contradiction | reflexivity].
    + intros p Hp. rewrite page_alloc_cases, page_free_cases, Hs, Hp. split.
      * simpl. rewrite lookup_alter_eq, lookup_fmap, Hp. reflexivity.
      * intros Hcount.
        destruct (Z.eqb_spec (Mm.g_count (Mm.mm s)) 0); [contradiction|].
        simpl. rewrite lookup_alter_eq, Hp. reflexivity.
Qed.

Lemma idle_sentinel_asymmetry_witness :
  let s := Mm.set_mm (Mm.mkGlobal 1 0 1 0)
             (Mm.init {[0 := CPU.mk 0]}
                      {[0 := Thread.mk 0 "swapper" ∅ 0 0
                                       (mkSyscall (Some "write") (Some (mkFD "f" 3)) None ∅)]}) in
  (Mm.block_dirty_buffer s (mm_event 0)).2 = Returned /\
  Mm.dirty_pages (Mm.block_dirty_buffer s (mm_event 0)).1 = Mm.dirty_pages s /\
  Thread.allocated_pages <$> (Mm.tids (Mm.page_alloc s (mm_event 0)).1 !! 0) = Some 1 /\
  Thread.freed_pages <$> (Mm.tids (Mm.page_free s (mm_event 0)).1 !! 0) = Some 1.
Proof.
  intros s.
  destruct (idle_sentinel_asymmetry s (mm_event 0) (CPU.mk 0) eq_refl)
    as (Hb & _ & Hz).
  assert (Hle : CPU.current_tid (CPU.mk 0) <= 0) by (simpl; lia).
  rewrite (Hb Hle).
  destruct (Hz eq_refl) as (_ & _ & Hp).
  destruct (Hp _ eq_refl) as (Ha & Hf).
  assert (Hcount : Mm.g_count (Mm.mm s) <> 0) by (simpl; lia).
  rewrite Ha, (Hf Hcount). repeat split.
Defined.

(** * Properties of the record emitter *)

Section PythonFacts.

Lemma str_inj (a b : Z) : str a = str b -> a = b.
Proof.
  unfold str. intros H.
  assert (Hi : Z.to_int a = Z.to_int b).
  { pose proof (NilEmpty.isi (Z.to_int a)) as Ha.
    pose proof (NilEmpty.isi (Z.to_int b)) as Hb.
    rewrite H in Ha. rewrite Ha in Hb. congruence. }
  rewrite <- (DecimalZ.of_to a), <- (DecimalZ.of_to b), Hi. reflexivity.
Qed.

Lemma str_in_singleton (a b : Z) : str_in (str a) [str b] = (a =? b).
Proof.
  simpl. destruct (String.eqb_spec (str a) (str b)) as [E|E].
  - apply str_inj in E. subst. symmetry. apply Z.eqb_refl.
  - destruct (Z.eqb_spec a b); [subst; contradiction | reflexivity].
Qed.

Lemma dict_get_set_eq (k : string) (v : Z) (d : dict) :
  dict_get k (dict_set k v d) = Some v.
Proof.
  induction d as [|[k' v'] d IH]; simpl.
  - rewrite String.eqb_refl. reflexivity.
  - destruct (String.eqb k k') eqn:E; simpl; rewrite E; [reflexivity | exact IH].
Qed.

Lemma dict_get_set_ne (k c : string) (v : Z) (d : dict) :
  k <> c -> dict_get k (dict_set c v d) = dict_get k d.
Proof.
  intros Hne. induction d as [|[k' v'] d IH]; simpl.
  - destruct (String.eqb_spec k c); [contradiction | reflexivity].
  - destruct (String.eqb_spec c k') as [->|E]; simpl.
    + destruct (String.eqb_spec k k'); [contradiction | reflexivity].
    + destruct (String.eqb k k'); [reflexivity | exact IH].
Qed.

Lemma dict_get_elem (k : string) (v : Z) (d : dict) :
  NoDup (keys d) -> (k, v) ∈ d -> dict_get k d = Some v.
Proof.
  induction d as [|[k' v'] d IH]; simpl; intros Hnd Hin.
  - apply elem_of_nil in Hin. contradiction.
  - apply NoDup_cons in Hnd as [Hnotin Hnd].
    apply elem_of_cons in Hin as [E|Hin].
    + injection E as -> ->. rewrite String.eqb_refl. reflexivity.
    + destruct (String.eqb_spec k k') as [->|Hne].
      * exfalso. apply Hnotin. unfold keys.
        apply (list_elem_of_fmap_2 fst) in Hin. exact Hin.
      * apply IH; assumption.
Qed.

End PythonFacts.

Section EmitterFacts.

Implicit Types (args : Perf.Args) (self : Perf.t) (event : Event) (ret : dict).

Lemma tid_allowed_code args tid :
  Perf.truthy_list (Perf.tid args) &&
  negb (match Perf.tid args with Some l => str_in (str tid) l | None => false end)
  = negb (Filter.tid_allowed args tid).
Proof.
  unfold Filter.tid_allowed. destruct (Perf.tid args) as [[|x l]|]; simpl; try reflexivity.
Qed.

Lemma pname_allowed_code args comm :
  match Perf.pname args with
  | Some n => negb (String.eqb n comm)
  | None => false
  end = negb (Filter.pname_allowed args comm).
Proof. unfold Filter.pname_allowed. destruct (Perf.pname args); reflexivity. Qed.

Lemma window_code args ts :
  (if Perf.truthy_int (Perf.start args) &&
      match Perf.start args with Some s => ts <? s | None => false end
   then true
   else Perf.truthy_int (Perf.end_ args) &&
        match Perf.end_ args with Some e => ts >? e | None => false end)
  = negb (Filter.in_window args ts).
Proof.
  unfold Filter.in_window, Filter.after_start, Filter.before_end, Perf.truthy_int.
  destruct (Perf.start args) as [s|], (Perf.end_ args) as [e|]; simpl;
    repeat match goal with
           | |- context [?a =? ?b] => destruct (Z.eqb_spec a b)
           | |- context [?a <? ?b] => destruct (Z.ltb_spec a b)
           | |- context [?a >? ?b] => rewrite (Z.gtb_ltb a b)
           | |- context [?a <=? ?b] => destruct (Z.leb_spec a b)
           end; simpl; try reflexivity; lia.
Qed.

Lemma output_loop_spec args endtime comm tid ret : forall insert,
  Perf.output_loop args endtime comm tid ret insert =
  (Filter.lines_of args endtime comm tid ret,
   insert || (Filter.has_counter ret && Filter.sink_configured args)).
Proof.
  unfold Filter.lines_of, Filter.has_counter, Filter.sink_configured.
  induction ret as [|[k v] ret IH]; intros insert.
  - cbn. destruct (Perf.quiet args); rewrite orb_false_r; reflexivity.
  - cbn [Perf.output_loop List.filter map keys existsb fst snd].
    destruct (startswith "perf_" k) eqn:Ek.
    + rewrite IH. cbn [orb map fst snd].
      destruct (Perf.truthy_opt_str (Perf.json args) || Perf.truthy_opt_str (Perf.mongo args));
        destruct (Perf.quiet args); cbn [negb andb orb];
        rewrite ?orb_true_r, ?andb_true_r, ?andb_false_r, ?orb_false_r; reflexivity.
    + cbn [orb]. apply IH.
Qed.

(** [output_perf] as the chain of its filters. *)
Lemma output_perf_spec args self event ret :
  Perf.output_perf args self event ret =
  let tid := ev_prev_tid event in
  if negb (Filter.tid_allowed args tid) then (self, Returned)
  else
    match State.tids (Perf.state self) !! tid with
    | None => (self, Raised KeyError)
    | Some th =>
        if negb (Filter.pname_allowed args (Thread.comm th)) then (self, Returned)
        else if negb (String.eqb (ev_name event) "sched_switch") then (self, Returned)
        else if negb (Filter.in_window args (ev_timestamp event)) then (self, Returned)
        else (Filter.emit args self event th ret, Returned)
    end.
Proof.
  unfold Perf.output_perf. cbv zeta.
  rewrite tid_allowed_code.
  destruct (negb (Filter.tid_allowed args (ev_prev_tid event))); [reflexivity|].
  destruct (State.tids (Perf.state self) !! ev_prev_tid event) as [th|]; [|reflexivity].
  rewrite pname_allowed_code.
  destruct (negb (Filter.pname_allowed args (Thread.comm th))); [reflexivity|].
  destruct (negb (String.eqb (ev_name event) "sched_switch")); [reflexivity|].
  rewrite <- window_code.
  destruct (Perf.truthy_int (Perf.start args) &&
            match Perf.start args with
            | Some s => ev_timestamp event <? s
            | None => false
            end); [reflexivity|].
  destruct (Perf.truthy_int (Perf.end_ args) &&
            match Perf.end_ args with
            | Some e => ev_timestamp event >? e
            | None => false
            end); [reflexivity|].
  rewrite output_loop_spec. unfold Filter.emit, Filter.endtime_of, Filter.pid_of.
  simpl.
  destruct (Filter.has_counter ret && Filter.sink_configured args); reflexivity.
Qed.

End EmitterFacts.

Section Logging.

Implicit Types (self : Perf.t) (ret : dict).

(** The metadata kept by [log_perf_event_json] for a record of thread
    [tid] filed under [pid]. *)
Lemma log_perf_event_json_metadata self ts comm tid pid ret :
  let md := Perf.json_metadata self in
  let md' := Perf.json_metadata (Perf.log_perf_event_json self ts comm tid pid ret) in
  (forall q, q <> pid -> md' !! q = md !! q) /\
  exists m, md' !! pid = Some m /\
    if pid =? tid
    then Perf.md_pname m = comm /\
         Perf.md_threads m = from_option Perf.md_threads ∅ (md !! pid)
    else Perf.md_pname m = from_option Perf.md_pname "unknown" (md !! pid) /\
         Perf.md_threads m =
           <[str tid := comm]> (from_option Perf.md_threads ∅ (md !! pid)).
Proof.
  unfold Perf.log_perf_event_json. cbn [Perf.json_metadata].
  destruct (pid =? tid).
  - destruct (Perf.json_metadata self !! pid) as [m|] eqn:Em.
    + destruct (String.eqb_spec (Perf.md_pname m) comm) as [E|E]; cbn [negb].
      * split; [reflexivity|]. exists m. rewrite Em.
        split; [reflexivity|]. split; [exact E | reflexivity].
      * split; [intros q Hq; apply lookup_insert_ne; congruence|].
        eexists. rewrite lookup_insert_eq. split; [reflexivity|]. cbn. split; reflexivity.
    + split; [intros q Hq; apply lookup_insert_ne; congruence|].
      eexists. rewrite lookup_insert_eq. split; [reflexivity|]. cbn. split; reflexivity.
  - destruct (Perf.json_metadata self !! pid) as [m|] eqn:Em.
    + rewrite Em. cbn [from_option].
      destruct (Perf.md_threads m !! str tid) as [c|] eqn:Ec.
      * destruct (String.eqb_spec c comm) as [E|E]; cbn [negb].
        -- split; [reflexivity|]. exists m. rewrite Em.
           split; [reflexivity|]. split; [reflexivity|].
           subst c. symmetry. apply insert_id. exact Ec.
        -- split; [intros q Hq; apply lookup_insert_ne; congruence|].
           eexists. rewrite lookup_insert_eq. split; [reflexivity|]. cbn. split; reflexivity.
      * split; [intros q Hq; apply lookup_insert_ne; congruence|].
        eexists. rewrite lookup_insert_eq. split; [reflexivity|]. cbn. split; reflexivity.
    + rewrite lookup_insert_eq. cbn [Perf.md_threads Perf.md_pname from_option].
      rewrite lookup_empty.
      split.
      * intros q Hq. rewrite !lookup_insert_ne by congruence. reflexivity.
      * eexists. rewrite lookup_insert_eq. split; [reflexivity|]. cbn. split; reflexivity.
Qed.

End Logging.

(** C4 does not hold as stated: with no sink configured, a record
    that passes the three filters and carries a counter field is printed
    but neither appended to the output buffer nor filed in the metadata. *)
Lemma unlogged_without_sink :
  let self := Perf.init (State.mk ∅ {[100 := plain_thread 100 "a"]}) in
  let event := sched_switch 3 0 100 200 [("perf_x", 25)] in
  let d := [("ts", 3); ("tid", 100); ("perf_x", 15)] in
  let r := Perf.output_perf no_args self event d in
  Filter.tid_allowed no_args 100 = true /\
  Filter.pname_allowed no_args "a" = true /\
  Filter.in_window no_args 3 = true /\
  Filter.has_counter d = true /\
  r.2 = Returned /\
  Perf.stdout r.1 = [Perf.mkLine (HourNsec 3) "a" 100 "perf_x" 15] /\
  Perf.perf r.1 = [] /\
  Perf.json_metadata r.1 = ∅.
Proof. vm_compute. repeat split. Qed.

(** C4, amended. A record that passes the tid, process-name and
    time-window filters and carries at least one counter-namespaced field
    is appended to the output buffer, and its metadata entry created or
    updated, exactly when a structured-dump directory or a persistence
    address is configured; with neither, the buffer and the metadata are
    left as they were.  The entry is filed under the thread's [pid] (the
    tid when the pid is [-1]): when that equals the tid, the entry's
    [pname] is the thread's [comm]; otherwise the entry keeps its [pname]
    (["unknown"] when new) and maps [str(tid)] to [comm] under [threads].
    Entries of other pids are untouched. *)
Theorem emitted_record_logged_when_sink :
  forall (args : Perf.Args) (self : Perf.t) (event : Event) (ret : dict)
         (th : Thread.t),
    State.tids (Perf.state self) !! ev_prev_tid event = Some th ->
    Filter.tid_allowed args (ev_prev_tid event) = true ->
    Filter.pname_allowed args (Thread.comm th) = true ->
    ev_name event = "sched_switch" ->
    Filter.in_window args (ev_timestamp event) = true ->
    Filter.has_counter ret = true ->
    let r := Perf.output_perf args self event ret in
    let tid := ev_prev_tid event in
    let pid := Filter.pid_of th tid in
    let md := Perf.json_metadata self in
    r.2 = Returned /\
    Perf.state r.1 = Perf.state self /\
    if Filter.sink_configured args then
      Perf.perf r.1 = (Perf.perf self ++ [ret])%list /\
      (forall q, q <> pid -> Perf.json_metadata r.1 !! q = md !! q) /\
      exists m, Perf.json_metadata r.1 !! pid = Some m /\
        if pid =? tid
        then Perf.md_pname m = Thread.comm th /\
             Perf.md_threads m = from_option Perf.md_threads ∅ (md !! pid)
        else Perf.md_pname m = from_option Perf.md_pname "unknown" (md !! pid) /\
             Perf.md_threads m =
               <[str tid := Thread.comm th]> (from_option Perf.md_threads ∅ (md !! pid))
    else
      Perf.perf r.1 = Perf.perf self /\ Perf.json_metadata r.1 = md.
Proof.
  intros args self event ret th Hth Htid Hpname Hname Hwin Hcnt r tid pid md.
  subst r. rewrite output_perf_spec. cbv zeta.
  rewrite Htid, Hth, Hpname, Hname, Hwin. cbn [negb String.eqb].
  change (negb ("sched_switch" =? "sched_switch")%string) with false. cbv iota.
  unfold Filter.emit. rewrite Hcnt. cbn [andb fst snd].
  destruct (Filter.sink_configured args).
  - split; [reflexivity|]. split; [reflexivity|]. split; [reflexivity|].
    apply log_perf_event_json_metadata.
  - repeat split.
Qed.

Lemma emitted_record_logged_when_sink_witness :
  let args := Perf.mkArgs None None None None false true (Some "out") None false in
  let self := Perf.init (State.mk ∅ {[100 := plain_thread 100 "a"]}) in
  let event := sched_switch 3 0 100 200 [("perf_x", 25)] in
  let d := [("ts", 3); ("tid", 100); ("perf_x", 15)] in
  let r := Perf.output_perf args self event d in
  r.2 = Returned /\
  Perf.perf r.1 = [d] /\
  exists m, Perf.json_metadata r.1 !! 100 = Some m /\ Perf.md_pname m = "a".
Proof.
  intros args self event d r.
  destruct (emitted_record_logged_when_sink args self event d (plain_thread 100 "a")
              eq_refl eq_refl eq_refl eq_refl eq_refl eq_refl) as (Hr & _ & H).
  change (Filter.sink_configured args) with true in H. cbv iota in H.
  destruct H as (Hp & _ & m & Hm & Hn).
  split; [exact Hr|]. split; [exact Hp|].
  exists m. split; [exact Hm|].
  change (Filter.pid_of (plain_thread 100 "a") (ev_prev_tid event) =? ev_prev_tid event)
    with true in Hn.
  cbv iota in Hn. exact (proj1 Hn).
Defined.

Section RecordFacts.

Variables (args : Perf.Args) (types : option (list string)) (st : State.t) (tid : Z).

Lemma type_allowed_code (context : string) :
  Perf.truthy_list types &&
  negb (match types with Some l => str_in context l | None => false end)
  = negb (Filter.type_allowed types context).
Proof.
  unfold Filter.type_allowed. destruct types as [[|x l]|]; reflexivity.
Qed.

Lemma fill_record_values : forall (items d d' : dict),
  NoDup (keys items) ->
  Perf.fill_record args types st tid items d = Ok d' ->
  forall k,
    (k ∈ keys items -> startswith "perf_" k = true ->
     Filter.type_allowed types k = true ->
     dict_get k d' = Filter.stored_value args st tid items k /\ Filter.stored_value args st tid items k <> None) /\
    (k ∉ keys items -> dict_get k d' = dict_get k d) /\
    (startswith "perf_" k = false -> dict_get k d' = dict_get k d).
Proof.
  induction items as [|[c v] items IH]; intros d d' Hnd Hfill k.
  - cbn in Hfill. injection Hfill as <-.
    split; [intros Hin; apply elem_of_nil in Hin; contradiction|].
    split; reflexivity.
  - cbn [keys map fst] in Hnd. apply NoDup_cons in Hnd as [Hc Hnd].
    cbn [Perf.fill_record] in Hfill. rewrite type_allowed_code in Hfill.
    assert (Hget : forall k, k <> c -> dict_get k ((c, v) :: items) = dict_get k items).
    { intros k' Hne. cbn. destruct (String.eqb_spec k' c); [contradiction | reflexivity]. }
    assert (Hstored : forall k, k <> c ->
              Filter.stored_value args st tid ((c, v) :: items) k = Filter.stored_value args st tid items k).
    { intros k' Hne. unfold Filter.stored_value. rewrite (Hget k' Hne). reflexivity. }
    assert (Hskip : forall d0,
              Perf.fill_record args types st tid items d0 = Ok d' ->
              dict_get c d0 = dict_get c d ->
              (forall k', k' <> c -> dict_get k' d0 = dict_get k' d) ->
              (startswith "perf_" c = true -> Filter.type_allowed types c = true ->
               dict_get c d0 = Filter.stored_value args st tid ((c, v) :: items) c /\
               Filter.stored_value args st tid ((c, v) :: items) c <> None) ->
              (k ∈ keys ((c, v) :: items) -> startswith "perf_" k = true ->
               Filter.type_allowed types k = true ->
               dict_get k d' = Filter.stored_value args st tid ((c, v) :: items) k /\
               Filter.stored_value args st tid ((c, v) :: items) k <> None) /\
              (k ∉ keys ((c, v) :: items) -> dict_get k d' = dict_get k d) /\
              (startswith "perf_" k = false -> dict_get k d' = dict_get k d)).
    { intros d0 Hrec Hsame Hother Hhead.
      destruct (IH d0 d' Hnd Hrec k) as (IH1 & IH2 & IH3).
      destruct (IH d0 d' Hnd Hrec c) as (_ & IHc & _).
      split; [|split].
      - intros Hin Hp Ht. cbn [keys map fst] in Hin.
        destruct (decide (k = c)) as [->|Hne].
        + rewrite (IHc Hc). apply Hhead; assumption.
        + apply elem_of_cons in Hin as [Hin|Hin]; [contradiction|].
          rewrite (Hstored k Hne). apply IH1; assumption.
      - intros Hnotin. cbn [keys map fst] in Hnotin.
        apply not_elem_of_cons in Hnotin as [Hne Hnotin].
        rewrite (IH2 Hnotin). apply Hother. exact Hne.
      - intros Hp. rewrite (IH3 Hp).
        destruct (decide (k = c)) as [->|Hne]; [exact Hsame | apply Hother; exact Hne]. }
    destruct (Filter.type_allowed types c) eqn:Et; cbn [negb] in Hfill.
    + destruct (startswith "perf_" c) eqn:Ep.
      * destruct (Perf.delta args) eqn:Ed.
        -- assert (Hk : forall k', startswith "perf_" k' = false -> k' <> c)
             by (intros k' Hk' ->; congruence).
           destruct (IH _ d' Hnd Hfill k) as (IH1 & IH2 & IH3).
           destruct (IH _ d' Hnd Hfill c) as (_ & IHc & _).
           split; [|split].
           ++ intros Hin Hp Ht. cbn [keys map fst] in Hin.
              destruct (decide (k = c)) as [->|Hne].
              ** rewrite (IHc Hc), dict_get_set_eq. unfold Filter.stored_value. rewrite Ed.
                 cbn. rewrite String.eqb_refl. split; [reflexivity | discriminate].
              ** apply elem_of_cons in Hin as [Hin|Hin]; [contradiction|].
                 rewrite (Hstored k Hne). apply IH1; assumption.
           ++ intros Hnotin. cbn [keys map fst] in Hnotin.
              apply not_elem_of_cons in Hnotin as [Hne Hnotin].
              rewrite (IH2 Hnotin). apply dict_get_set_ne. exact Hne.
           ++ intros Hp. rewrite (IH3 Hp). apply dict_get_set_ne. apply Hk. exact Hp.
        -- destruct (State.tids st !! tid) as [th|] eqn:Eth; [|discriminate].
           destruct (Thread.perf th !! c) as [x|] eqn:Ex; [|discriminate].
           assert (Hk : forall k', startswith "perf_" k' = false -> k' <> c)
             by (intros k' Hk' ->; congruence).
           destruct (IH _ d' Hnd Hfill k) as (IH1 & IH2 & IH3).
           destruct (IH _ d' Hnd Hfill c) as (_ & IHc & _).
           split; [|split].
           ++ intros Hin Hp Ht. cbn [keys map fst] in Hin.
              destruct (decide (k = c)) as [->|Hne].
              ** rewrite (IHc Hc), dict_get_set_eq. unfold Filter.stored_value.
                 rewrite Ed, Eth. cbn. rewrite Ex. split; [reflexivity | discriminate].
              ** apply elem_of_cons in Hin as [Hin|Hin]; [contradiction|].
                 rewrite (Hstored k Hne). apply IH1; assumption.
           ++ intros Hnotin. cbn [keys map fst] in Hnotin.
              apply not_elem_of_cons in Hnotin as [Hne Hnotin].
              rewrite (IH2 Hnotin). apply dict_get_set_ne. exact Hne.
           ++ intros Hp. rewrite (IH3 Hp). apply dict_get_set_ne. apply Hk. exact Hp.
      * apply (Hskip d Hfill); [reflexivity | reflexivity | congruence].
    + apply (Hskip d Hfill); [reflexivity | reflexivity | congruence].
Qed.

(** A raise of the loop comes from the cumulative-value subscripts. *)
Lemma fill_record_delta_ok : forall (items d : dict),
  Perf.delta args = true ->
  exists d', Perf.fill_record args types st tid items d = Ok d'.
Proof.
  induction items as [|[c v] items IH]; intros d Hd; cbn [Perf.fill_record].
  - eexists; reflexivity.
  - rewrite Hd.
    destruct (Perf.truthy_list types && _); [apply IH; exact Hd|].
    destruct (startswith "perf_" c); apply IH; exact Hd.
Qed.

End RecordFacts.

(** C8. On a schedule-switch event whose delta map [ret] is not empty,
    [process_event] hands one record to the emitter; it holds the
    timestamp, the tid, and under every key of [ret] that is in the
    ["perf_"] namespace and passes the type filter, the delta of [ret]
    when the delta flag is set and otherwise the cumulative value that the
    registry entry of [prev_tid] stores for that counter.  The loop that
    fills the record raises only in cumulative mode, when that stored value
    is missing. *)
Theorem emitted_record_values :
  forall (switch : State.t -> Event -> State.t * dict)
         (process_state : State.t -> Event -> State.t)
         (args : Perf.Args) (types : option (list string))
         (self : Perf.t) (event : Event) (st : State.t) (ret : dict),
    ev_name event = "sched_switch" ->
    switch (Perf.state self) event = (st, ret) ->
    ret <> [] ->
    NoDup (keys ret) ->
    let tid := ev_prev_tid event in
    match Perf.fill_record args types st tid ret
            [("ts", ev_timestamp event); ("tid", tid)] with
    | Ok d =>
        Perf.process_event switch process_state args types self event =
          Perf.output_perf args (Perf.set_state st self) event d /\
        dict_get "ts" d = Some (ev_timestamp event) /\
        dict_get "tid" d = Some tid /\
        forall k, k ∈ keys ret ->
                  startswith "perf_" k = true ->
                  Filter.type_allowed types k = true ->
                  dict_get k d = Filter.stored_value args st tid ret k /\
                  Filter.stored_value args st tid ret k <> None
    | Raise e =>
        Perf.process_event switch process_state args types self event =
          (Perf.set_state st self, Raised e) /\
        Perf.delta args = false
    end.
Proof.
  intros switch process_state args types self event st ret Hname Hsw Hne Hnd tid.
  assert (Hpe : Perf.process_event switch process_state args types self event =
                match Perf.fill_record args types st tid ret
                        [("ts", ev_timestamp event); ("tid", tid)] with
                | Ok d => Perf.output_perf args (Perf.set_state st self) event d
                | Raise e => (Perf.set_state st self, Raised e)
                end).
  { unfold Perf.process_event. rewrite Hname, Hsw.
    change ("sched_switch" =? "sched_switch")%string with true. cbv iota beta.
    destruct ret as [|kv ret]; [contradiction|]. reflexivity. }
  destruct (Perf.fill_record args types st tid ret
              [("ts", ev_timestamp event); ("tid", tid)]) as [d|e] eqn:Ef.
  - split; [exact Hpe|].
    pose proof (fill_record_values args types st tid ret _ d Hnd Ef) as Hv.
    split; [|split].
    + destruct (Hv "ts") as (_ & _ & H). rewrite H by reflexivity. reflexivity.
    + destruct (Hv "tid") as (_ & _ & H). rewrite H by reflexivity. reflexivity.
    + intros k Hin Hp Ht. destruct (Hv k) as (H & _ & _). apply H; assumption.
  - split; [exact Hpe|].
    destruct (Perf.delta args) eqn:Ed; [|reflexivity].
    destruct (fill_record_delta_ok args types st tid ret
                [("ts", ev_timestamp event); ("tid", tid)] Ed) as [d' Hd'].
    congruence.
Qed.

Lemma emitted_record_values_witness :
  let st0 := State.mk ∅ {[100 := Thread.mk 100 "a" {["perf_x" := 10]} 0 0 no_syscall]} in
  let event := sched_switch 3 0 100 200 [("perf_x", 25)] in
  let delta_args := Perf.mkArgs None None None None false true None None false in
  (Perf.stdout (Perf.process_event Sched.switch Statedump.process_state
                  delta_args None (Perf.init st0) event).1
   = [Perf.mkLine (HourNsec 3) "a" 100 "perf_x" 15]) /\
  (Perf.stdout (Perf.process_event Sched.switch Statedump.process_state
                  no_args None (Perf.init st0) event).1
   = [Perf.mkLine (HourNsec 3) "a" 100 "perf_x" 25]).
Proof.
  intros st0 event delta_args.
  assert (Hne : [("perf_x", 15)] <> ([] : dict)) by discriminate.
  assert (Hnd : NoDup (keys [("perf_x", 15)])).
  { cbn. apply NoDup_singleton. }
  split.
  - pose proof (emitted_record_values Sched.switch Statedump.process_state
                  delta_args None (Perf.init st0) event _ _ eq_refl eq_refl Hne Hnd) as H.
    cbv zeta in H. destruct H as [H _]. rewrite H. reflexivity.
  - pose proof (emitted_record_values Sched.switch Statedump.process_state
                  no_args None (Perf.init st0) event _ _ eq_refl eq_refl Hne Hnd) as H.
    cbv zeta in H. destruct H as [H _]. rewrite H. reflexivity.
Defined.

Section TidFilter.

Variable switch : State.t -> Event -> State.t * dict.
Variable process_state : State.t -> Event -> State.t.
Variables (args : Perf.Args) (types : option (list string)) (T : Z).

Lemma fill_record_with_tid l st tid items : forall d,
  Perf.fill_record (Filter.with_tid l args) types st tid items d =
  Perf.fill_record args types st tid items d.
Proof.
  induction items as [|[c v] items IH]; intros d; cbn [Perf.fill_record].
  - reflexivity.
  - change (Perf.delta (Filter.with_tid l args)) with (Perf.delta args).
    rewrite !IH.
    destruct (State.tids st !! tid) as [th|]; [|reflexivity].
    destruct (Thread.perf th !! c); [rewrite IH|]; reflexivity.
Qed.

Lemma tid_allowed_unset tid : Filter.tid_allowed (Filter.with_tid None args) tid = true.
Proof. reflexivity. Qed.

Lemma tid_allowed_single tid :
  Filter.tid_allowed (Filter.with_tid (Some [str T]) args) tid = (tid =? T).
Proof. unfold Filter.tid_allowed. cbn [Filter.with_tid Perf.tid]. apply str_in_singleton. Qed.

Lemma emit_fields a self event th ret :
  let self' := Filter.emit a self event th ret in
  Perf.state self' = Perf.state self /\
  Perf.perf self' =
    (Perf.perf self ++
     if Filter.has_counter ret && Filter.sink_configured a then [ret] else [])%list /\
  Perf.stdout self' =
    (Perf.stdout self ++
     Filter.lines_of a (Filter.endtime_of a (ev_timestamp event)) (Thread.comm th)
                     (ev_prev_tid event) ret)%list.
Proof.
  unfold Filter.emit. cbv zeta.
  destruct (Filter.has_counter ret && Filter.sink_configured a).
  - unfold Perf.log_perf_event_json, Perf.print. cbn. repeat split.
  - unfold Perf.print. cbn. rewrite app_nil_r. repeat split.
Qed.

Lemma filter_lines_of a endtime comm tid ret :
  List.filter (Filter.line_of_tid T) (Filter.lines_of a endtime comm tid ret) =
  if tid =? T then Filter.lines_of a endtime comm tid ret else [].
Proof.
  unfold Filter.lines_of. destruct (Perf.quiet a).
  - destruct (tid =? T); reflexivity.
  - induction (List.filter (fun kv => startswith "perf_" kv.1) ret) as [|kv l IH].
    + destruct (tid =? T); reflexivity.
    + cbn [map List.filter]. unfold Filter.line_of_tid at 1. cbn [Perf.ln_tid].
      rewrite IH. destruct (tid =? T); reflexivity.
Qed.

Lemma output_perf_selects (Pu Pf Pu' : Perf.t) (event : Event) (d : dict) :
  Filter.selects T Pu Pf ->
  dict_get "tid" d = Some (ev_prev_tid event) ->
  Perf.output_perf (Filter.with_tid None args) Pu event d = (Pu', Returned) ->
  exists Pf',
    Perf.output_perf (Filter.with_tid (Some [str T]) args) Pf event d = (Pf', Returned) /\
    Filter.selects T Pu' Pf'.
Proof.
  intros (Hst & Hp & Ho) Htid. rewrite !output_perf_spec. cbv zeta.
  rewrite tid_allowed_unset, tid_allowed_single, Hst. cbn [negb].
  change (Filter.pname_allowed (Filter.with_tid ?l args)) with (Filter.pname_allowed args).
  change (Filter.in_window (Filter.with_tid ?l args)) with (Filter.in_window args).
  change (Filter.emit (Filter.with_tid None args)) with (Filter.emit args).
  change (Filter.emit (Filter.with_tid (Some [str T]) args)) with (Filter.emit args).
  change (Filter.pname_allowed (Filter.with_tid (Some [str T]) args))
    with (Filter.pname_allowed args).
  change (Filter.in_window (Filter.with_tid (Some [str T]) args))
    with (Filter.in_window args).
  assert (Hkeep : Filter.selects T Pu Pf) by (split; [|split]; assumption).
  assert (Hrec : Filter.record_of_tid T d = (ev_prev_tid event =? T)).
  { unfold Filter.record_of_tid. rewrite Htid. reflexivity. }
  destruct (State.tids (Perf.state Pu) !! ev_prev_tid event) as [th|];
    [|destruct (negb (ev_prev_tid event =? T)); discriminate].
  destruct (negb (Filter.pname_allowed args (Thread.comm th))).
  { intros [= <-]. exists Pf. destruct (negb (ev_prev_tid event =? T)); split; auto. }
  destruct (negb (String.eqb (ev_name event) "sched_switch")).
  { intros [= <-]. exists Pf. destruct (negb (ev_prev_tid event =? T)); split; auto. }
  destruct (negb (Filter.in_window args (ev_timestamp event))).
  { intros [= <-]. exists Pf. destruct (negb (ev_prev_tid event =? T)); split; auto. }
  intros [= <-].
  destruct (emit_fields args Pu event th d) as (Eu1 & Eu2 & Eu3).
  destruct (emit_fields args Pf event th d) as (Ef1 & Ef2 & Ef3).
  destruct (ev_prev_tid event =? T) eqn:ET; cbn [negb].
  - eexists. split; [reflexivity|]. split; [|split].
    + rewrite Ef1, Eu1. exact Hst.
    + rewrite Ef2, Eu2, Hp, List.filter_app. f_equal.
      destruct (Filter.has_counter d && Filter.sink_configured args); [|reflexivity].
      cbn [List.filter]. rewrite Hrec. reflexivity.
    + rewrite Ef3, Eu3, Ho, List.filter_app, filter_lines_of, ET. reflexivity.
  - exists Pf. split; [reflexivity|]. split; [|split].
    + rewrite Eu1. exact Hst.
    + rewrite Eu2, Hp, List.filter_app.
      destruct (Filter.has_counter d && Filter.sink_configured args);
        cbn [List.filter]; rewrite ?Hrec, app_nil_r; reflexivity.
    + rewrite Eu3, Ho, List.filter_app, filter_lines_of, ET, app_nil_r. reflexivity.
Qed.

End TidFilter.

Section TidFilterRun.

Variable switch : State.t -> Event -> State.t * dict.
Variable process_state : State.t -> Event -> State.t.
Variables (args : Perf.Args) (types : option (list string)) (T : Z).

(** The loop of [process_event] writes counter-namespaced keys only. *)
Lemma fill_record_keeps st tid items : forall d d',
  Perf.fill_record args types st tid items d = Ok d' ->
  forall k, startswith "perf_" k = false -> dict_get k d' = dict_get k d.
Proof.
  induction items as [|[c v] items IH]; intros d d' Hfill k Hk;
    cbn [Perf.fill_record] in Hfill.
  - injection Hfill as <-. reflexivity.
  - destruct (Perf.truthy_list types && _); [apply (IH _ _ Hfill k Hk)|].
    destruct (startswith "perf_" c) eqn:Ec; [|apply (IH _ _ Hfill k Hk)].
    assert (Hne : k <> c) by (intros ->; congruence).
    destruct (Perf.delta args).
    + rewrite (IH _ _ Hfill k Hk). apply dict_get_set_ne. exact Hne.
    + destruct (State.tids st !! tid) as [th|]; [|discriminate].
      destruct (Thread.perf th !! c); [|discriminate].
      rewrite (IH _ _ Hfill k Hk). apply dict_get_set_ne. exact Hne.
Qed.

Lemma selects_set_state (st : State.t) (Pu Pf : Perf.t) :
  Filter.selects T Pu Pf ->
  Filter.selects T (Perf.set_state st Pu) (Perf.set_state st Pf).
Proof. intros (_ & Hp & Ho). split; [reflexivity|]. split; assumption. Qed.

Lemma process_event_selects (Pu Pf Pu' : Perf.t) (event : Event) :
  Filter.selects T Pu Pf ->
  Perf.process_event switch process_state (Filter.with_tid None args) types Pu event
    = (Pu', Returned) ->
  exists Pf',
    Perf.process_event switch process_state (Filter.with_tid (Some [str T]) args)
                       types Pf event = (Pf', Returned) /\
    Filter.selects T Pu' Pf'.
Proof.
  intros Hsel. pose proof Hsel as (Hst & _ & _).
  unfold Perf.process_event. rewrite Hst.
  destruct (String.eqb (ev_name event) "sched_switch").
  - destruct (switch (Perf.state Pu) event) as [st ret].
    destruct (0 <? Z.of_nat (length (keys ret))).
    + cbn [Perf.state Perf.set_state]. rewrite !fill_record_with_tid.
      destruct (Perf.fill_record args types st (ev_prev_tid event) ret
                  [("ts", ev_timestamp event); ("tid", ev_prev_tid event)])
        as [d|e] eqn:Ef; [|discriminate].
      intros Hout.
      apply (output_perf_selects args T (Perf.set_state st Pu) (Perf.set_state st Pf)
               Pu' event d (selects_set_state st Pu Pf Hsel)); [|exact Hout].
      rewrite (fill_record_keeps _ _ _ _ _ Ef "tid") by reflexivity. reflexivity.
    + intros [= <-]. eexists. split; [reflexivity|].
      apply selects_set_state. exact Hsel.
  - destruct (String.eqb (ev_name event) "lttng_statedump_process_state").
    + intros [= <-]. eexists. split; [reflexivity|].
      apply selects_set_state. exact Hsel.
    + intros [= <-]. exists Pf. split; [reflexivity | exact Hsel].
Qed.

Lemma run_selects (events : list Event) : forall (Pu Pf Pu' : Perf.t),
  Filter.selects T Pu Pf ->
  Perf.run switch process_state (Filter.with_tid None args) types Pu events
    = (Pu', Returned) ->
  exists Pf',
    Perf.run switch process_state (Filter.with_tid (Some [str T]) args)
             types Pf events = (Pf', Returned) /\
    Filter.selects T Pu' Pf'.
Proof.
  induction events as [|event events IH]; intros Pu Pf Pu' Hsel; cbn [Perf.run].
  - intros [= <-]. exists Pf. split; [reflexivity | exact Hsel].
  - destruct (Perf.process_event switch process_state (Filter.with_tid None args)
                types Pu event) as [Pu1 [|e]] eqn:Eu; [|discriminate].
    destruct (process_event_selects Pu Pf Pu1 event Hsel Eu) as (Pf1 & Ef & Hsel1).
    rewrite Ef. apply IH. exact Hsel1.
Qed.

End TidFilterRun.

(** C5. Whenever the run without a tid allow-list completes, the run with
    the allow-list [{T}] over the same events completes too, over the same
    registries, and its record buffer and its printed lines are exactly
    the records, respectively the lines, of the unfiltered run whose tid is
    [T], in the same order.  The emitter applies its filters in the order
    tid allow-list, process name, time window (the registry subscript for
    the thread sits between the first two, the test of the event kind
    between the last two), and a filter whose option is unset lets every
    record through. *)
Theorem tid_filter_selects_subset :
  forall (switch : State.t -> Event -> State.t * dict)
         (process_state : State.t -> Event -> State.t)
         (args : Perf.Args) (types : option (list string))
         (st0 : State.t) (events : list Event) (T : Z) (Pu : Perf.t),
    Perf.run switch process_state (Filter.with_tid None args) types
             (Perf.init st0) events = (Pu, Returned) ->
    (exists Pf,
       Perf.run switch process_state (Filter.with_tid (Some [str T]) args) types
                (Perf.init st0) events = (Pf, Returned) /\
       Perf.state Pf = Perf.state Pu /\
       Perf.perf Pf = List.filter (Filter.record_of_tid T) (Perf.perf Pu) /\
       Perf.stdout Pf = List.filter (Filter.line_of_tid T) (Perf.stdout Pu)) /\
    (forall (a : Perf.Args) (self : Perf.t) (event : Event) (ret : dict),
       Perf.output_perf a self event ret =
       if negb (Filter.tid_allowed a (ev_prev_tid event)) then (self, Returned)
       else
         match State.tids (Perf.state self) !! ev_prev_tid event with
         | None => (self, Raised KeyError)
         | Some th =>
             if negb (Filter.pname_allowed a (Thread.comm th)) then (self, Returned)
             else if negb (String.eqb (ev_name event) "sched_switch")
             then (self, Returned)
             else if negb (Filter.in_window a (ev_timestamp event))
             then (self, Returned)
             else (Filter.emit a self event th ret, Returned)
         end) /\
    (forall (a : Perf.Args) (tid : Z),
       Perf.tid a = None -> Filter.tid_allowed a tid = true) /\
    (forall (a : Perf.Args) (comm : string),
       Perf.pname a = None -> Filter.pname_allowed a comm = true) /\
    (forall (a : Perf.Args) (ts : Z),
       Perf.start a = None -> Perf.end_ a = None -> Filter.in_window a ts = true).
Proof.
  intros switch process_state args types st0 events T Pu Hrun.
  split; [|split; [|split; [|split]]].
  - assert (Hinit : Filter.selects T (Perf.init st0) (Perf.init st0))
      by (split; [|split]; reflexivity).
    destruct (run_selects switch process_state args types T events
                _ _ _ Hinit Hrun) as (Pf & Hf & Hsel).
    exists Pf. split; [exact Hf | exact Hsel].
  - intros a self event ret. apply output_perf_spec.
  - intros a tid H. unfold Filter.tid_allowed. rewrite H. reflexivity.
  - intros a comm H. unfold Filter.pname_allowed. rewrite H. reflexivity.
  - intros a ts Hs He.
    unfold Filter.in_window, Filter.after_start, Filter.before_end.
    rewrite Hs, He. reflexivity.
Qed.

Lemma tid_filter_selects_subset_witness :
  let args := Perf.mkArgs None None None None false true (Some "out") None false in
  exists Pf,
    Perf.run Sched.switch Statedump.process_state
             (Filter.with_tid (Some [str 100]) args) None
             (Perf.init (State.mk ∅ ∅)) sample_events = (Pf, Returned) /\
    Perf.perf Pf = [[("ts", 3); ("tid", 100); ("perf_x", 15)]].
Proof.
  intros args.
  destruct (tid_filter_selects_subset Sched.switch Statedump.process_state
              args None (State.mk ∅ ∅) sample_events 100
              (Perf.run Sched.switch Statedump.process_state
                        (Filter.with_tid None args) None
                        (Perf.init (State.mk ∅ ∅)) sample_events).1)
    as [(Pf & Hrun & _ & Hperf & _) _].
  - vm_compute. reflexivity.
  - exists Pf. split; [exact Hrun|]. rewrite Hperf. vm_compute. reflexivity.
Defined.

(** * Further properties of the memory-event correlator *)

Section MmSteps.

Implicit Types (s : Mm.t) (event : Event) (p : Thread.t).

Lemma thread_kept_refl p : MmLoop.thread_kept p p.
Proof. unfold MmLoop.thread_kept. repeat split; lia. Qed.

Lemma thread_kept_trans p1 p2 p3 :
  MmLoop.thread_kept p1 p2 -> MmLoop.thread_kept p2 p3 -> MmLoop.thread_kept p1 p3.
Proof.
  unfold MmLoop.thread_kept.
  intros (A1 & A2 & A3 & A4 & A5 & A6 & A7 & A8 & A9)
         (B1 & B2 & B3 & B4 & B5 & B6 & B7 & B8 & B9).
  repeat split; try congruence; lia.
Qed.

Lemma thread_kept_charge p : MmLoop.thread_kept p (Mm.charge_alloc p).
Proof.
  destruct (charge_alloc_syscall p) as (Ha & Hn & Hf & Ho).
  destruct (charge_alloc_pages p) as (Hal & Hfr).
  unfold MmLoop.thread_kept. rewrite Hal, Hfr, Hn, Hf, Ho.
  repeat split; try lia.
  - unfold Mm.charge_alloc.
    destruct (syscall_is_empty (Thread.current_syscall p)); reflexivity.
  - unfold Mm.charge_alloc.
    destruct (syscall_is_empty (Thread.current_syscall p)); reflexivity.
  - unfold Mm.charge_alloc.
    destruct (syscall_is_empty (Thread.current_syscall p)); reflexivity.
  - unfold Mm.charge_alloc.
    destruct (syscall_is_empty (Thread.current_syscall p)) eqn:E; [exact E|].
    cbn [Thread.current_syscall]. unfold syscall_is_empty. cbn.
    destruct (sc_alloc (Thread.current_syscall p)); cbn;
      destruct (sc_name (Thread.current_syscall p)),
               (sc_fd (Thread.current_syscall p)); reflexivity.
Qed.

Lemma thread_kept_allocated p : MmLoop.thread_kept p (Mm.add_thread_allocated 1 p).
Proof. unfold MmLoop.thread_kept. cbn. repeat split; lia. Qed.

Lemma thread_kept_freed p : MmLoop.thread_kept p (Mm.add_thread_freed 1 p).
Proof. unfold MmLoop.thread_kept. cbn. repeat split; lia. Qed.

Lemma kept_refl s : MmLoop.kept s s.
Proof.
  unfold MmLoop.kept. repeat split; try lia; try reflexivity; try tauto.
  intros k. destruct (Mm.tids s !! k); constructor. apply thread_kept_refl.
Qed.

Lemma kept_trans s1 s2 s3 :
  MmLoop.kept s1 s2 -> MmLoop.kept s2 s3 -> MmLoop.kept s1 s3.
Proof.
  intros (A1 & A2 & A3 & A4 & A5 & A6 & A7) (B1 & B2 & B3 & B4 & B5 & B6 & B7).
  unfold MmLoop.kept. repeat split; try congruence; try lia; try tauto.
  - intros k. specialize (A2 k). specialize (B2 k).
    destruct A2 as [p1 p2 H12|]; inversion B2 as [p2' p3 H23|]; subst; constructor.
    exact (thread_kept_trans _ _ _ H12 H23).
  - etransitivity; eassumption.
  - etransitivity; eassumption.
Qed.

Lemma tids_kept_fmap (m : gmap Z Thread.t) k :
  option_Forall2 MmLoop.thread_kept (m !! k) ((Mm.charge_alloc <$> m) !! k).
Proof.
  rewrite lookup_fmap. destruct (m !! k); constructor. apply thread_kept_charge.
Qed.

Lemma tids_kept_alter (f : Thread.t -> Thread.t) (m : gmap Z Thread.t) t k :
  (forall p, MmLoop.thread_kept p (f p)) ->
  option_Forall2 MmLoop.thread_kept (m !! k) (alter f t m !! k).
Proof.
  intros Hf. destruct (decide (t = k)) as [->|Hne].
  - rewrite lookup_alter_eq. destruct (m !! k); constructor. apply Hf.
  - rewrite lookup_alter_ne by done. destruct (m !! k); constructor.
    apply thread_kept_refl.
Qed.

Lemma option_kept_trans (a b c : option Thread.t) :
  option_Forall2 MmLoop.thread_kept a b ->
  option_Forall2 MmLoop.thread_kept b c ->
  option_Forall2 MmLoop.thread_kept a c.
Proof.
  intros H1 H2. destruct H1 as [p1 p2 H12|]; inversion H2 as [p2' p3 H23|]; subst;
    constructor. exact (thread_kept_trans _ _ _ H12 H23).
Qed.

Lemma page_alloc_kept s event : MmLoop.kept s (Mm.page_alloc s event).1.
Proof.
  rewrite page_alloc_cases. cbv zeta.
  destruct (Mm.scheduled_on s event) as [t|];
    [destruct (Mm.tids s !! t)|]; cbn;
    unfold MmLoop.kept, MmLoop.log; cbn; repeat split; try lia; try reflexivity;
    try tauto; intros k; try apply tids_kept_fmap.
  eapply option_kept_trans; [apply tids_kept_fmap|].
  apply tids_kept_alter. apply thread_kept_allocated.
Qed.

Lemma page_free_kept s event : MmLoop.kept s (Mm.page_free s event).1.
Proof.
  rewrite page_free_cases. cbv zeta.
  destruct (Mm.g_count (Mm.mm s) =? 0);
    [|destruct (Mm.scheduled_on s event) as [t|];
      [destruct (Mm.tids s !! t)|]]; cbn;
    unfold MmLoop.kept, MmLoop.log; cbn; repeat split; try lia; try reflexivity;
    try tauto; intros k;
    try (destruct (Mm.tids s !! k); constructor; apply thread_kept_refl).
  apply tids_kept_alter. apply thread_kept_freed.
Qed.

End MmSteps.

Section MmDirty.

Implicit Types (s : Mm.t) (event : Event) (p : Thread.t).

(** [block_dirty_buffer] written out over the state before the call. *)
Lemma block_dirty_buffer_cases s event :
  let s1 := Mm.set_mm (Mm.add_dirty 1 (Mm.mm s)) s in
  Mm.block_dirty_buffer s event =
  match Mm.cpus s !! ev_cpu_id event with
  | None => (s1, Returned)
  | Some c =>
      if CPU.current_tid c <=? 0 then (s1, Returned)
      else
        match Mm.tids s !! CPU.current_tid c with
        | None => (s1, Raised KeyError)
        | Some p =>
            if syscall_is_empty (Thread.current_syscall p) then (s1, Returned)
            else
              match Mm.dirty_pages s, sc_fd (Thread.current_syscall p) with
              | Some dp, Some f =>
                  match sc_name (Thread.current_syscall p) with
                  | None => (s1, Raised KeyError)
                  | Some n =>
                      (Mm.set_dirty_pages
                         (Some (Mm.append_page
                                  (Mm.mkDirtyEntry (CPU.current_tid c) n
                                                   (fd_filename f) (fd_fd f)) dp))
                         s1,
                       Returned)
                  end
              | _, _ => (s1, Returned)
              end
        end
  end.
Proof.
  cbv zeta. unfold Mm.block_dirty_buffer. cbn [Mm.cpus Mm.tids Mm.set_mm Mm.dirty_pages].
  destruct (Mm.cpus s !! ev_cpu_id event) as [c|]; [|reflexivity].
  destruct (CPU.current_tid c <=? 0); [reflexivity|].
  destruct (Mm.tids s !! CPU.current_tid c) as [p|]; [|reflexivity].
  destruct (syscall_is_empty (Thread.current_syscall p)); [reflexivity|].
  destruct (Mm.dirty_pages s); [|reflexivity].
  destruct (sc_fd (Thread.current_syscall p)); reflexivity.
Qed.

Lemma block_dirty_buffer_kept s event :
  MmLoop.kept s (Mm.block_dirty_buffer s event).1.
Proof.
  rewrite block_dirty_buffer_cases. cbv zeta.
  assert (H1 : MmLoop.kept s (Mm.set_mm (Mm.add_dirty 1 (Mm.mm s)) s)).
  { unfold MmLoop.kept, MmLoop.log. cbn. repeat split; try lia; try reflexivity;
      try tauto.
    intros k. destruct (Mm.tids s !! k); constructor. apply thread_kept_refl. }
  destruct (Mm.cpus s !! ev_cpu_id event) as [c|]; [|exact H1].
  destruct (CPU.current_tid c <=? 0); [exact H1|].
  destruct (Mm.tids s !! CPU.current_tid c) as [p|]; [|exact H1].
  destruct (syscall_is_empty (Thread.current_syscall p)); [exact H1|].
  destruct (Mm.dirty_pages s) as [dp|] eqn:Edp; [|exact H1].
  destruct (sc_fd (Thread.current_syscall p)) as [f|]; [|exact H1].
  destruct (sc_name (Thread.current_syscall p)) as [n|]; [|exact H1].
  unfold MmLoop.kept, MmLoop.log. cbn. rewrite Edp.
  repeat split; try lia; try reflexivity; try discriminate.
  - intros k. destruct (Mm.tids s !! k); constructor. apply thread_kept_refl.
  - apply prefix_app_r. reflexivity.
Qed.

Lemma writeback_kept s event :
  MmLoop.kept s (Mm.writeback_global_dirty_state s event).1.
Proof.
  unfold MmLoop.kept, MmLoop.log. cbn. repeat split; try lia; try reflexivity;
    try tauto.
  - intros k. destruct (Mm.tids s !! k); constructor. apply thread_kept_refl.
  - apply prefix_app_r. reflexivity.
Qed.

Lemma step_kept s c : MmLoop.kept s (MmLoop.step s c).1.
Proof.
  destruct c as [event|event|event|event]; cbn [MmLoop.step].
  - apply page_alloc_kept.
  - apply page_free_kept.
  - apply block_dirty_buffer_kept.
  - apply writeback_kept.
Qed.

Lemma exec_kept cs : forall s, MmLoop.kept s (MmLoop.exec s cs).1.
Proof.
  induction cs as [|c cs IH]; intros s; cbn [MmLoop.exec].
  - apply kept_refl.
  - pose proof (step_kept s c) as Hs.
    destruct (MmLoop.step s c) as [s' [|e]]; cbn [fst] in Hs |- *.
    + exact (kept_trans _ _ _ Hs (IH s')).
    + exact Hs.
Qed.

End MmDirty.

Section MmCounters.

Implicit Types (s : Mm.t) (event : Event) (c : MmLoop.Call).

(** The global counters after one call, whatever its outcome. *)
Lemma step_mm s c :
  Mm.mm (MmLoop.step s c).1 =
  match c with
  | MmLoop.PageAlloc _ => Mm.add_allocated_pages 1 (Mm.add_count 1 (Mm.mm s))
  | MmLoop.PageFree _ =>
      if Mm.g_count (Mm.mm s) =? 0 then Mm.add_freed_pages 1 (Mm.mm s)
      else Mm.add_count (-1) (Mm.add_freed_pages 1 (Mm.mm s))
  | MmLoop.BlockDirtyBuffer _ => Mm.add_dirty 1 (Mm.mm s)
  | MmLoop.WritebackGlobalDirtyState _ => Mm.set_dirty 0 (Mm.mm s)
  end.
Proof.
  destruct c as [event|event|event|event]; cbn [MmLoop.step].
  - rewrite page_alloc_cases. cbv zeta.
    destruct (Mm.scheduled_on s event) as [t|]; [destruct (Mm.tids s !! t)|];
      reflexivity.
  - rewrite page_free_cases. cbv zeta.
    destruct (Mm.g_count (Mm.mm s) =? 0); [reflexivity|].
    destruct (Mm.scheduled_on s event) as [t|]; [destruct (Mm.tids s !! t)|];
      reflexivity.
  - rewrite block_dirty_buffer_cases. cbv zeta.
    destruct (Mm.cpus s !! ev_cpu_id event) as [cp|]; [|reflexivity].
    destruct (CPU.current_tid cp <=? 0); [reflexivity|].
    destruct (Mm.tids s !! CPU.current_tid cp) as [p|]; [|reflexivity].
    destruct (syscall_is_empty (Thread.current_syscall p)); [reflexivity|].
    destruct (Mm.dirty_pages s); [|reflexivity].
    destruct (sc_fd (Thread.current_syscall p)); [|reflexivity].
    destruct (sc_name (Thread.current_syscall p)); reflexivity.
  - reflexivity.
Qed.

Lemma exec_bounds cs : forall s,
  Mm.g_allocated_pages (Mm.mm s) - Mm.g_freed_pages (Mm.mm s) <= Mm.g_count (Mm.mm s)
    <= Mm.g_allocated_pages (Mm.mm s) ->
  let s' := (MmLoop.exec s cs).1 in
  Mm.g_allocated_pages (Mm.mm s') - Mm.g_freed_pages (Mm.mm s') <= Mm.g_count (Mm.mm s')
    <= Mm.g_allocated_pages (Mm.mm s').
Proof.
  induction cs as [|c cs IH]; intros s H; cbn [MmLoop.exec]; [exact H|].
  assert (Hs : let s1 := (MmLoop.step s c).1 in
               Mm.g_allocated_pages (Mm.mm s1) - Mm.g_freed_pages (Mm.mm s1)
                 <= Mm.g_count (Mm.mm s1) <= Mm.g_allocated_pages (Mm.mm s1)).
  { cbv zeta. rewrite step_mm. destruct c; cbn; try lia.
    destruct (Z.eqb_spec (Mm.g_count (Mm.mm s)) 0); cbn; lia. }
  destruct (MmLoop.step s c) as [s1 [|e]]; cbn [fst] in Hs |- *.
  - apply IH. exact Hs.
  - exact Hs.
Qed.

End MmCounters.

(** X1. [page_free] always counts the free globally and leaves the other
    global counters but [count] alone; [count] drops by one unless it is 0.
    The [freed_pages] of the thread scheduled on the CPU of the event grows
    by one when [count] was not 0, and no other field of it and no other
    thread changes; nothing is attributed when [count] was 0.  The call
    raises exactly when [count] was not 0 and the scheduled thread is not
    registered. *)
Theorem page_free_effects :
  forall (s : Mm.t) (event : Event),
    let s' := (Mm.page_free s event).1 in
    Mm.g_freed_pages (Mm.mm s') = Mm.g_freed_pages (Mm.mm s) + 1 /\
    Mm.g_allocated_pages (Mm.mm s') = Mm.g_allocated_pages (Mm.mm s) /\
    Mm.g_dirty (Mm.mm s') = Mm.g_dirty (Mm.mm s) /\
    Mm.g_count (Mm.mm s') =
      (if Mm.g_count (Mm.mm s) =? 0 then 0 else Mm.g_count (Mm.mm s) - 1) /\
    Mm.cpus s' = Mm.cpus s /\
    Mm.dirty_pages s' = Mm.dirty_pages s /\
    Mm.stdout s' = Mm.stdout s /\
    (forall k,
       Mm.tids s' !! k =
       (if negb (Mm.g_count (Mm.mm s) =? 0) &&
           bool_decide (Mm.scheduled_on s event = Some k)
        then Mm.add_thread_freed 1 else id) <$> Mm.tids s !! k) /\
    ((Mm.page_free s event).2 =
       if negb (Mm.g_count (Mm.mm s) =? 0) &&
          match Mm.scheduled_on s event with
          | Some k => bool_decide (Mm.tids s !! k = None)
          | None => false
          end
       then Raised KeyError else Returned).
Proof.
  intros s event s'. subst s'. rewrite page_free_cases. cbv zeta.
  destruct (Z.eqb_spec (Mm.g_count (Mm.mm s)) 0) as [E|E]; cbn [negb andb].
  - cbn. rewrite E. repeat split.
    intros k. destruct (Mm.tids s !! k); reflexivity.
  - assert (Hid : forall k, Mm.tids s !! k = id <$> Mm.tids s !! k)
      by (intros k; destruct (Mm.tids s !! k); reflexivity).
    destruct (Mm.scheduled_on s event) as [t|] eqn:Hs.
    + destruct (Mm.tids s !! t) as [p|] eqn:Ht; cbn.
      * repeat split; try lia.
        intros k. destruct (decide (t = k)) as [->|Hne].
        -- rewrite bool_decide_eq_true_2 by reflexivity.
           rewrite lookup_alter_eq. reflexivity.
        -- rewrite bool_decide_eq_false_2 by congruence.
           rewrite lookup_alter_ne by done. apply Hid.
      * repeat split; try lia.
        intros k. destruct (decide (t = k)) as [->|Hne].
        -- rewrite Ht. reflexivity.
        -- rewrite bool_decide_eq_false_2 by congruence. apply Hid.
    + cbn. repeat split; try lia. intros k. apply Hid.
Qed.

(** X2. From the state set by [__init__], over any registries and any
    sequence of calls of the four handlers, the in-flight count never
    exceeds the pages allocated and never falls below the pages allocated
    minus the pages freed. *)
Theorem count_between_balance_and_allocated :
  forall (cpus0 : gmap Z CPU.t) (tids0 : gmap Z Thread.t) (cs : list MmLoop.Call),
    let s := (MmLoop.exec (Mm.init cpus0 tids0) cs).1 in
    Mm.g_allocated_pages (Mm.mm s) - Mm.g_freed_pages (Mm.mm s) <= Mm.g_count (Mm.mm s)
    /\ Mm.g_count (Mm.mm s) <= Mm.g_allocated_pages (Mm.mm s).
Proof.
  intros cpus0 tids0 cs.
  apply (exec_bounds cs (Mm.init cpus0 tids0)). cbn. lia.
Qed.

Section MmSequences.

Implicit Types (s : Mm.t) (event : Event) (c : MmLoop.Call).

Lemma count_calls_cons (kind : MmLoop.Call -> bool) c (cs : list MmLoop.Call) :
  MmLoop.count_calls kind (c :: cs) =
  (if kind c then 1 else 0) + MmLoop.count_calls kind cs.
Proof.
  unfold MmLoop.count_calls. cbn [List.filter].
  destruct (kind c); cbn [length]; lia.
Qed.

Lemma exec_app (cs1 cs2 : list MmLoop.Call) : forall s,
  MmLoop.exec s (cs1 ++ cs2) =
  match MmLoop.exec s cs1 with
  | (s', Returned) => MmLoop.exec s' cs2
  | (s', Raised e) => (s', Raised e)
  end.
Proof.
  induction cs1 as [|c cs1 IH]; intros s; cbn [MmLoop.exec app]; [reflexivity|].
  destruct (MmLoop.step s c) as [s' [|e]]; [apply IH | reflexivity].
Qed.

Lemma exec_counts cs : forall s,
  (MmLoop.exec s cs).2 = Returned ->
  let s' := (MmLoop.exec s cs).1 in
  Mm.g_allocated_pages (Mm.mm s') =
    Mm.g_allocated_pages (Mm.mm s) + MmLoop.count_calls MmLoop.is_alloc_call cs /\
  Mm.g_freed_pages (Mm.mm s') =
    Mm.g_freed_pages (Mm.mm s) + MmLoop.count_calls MmLoop.is_free_call cs.
Proof.
  induction cs as [|c cs IH]; intros s Hret; cbn [MmLoop.exec] in *.
  - unfold MmLoop.count_calls. cbn. lia.
  - rewrite !count_calls_cons.
    pose proof (step_mm s c) as Hm.
    destruct (MmLoop.step s c) as [s1 [|e]]; cbn [fst snd] in *; [|discriminate].
    destruct (IH s1 Hret) as [Ha Hf]. cbv zeta. rewrite Ha, Hf, Hm.
    destruct c; cbn; try lia.
    destruct (Mm.g_count (Mm.mm s) =? 0); cbn; lia.
Qed.

Lemma exec_dirty cs : forall s,
  forallb (fun c => negb (MmLoop.is_writeback_call c)) cs = true ->
  (MmLoop.exec s cs).2 = Returned ->
  Mm.g_dirty (Mm.mm (MmLoop.exec s cs).1) =
    Mm.g_dirty (Mm.mm s) + MmLoop.count_calls MmLoop.is_dirty_call cs.
Proof.
  induction cs as [|c cs IH]; intros s Hnw Hret; cbn [MmLoop.exec forallb] in *.
  - unfold MmLoop.count_calls. cbn. lia.
  - apply andb_true_iff in Hnw as [Hc Hnw].
    rewrite count_calls_cons.
    pose proof (step_mm s c) as Hm.
    destruct (MmLoop.step s c) as [s1 [|e]]; cbn [fst snd] in *; [|discriminate].
    rewrite (IH s1 Hnw Hret), Hm.
    destruct c; cbn in *; try lia; try discriminate.
    destruct (Mm.g_count (Mm.mm s) =? 0); cbn; lia.
Qed.

End MmSequences.

(** X3. When a sequence of handler calls runs to its end, the global
    [allocated_pages] has grown by the number of page-alloc calls and the
    global [freed_pages] by the number of page-free calls, whatever else
    the sequence holds. *)
Theorem global_counters_count_events :
  forall (s : Mm.t) (cs : list MmLoop.Call),
    (MmLoop.exec s cs).2 = Returned ->
    let s' := (MmLoop.exec s cs).1 in
    Mm.g_allocated_pages (Mm.mm s') =
      Mm.g_allocated_pages (Mm.mm s) + MmLoop.count_calls MmLoop.is_alloc_call cs /\
    Mm.g_freed_pages (Mm.mm s') =
      Mm.g_freed_pages (Mm.mm s) + MmLoop.count_calls MmLoop.is_free_call cs.
Proof. intros s cs H. exact (exec_counts cs s H). Qed.

Lemma global_counters_count_events_witness :
  let s := Mm.init {[0 := CPU.mk 200]} {[200 := plain_thread 200 "b"]} in
  let cs := [MmLoop.PageFree (mm_event 0); MmLoop.PageAlloc (mm_event 0);
             MmLoop.BlockDirtyBuffer (mm_event 1); MmLoop.PageAlloc (mm_event 5);
             MmLoop.PageFree (mm_event 0)] in
  Mm.g_allocated_pages (Mm.mm (MmLoop.exec s cs).1) = 2 /\
  Mm.g_freed_pages (Mm.mm (MmLoop.exec s cs).1) = 2.
Proof.
  intros s cs.
  destruct (global_counters_count_events s cs eq_refl) as [Ha Hf].
  split; [rewrite Ha | rewrite Hf]; reflexivity.
Defined.

(** X4. The dirty counter is an epoch counter: after a writeback summary
    and then any calls other than a writeback that all return, [dirty] is
    the number of dirty-buffer calls among them; the next writeback summary
    prints that number together with the in-flight count, appends nothing
    else to the output, and leaves [dirty] at 0. *)
Theorem dirty_counts_since_last_summary :
  forall (s : Mm.t) (e0 e1 : Event) (cs : list MmLoop.Call),
    forallb (fun c => negb (MmLoop.is_writeback_call c)) cs = true ->
    (MmLoop.exec s (MmLoop.WritebackGlobalDirtyState e0 :: cs)).2 = Returned ->
    let s1 := (MmLoop.exec s (MmLoop.WritebackGlobalDirtyState e0 :: cs)).1 in
    let n := MmLoop.count_calls MmLoop.is_dirty_call cs in
    let r := MmLoop.exec s (MmLoop.WritebackGlobalDirtyState e0 :: cs ++
                            [MmLoop.WritebackGlobalDirtyState e1]) in
    Mm.g_dirty (Mm.mm s1) = n /\
    r.2 = Returned /\
    Mm.stdout r.1 =
      (Mm.stdout s1 ++
       [Mm.mkSummaryLine (HourNsec (ev_timestamp e1)) (Mm.g_count (Mm.mm s1)) n
                         (ev_nr_dirty e1) (ev_nr_writeback e1)
                         (ev_nr_dirtied e1) (ev_nr_written e1)])%list /\
    Mm.g_dirty (Mm.mm r.1) = 0.
Proof.
  intros s e0 e1 cs Hnw Hret s1 n r.
  assert (Hd : Mm.g_dirty (Mm.mm s1) = n).
  { subst s1 n. cbn [MmLoop.exec MmLoop.step] in *.
    cbn [Mm.writeback_global_dirty_state] in *.
    rewrite (exec_dirty cs _ Hnw Hret). cbn. lia. }
  split; [exact Hd|].
  subst r. change (MmLoop.WritebackGlobalDirtyState e0 :: cs ++ [MmLoop.WritebackGlobalDirtyState e1])
    with ((MmLoop.WritebackGlobalDirtyState e0 :: cs) ++ [MmLoop.WritebackGlobalDirtyState e1])%list.
  rewrite exec_app.
  fold s1.
  destruct (MmLoop.exec s (MmLoop.WritebackGlobalDirtyState e0 :: cs)) as [s1' [|e]] eqn:E;
    cbn [snd] in Hret; [|discriminate].
  subst s1. cbn [fst] in *. cbn [MmLoop.exec MmLoop.step].
  unfold Mm.writeback_global_dirty_state. cbn. rewrite Hd. repeat split.
Qed.

Lemma dirty_counts_since_last_summary_witness :
  let s := Mm.init {[0 := CPU.mk 200]} {[200 := plain_thread 200 "b"]} in
  let cs := [MmLoop.BlockDirtyBuffer (mm_event 0); MmLoop.PageAlloc (mm_event 0);
             MmLoop.BlockDirtyBuffer (mm_event 3)] in
  Mm.g_dirty
    (Mm.mm (MmLoop.exec s (MmLoop.WritebackGlobalDirtyState (mm_event 0) :: cs)).1) = 2.
Proof.
  intros s cs.
  destruct (dirty_counts_since_last_summary s (mm_event 0) (mm_event 0) cs
              eq_refl eq_refl) as [H _].
  rewrite H. reflexivity.
Defined.

(** X5. [block_dirty_buffer] appends an entry to the dirty-page log exactly
    when the CPU of the event is registered and runs a tid above 0, that
    thread is registered, its syscall dict holds both an ["fd"] and a
    ["name"], and the log exists; the entry is then the tid with the name
    of the syscall and the file name and number of the descriptor, and the
    call returns.  In every other case the log is left as it was. *)
Theorem block_dirty_buffer_logs_iff :
  forall (s : Mm.t) (event : Event) (entry : Mm.DirtyEntry),
    let r := Mm.block_dirty_buffer s event in
    ((MmLoop.log r.1 = (MmLoop.log s ++ [entry])%list /\ r.2 = Returned) <->
     (exists c p f n,
        Mm.cpus s !! ev_cpu_id event = Some c /\
        0 < CPU.current_tid c /\
        Mm.tids s !! CPU.current_tid c = Some p /\
        sc_fd (Thread.current_syscall p) = Some f /\
        sc_name (Thread.current_syscall p) = Some n /\
        Mm.dirty_pages s <> None /\
        entry = Mm.mkDirtyEntry (CPU.current_tid c) n (fd_filename f) (fd_fd f))) /\
    (MmLoop.log r.1 = MmLoop.log s \/
     exists e, MmLoop.log r.1 = (MmLoop.log s ++ [e])%list).
Proof.
  intros s event entry r. subst r. rewrite block_dirty_buffer_cases. cbv zeta.
  assert (Hno : forall (l : list Mm.DirtyEntry) o,
            (l = (l ++ [entry])%list /\ o = Returned) ->
            exists c p f n,
              Mm.cpus s !! ev_cpu_id event = Some c /\
              0 < CPU.current_tid c /\
              Mm.tids s !! CPU.current_tid c = Some p /\
              sc_fd (Thread.current_syscall p) = Some f /\
              sc_name (Thread.current_syscall p) = Some n /\
              Mm.dirty_pages s <> None /\
              entry = Mm.mkDirtyEntry (CPU.current_tid c) n (fd_filename f) (fd_fd f)).
  { intros l o [Hl _]. exfalso.
    apply (f_equal (@length _)) in Hl. rewrite length_app in Hl. cbn in Hl. lia. }
  destruct (Mm.cpus s !! ev_cpu_id event) as [c|] eqn:Ec.
  2:{ split; [|left; reflexivity]. split; [apply Hno|].
      intros (c & p & f & n & H & _). discriminate. }
  destruct (Z.leb_spec (CPU.current_tid c) 0) as [Hle|Hlt].
  { split; [|left; reflexivity]. split; [apply Hno|].
    intros (c' & p & f & n & H & Hpos & _). injection H as <-. lia. }
  destruct (Mm.tids s !! CPU.current_tid c) as [p|] eqn:Ep.
  2:{ split; [|left; reflexivity]. split; [apply Hno|].
      intros (c' & p & f & n & H & _ & Hp & _). injection H as <-. congruence. }
  destruct (syscall_is_empty (Thread.current_syscall p)) eqn:Ee.
  { split; [|left; reflexivity]. split; [apply Hno|].
    intros (c' & p' & f & n & H & _ & Hp & Hf & _). injection H as <-.
    rewrite Ep in Hp. injection Hp as <-.
    unfold syscall_is_empty in Ee. rewrite Hf in Ee.
    destruct (sc_name (Thread.current_syscall p)); discriminate. }
  destruct (Mm.dirty_pages s) as [dp|] eqn:Ed.
  2:{ split; [|left; reflexivity]. split; [apply Hno|].
      intros (c' & p' & f & n & _ & _ & _ & _ & _ & Hd & _). contradiction. }
  destruct (sc_fd (Thread.current_syscall p)) as [f|] eqn:Ef.
  2:{ split; [|left; reflexivity]. split; [apply Hno|].
      intros (c' & p' & f & n & H & _ & Hp & Hf & _). injection H as <-.
      rewrite Ep in Hp. injection Hp as <-. congruence. }
  destruct (sc_name (Thread.current_syscall p)) as [n|] eqn:En.
  2:{ split; [|left; reflexivity]. split; [intros [_ H]; discriminate|].
      intros (c' & p' & f' & n & H & _ & Hp & _ & Hn & _). injection H as <-.
      rewrite Ep in Hp. injection Hp as <-. congruence. }
  unfold MmLoop.log. cbn. rewrite Ed. split; [|right; eexists; reflexivity].
  split.
  - intros [Hl _]. apply app_inv_head in Hl. injection Hl as <-.
    exists c, p, f, n. repeat split; try assumption; try lia. discriminate.
  - intros (c' & p' & f' & n' & H & _ & Hp & Hf & Hn & _ & ->).
    injection H as <-. rewrite Ep in Hp. injection Hp as <-.
    rewrite Ef in Hf. injection Hf as <-. rewrite En in Hn. injection Hn as <-.
    split; reflexivity.
Qed.

Lemma block_dirty_buffer_logs_iff_witness :
  let s := Mm.init {[0 := CPU.mk 200]}
             {[200 := Thread.mk 200 "b" ∅ 0 0
                        (mkSyscall (Some "write") (Some (mkFD "/tmp/f" 3)) None ∅)]} in
  MmLoop.log (Mm.block_dirty_buffer s (mm_event 0)).1 =
    [Mm.mkDirtyEntry 200 "write" "/tmp/f" 3].
Proof.
  intros s.
  destruct (block_dirty_buffer_logs_iff s (mm_event 0)
              (Mm.mkDirtyEntry 200 "write" "/tmp/f" 3)) as [[_ H] _].
  destruct H as [Hl _]; [|exact Hl].
  exists (CPU.mk 200),
         (Thread.mk 200 "b" ∅ 0 0
            (mkSyscall (Some "write") (Some (mkFD "/tmp/f" 3)) None ∅)),
         (mkFD "/tmp/f" 3), "write".
  repeat split; try reflexivity; try discriminate.
Defined.

(** X6. [block_dirty_buffer] raises [KeyError] exactly when the CPU of the
    event is registered and runs a tid above 0, and either that tid is not
    registered, or its thread has a syscall dict with an ["fd"] but no
    ["name"] while the log exists.  Raising or not, it adds one to
    [dirty], changes no other global counter, no thread, no CPU and prints
    nothing; when it raises the log is untouched. *)
Theorem block_dirty_buffer_raises_iff :
  forall (s : Mm.t) (event : Event),
    let r := Mm.block_dirty_buffer s event in
    (r.2 = Raised KeyError <->
     exists c,
       Mm.cpus s !! ev_cpu_id event = Some c /\
       0 < CPU.current_tid c /\
       (Mm.tids s !! CPU.current_tid c = None \/
        exists p f,
          Mm.tids s !! CPU.current_tid c = Some p /\
          sc_fd (Thread.current_syscall p) = Some f /\
          sc_name (Thread.current_syscall p) = None /\
          Mm.dirty_pages s <> None)) /\
    Mm.mm r.1 = Mm.add_dirty 1 (Mm.mm s) /\
    Mm.tids r.1 = Mm.tids s /\
    Mm.cpus r.1 = Mm.cpus s /\
    Mm.stdout r.1 = Mm.stdout s /\
    (r.2 = Raised KeyError -> Mm.dirty_pages r.1 = Mm.dirty_pages s).
Proof.
  intros s event r.
  assert (Hframe : Mm.mm r.1 = Mm.add_dirty 1 (Mm.mm s) /\
                   Mm.tids r.1 = Mm.tids s /\ Mm.cpus r.1 = Mm.cpus s /\
                   Mm.stdout r.1 = Mm.stdout s).
  { subst r. split; [exact (step_mm s (MmLoop.BlockDirtyBuffer event))|].
    rewrite block_dirty_buffer_cases. cbv zeta.
    destruct (Mm.cpus s !! ev_cpu_id event) as [c|]; [|repeat split].
    destruct (CPU.current_tid c <=? 0); [repeat split|].
    destruct (Mm.tids s !! CPU.current_tid c) as [p|]; [|repeat split].
    destruct (syscall_is_empty (Thread.current_syscall p)); [repeat split|].
    destruct (Mm.dirty_pages s); [|repeat split].
    destruct (sc_fd (Thread.current_syscall p)); [|repeat split].
    destruct (sc_name (Thread.current_syscall p)); repeat split. }
  destruct Hframe as (H1 & H2 & H3 & H4).
  split; [|split; [exact H1|split; [exact H2|split; [exact H3|split; [exact H4|]]]]].
  - subst r. rewrite block_dirty_buffer_cases. cbv zeta.
    destruct (Mm.cpus s !! ev_cpu_id event) as [c|] eqn:Ec.
    2:{ split; [discriminate|]. intros (c & H & _). discriminate. }
    destruct (Z.leb_spec (CPU.current_tid c) 0) as [Hle|Hlt].
    { split; [discriminate|]. intros (c' & H & Hpos & _). injection H as <-. lia. }
    destruct (Mm.tids s !! CPU.current_tid c) as [p|] eqn:Ep.
    2:{ split; [|reflexivity]. intros _. exists c. repeat split; try lia.
        left. exact Ep. }
    assert (Hinv : forall P : Prop,
              (exists c', Some c = Some c' /\ 0 < CPU.current_tid c' /\
                 (Mm.tids s !! CPU.current_tid c' = None \/
                  exists p' f,
                    Mm.tids s !! CPU.current_tid c' = Some p' /\
                    sc_fd (Thread.current_syscall p') = Some f /\
                    sc_name (Thread.current_syscall p') = None /\
                    Mm.dirty_pages s <> None)) ->
              (forall f, sc_fd (Thread.current_syscall p) = Some f ->
                         sc_name (Thread.current_syscall p) = None ->
                         Mm.dirty_pages s <> None -> P) -> P).
    { intros P (c' & H & _ & [Hn | (p' & f & Hp & Hf & Hn & Hd)]) HP;
        injection H as <-; [congruence|].
      rewrite Ep in Hp. injection Hp as <-. exact (HP f Hf Hn Hd). }
    destruct (syscall_is_empty (Thread.current_syscall p)) eqn:Ee.
    { split; [discriminate|]. intros H. apply (Hinv _ H). intros f Hf _ _.
      unfold syscall_is_empty in Ee. rewrite Hf in Ee.
      destruct (sc_name (Thread.current_syscall p)); discriminate. }
    destruct (Mm.dirty_pages s) as [dp|] eqn:Ed.
    2:{ split; [discriminate|]. intros H. apply (Hinv _ H). intros f _ _ Hd.
        contradiction. }
    destruct (sc_fd (Thread.current_syscall p)) as [f|] eqn:Ef.
    2:{ split; [discriminate|]. intros H. apply (Hinv _ H). intros f Hf _ _.
        discriminate. }
    destruct (sc_name (Thread.current_syscall p)) as [n|] eqn:En.
    { split; [discriminate|]. intros H. apply (Hinv _ H). intros f' _ Hn _.
      discriminate. }
    split; [|reflexivity]. intros _. exists c. repeat split; try lia.
    right. exists p, f. repeat split; try assumption. discriminate.
  - subst r. rewrite block_dirty_buffer_cases. cbv zeta.
    destruct (Mm.cpus s !! ev_cpu_id event) as [c|]; [|reflexivity].
    destruct (CPU.current_tid c <=? 0); [reflexivity|].
    destruct (Mm.tids s !! CPU.current_tid c) as [p|]; [|reflexivity].
    destruct (syscall_is_empty (Thread.current_syscall p)); [reflexivity|].
    destruct (Mm.dirty_pages s) eqn:Ed; [|intros _; exact Ed].
    destruct (sc_fd (Thread.current_syscall p)); [|intros _; exact Ed].
    destruct (sc_name (Thread.current_syscall p)); [discriminate | intros _; exact Ed].
Qed.

Lemma block_dirty_buffer_raises_iff_witness :
  let s := Mm.init {[0 := CPU.mk 200]}
             {[200 := Thread.mk 200 "b" ∅ 0 0
                        (mkSyscall None (Some (mkFD "/tmp/f" 3)) None ∅)]} in
  (Mm.block_dirty_buffer s (mm_event 0)).2 = Raised KeyError /\
  Mm.dirty_pages (Mm.block_dirty_buffer s (mm_event 0)).1 = Mm.dirty_pages s.
Proof.
  intros s.
  destruct (block_dirty_buffer_raises_iff s (mm_event 0))
    as ([_ H] & _ & _ & _ & _ & Hd).
  assert (Hr : (Mm.block_dirty_buffer s (mm_event 0)).2 = Raised KeyError).
  { apply H. exists (CPU.mk 200). split; [reflexivity|]. split; [reflexivity|].
    right.
    exists (Thread.mk 200 "b" ∅ 0 0 (mkSyscall None (Some (mkFD "/tmp/f" 3)) None ∅)),
           (mkFD "/tmp/f" 3).
    repeat split. discriminate. }
  split; [exact Hr | exact (Hd Hr)].
Defined.

(** X7. No sequence of handler calls touches the CPU registry, adds or
    removes a thread, or changes the [pid], the [comm] or the performance
    counters of a registered thread. *)
Theorem registries_preserved :
  forall (s : Mm.t) (cs : list MmLoop.Call),
    let s' := (MmLoop.exec s cs).1 in
    Mm.cpus s' = Mm.cpus s /\
    forall k,
      match Mm.tids s !! k, Mm.tids s' !! k with
      | Some p, Some p' =>
          Thread.pid p' = Thread.pid p /\
          Thread.comm p' = Thread.comm p /\
          Thread.perf p' = Thread.perf p
      | None, None => True
      | _, _ => False
      end.
Proof.
  intros s cs s'. destruct (exec_kept cs s) as (Hc & Ht & _).
  split; [exact Hc|]. intros k. specialize (Ht k). fold s' in Ht.
  destruct Ht as [p p' (H1 & H2 & H3 & _)|]; [repeat split; assumption | exact I].
Qed.

(** X8. Over any sequence of handler calls the global [allocated_pages]
    and [freed_pages] and the [allocated_pages] and [freed_pages] of every
    thread never decrease. *)
Theorem page_counters_monotone :
  forall (s : Mm.t) (cs : list MmLoop.Call),
    let s' := (MmLoop.exec s cs).1 in
    Mm.g_allocated_pages (Mm.mm s) <= Mm.g_allocated_pages (Mm.mm s') /\
    Mm.g_freed_pages (Mm.mm s) <= Mm.g_freed_pages (Mm.mm s') /\
    forall k,
      match Mm.tids s !! k, Mm.tids s' !! k with
      | Some p, Some p' =>
          Thread.allocated_pages p <= Thread.allocated_pages p' /\
          Thread.freed_pages p <= Thread.freed_pages p'
      | _, _ => True
      end.
Proof.
  intros s cs s'. destruct (exec_kept cs s) as (_ & Ht & Ha & Hf & _).
  split; [exact Ha|]. split; [exact Hf|]. intros k. specialize (Ht k). fold s' in Ht.
  destruct Ht as [p p' (_ & _ & _ & H4 & H5 & _)|]; [split; assumption | exact I].
Qed.

(** X9. The dirty-page log and the printed output only grow by appending:
    after any sequence of handler calls the earlier log and output are
    prefixes of the later ones, and a log is neither created nor dropped. *)
Theorem logs_append_only :
  forall (s : Mm.t) (cs : list MmLoop.Call),
    let s' := (MmLoop.exec s cs).1 in
    MmLoop.log s `prefix_of` MmLoop.log s' /\
    Mm.stdout s `prefix_of` Mm.stdout s' /\
    (Mm.dirty_pages s = None <-> Mm.dirty_pages s' = None).
Proof.
  intros s cs s'. destruct (exec_kept cs s) as (_ & _ & _ & _ & Ho & Hl & Hd).
  split; [exact Hl|]. split; [exact Ho | exact Hd].
Qed.

(** X10. The handlers never open or close a syscall context: over any
    sequence of calls a thread's syscall dict stays empty or non-empty as
    it was, and keeps its ["name"], its ["fd"] and every key other than
    ["alloc"]. *)
Theorem syscall_contexts_preserved :
  forall (s : Mm.t) (cs : list MmLoop.Call) (k : Z),
    match Mm.tids s !! k, Mm.tids (MmLoop.exec s cs).1 !! k with
    | Some p, Some p' =>
        let d := Thread.current_syscall p in
        let d' := Thread.current_syscall p' in
        syscall_is_empty d' = syscall_is_empty d /\
        sc_name d' = sc_name d /\ sc_fd d' = sc_fd d /\ sc_other d' = sc_other d
    | _, _ => True
    end.
Proof.
  intros s cs k. destruct (exec_kept cs s) as (_ & Ht & _). specialize (Ht k).
  destruct Ht as [p p' (_ & _ & _ & _ & _ & H6 & H7 & H8 & H9)|];
    [repeat split; assumption | exact I].
Qed.

Section MmAlloc.

Implicit Types (s : Mm.t) (event : Event) (c : MmLoop.Call) (p : Thread.t).

Lemma block_dirty_buffer_tids s event :
  Mm.tids (Mm.block_dirty_buffer s event).1 = Mm.tids s.
Proof.
  rewrite block_dirty_buffer_cases. cbv zeta.
  destruct (Mm.cpus s !! ev_cpu_id event) as [c|]; [|reflexivity].
  destruct (CPU.current_tid c <=? 0); [reflexivity|].
  destruct (Mm.tids s !! CPU.current_tid c) as [p|]; [|reflexivity].
  destruct (syscall_is_empty (Thread.current_syscall p)); [reflexivity|].
  destruct (Mm.dirty_pages s); [|reflexivity].
  destruct (sc_fd (Thread.current_syscall p)); [|reflexivity].
  destruct (sc_name (Thread.current_syscall p)); reflexivity.
Qed.

Lemma alloc_of_charge p :
  MmLoop.alloc_of (Mm.charge_alloc p) =
  MmLoop.alloc_of p + (if syscall_is_empty (Thread.current_syscall p) then 0 else 1).
Proof.
  unfold MmLoop.alloc_of.
  destruct (charge_alloc_syscall p) as (Ha & _). cbv zeta in Ha. rewrite Ha.
  destruct (syscall_is_empty (Thread.current_syscall p)) eqn:E.
  - unfold syscall_is_empty in E.
    destruct (sc_name (Thread.current_syscall p)), (sc_fd (Thread.current_syscall p)),
             (sc_alloc (Thread.current_syscall p)); try discriminate. reflexivity.
  - destruct (sc_alloc (Thread.current_syscall p)); lia.
Qed.

Lemma step_alloc s c k p :
  Mm.tids s !! k = Some p ->
  exists p', Mm.tids (MmLoop.step s c).1 !! k = Some p' /\
    syscall_is_empty (Thread.current_syscall p') =
      syscall_is_empty (Thread.current_syscall p) /\
    MmLoop.alloc_of p' =
      MmLoop.alloc_of p +
      (if MmLoop.is_alloc_call c && negb (syscall_is_empty (Thread.current_syscall p))
       then 1 else 0).
Proof.
  intros Hk.
  assert (Hsame : exists p', Some p = Some p' /\
            syscall_is_empty (Thread.current_syscall p') =
              syscall_is_empty (Thread.current_syscall p) /\
            MmLoop.alloc_of p' = MmLoop.alloc_of p + 0)
    by (exists p; repeat split; lia).
  assert (Hcharge : exists p', Some (Mm.charge_alloc p) = Some p' /\
            syscall_is_empty (Thread.current_syscall p') =
              syscall_is_empty (Thread.current_syscall p) /\
            MmLoop.alloc_of p' =
              MmLoop.alloc_of p +
              (if negb (syscall_is_empty (Thread.current_syscall p)) then 1 else 0)).
  { eexists. split; [reflexivity|]. split.
    - apply (thread_kept_charge p).
    - rewrite alloc_of_charge.
      destruct (syscall_is_empty (Thread.current_syscall p)); reflexivity. }
  destruct c as [event|event|event|event]; cbn [MmLoop.step MmLoop.is_alloc_call andb].
  - rewrite page_alloc_cases. cbv zeta.
    destruct (Mm.scheduled_on s event) as [t|]; [destruct (Mm.tids s !! t)|];
      cbn [fst Mm.tids Mm.set_tids]; try (rewrite lookup_fmap, Hk; exact Hcharge).
    destruct (decide (t = k)) as [->|Hne].
    + rewrite lookup_alter_eq, lookup_fmap, Hk. cbn [fmap option_fmap option_map].
      destruct Hcharge as (p' & [= <-] & He & Ha).
      eexists. split; [reflexivity|]. split; [exact He | exact Ha].
    + rewrite lookup_alter_ne by done. rewrite lookup_fmap, Hk. exact Hcharge.
  - rewrite page_free_cases. cbv zeta.
    destruct (Mm.g_count (Mm.mm s) =? 0); [cbn; rewrite Hk; exact Hsame|].
    destruct (Mm.scheduled_on s event) as [t|]; [destruct (Mm.tids s !! t)|];
      cbn [fst Mm.tids Mm.set_tids Mm.set_mm]; try (rewrite Hk; exact Hsame).
    destruct (decide (t = k)) as [->|Hne].
    + rewrite lookup_alter_eq, Hk. cbn [fmap option_fmap option_map].
      eexists. split; [reflexivity|]. split; [reflexivity|].
      unfold MmLoop.alloc_of. cbn. lia.
    + rewrite lookup_alter_ne by done. rewrite Hk. exact Hsame.
  - rewrite block_dirty_buffer_tids, Hk. exact Hsame.
  - cbn. rewrite Hk. exact Hsame.
Qed.

Lemma exec_alloc cs : forall s k p,
  (MmLoop.exec s cs).2 = Returned ->
  Mm.tids s !! k = Some p ->
  exists p', Mm.tids (MmLoop.exec s cs).1 !! k = Some p' /\
    MmLoop.alloc_of p' =
      MmLoop.alloc_of p +
      (if syscall_is_empty (Thread.current_syscall p) then 0
       else MmLoop.count_calls MmLoop.is_alloc_call cs).
Proof.
  induction cs as [|c cs IH]; intros s k p Hret Hk; cbn [MmLoop.exec] in *.
  - exists p. split; [exact Hk|]. unfold MmLoop.count_calls. cbn.
    destruct (syscall_is_empty (Thread.current_syscall p)); lia.
  - destruct (step_alloc s c k p Hk) as (p1 & Hp1 & He & Ha).
    destruct (MmLoop.step s c) as [s1 [|e]]; cbn [fst snd] in *; [|discriminate].
    destruct (IH s1 k p1 Hret Hp1) as (p' & Hp' & Ha').
    exists p'. split; [exact Hp'|]. rewrite Ha', Ha, He, count_calls_cons.
    destruct (syscall_is_empty (Thread.current_syscall p));
      destruct (MmLoop.is_alloc_call c); cbn; lia.
Qed.

End MmAlloc.

(** X11. When a sequence of handler calls runs to its end, the ["alloc"]
    entry of every thread whose syscall dict was not empty has grown by
    the number of page-alloc calls of the sequence (an absent entry
    counting as 0), whichever CPUs those events came from; a thread with an
    empty syscall dict is charged nothing. *)
Theorem alloc_counts_page_allocs :
  forall (s : Mm.t) (cs : list MmLoop.Call) (k : Z) (p : Thread.t),
    (MmLoop.exec s cs).2 = Returned ->
    Mm.tids s !! k = Some p ->
    exists p', Mm.tids (MmLoop.exec s cs).1 !! k = Some p' /\
      MmLoop.alloc_of p' =
        MmLoop.alloc_of p +
        (if syscall_is_empty (Thread.current_syscall p) then 0
         else MmLoop.count_calls MmLoop.is_alloc_call cs).
Proof. intros s cs k p Hret Hk. exact (exec_alloc cs s k p Hret Hk). Qed.

Lemma alloc_counts_page_allocs_witness :
  let p := Thread.mk 100 "a" ∅ 0 0 (mkSyscall (Some "read") None None ∅) in
  let s := Mm.init {[0 := CPU.mk 200]} {[100 := p; 200 := plain_thread 200 "b"]} in
  let cs := [MmLoop.PageAlloc (mm_event 0); MmLoop.PageFree (mm_event 0);
             MmLoop.PageAlloc (mm_event 1)] in
  exists p', Mm.tids (MmLoop.exec s cs).1 !! 100 = Some p' /\ MmLoop.alloc_of p' = 2.
Proof.
  intros p s cs.
  destruct (alloc_counts_page_allocs s cs 100 p eq_refl eq_refl) as (p' & Hp & Ha).
  exists p'. split; [exact Hp | exact Ha].
Defined.

Section MmExclusive.

Implicit Types (s : Mm.t) (event : Event) (c : MmLoop.Call) (p : Thread.t).

Lemma scheduled_on_runs s event t :
  Mm.scheduled_on s event = Some t ->
  exists cp, Mm.cpus s !! ev_cpu_id event = Some cp /\ CPU.current_tid cp = t.
Proof.
  unfold Mm.scheduled_on.
  destruct (Mm.cpus s !! ev_cpu_id event) as [cp|]; [|discriminate].
  destruct (CPU.current_tid cp =? -1); [discriminate|].
  intros [= <-]. exists cp. split; reflexivity.
Qed.

Lemma step_exclusive s c k p :
  (forall cpu cp, Mm.cpus s !! cpu = Some cp -> CPU.current_tid cp <> k) ->
  Mm.tids s !! k = Some p ->
  exists p', Mm.tids (MmLoop.step s c).1 !! k = Some p' /\
    Thread.allocated_pages p' = Thread.allocated_pages p /\
    Thread.freed_pages p' = Thread.freed_pages p.
Proof.
  intros Hcpu Hk.
  assert (Hne : forall event t, Mm.scheduled_on s event = Some t -> t <> k).
  { intros event t Hs. destruct (scheduled_on_runs s event t Hs) as (cp & Hc & <-).
    exact (Hcpu _ _ Hc). }
  assert (Hsame : exists p', Some p = Some p' /\
            Thread.allocated_pages p' = Thread.allocated_pages p /\
            Thread.freed_pages p' = Thread.freed_pages p)
    by (exists p; repeat split).
  assert (Hcharge : exists p', Some (Mm.charge_alloc p) = Some p' /\
            Thread.allocated_pages p' = Thread.allocated_pages p /\
            Thread.freed_pages p' = Thread.freed_pages p).
  { eexists. split; [reflexivity|]. apply charge_alloc_pages. }
  destruct c as [event|event|event|event]; cbn [MmLoop.step].
  - rewrite page_alloc_cases. cbv zeta.
    destruct (Mm.scheduled_on s event) as [t|] eqn:Hs;
      [destruct (Mm.tids s !! t)|];
      cbn [fst Mm.tids Mm.set_tids]; try (rewrite lookup_fmap, Hk; exact Hcharge).
    rewrite lookup_alter_ne by exact (Hne event t Hs).
    rewrite lookup_fmap, Hk. exact Hcharge.
  - rewrite page_free_cases. cbv zeta.
    destruct (Mm.g_count (Mm.mm s) =? 0); [cbn; rewrite Hk; exact Hsame|].
    destruct (Mm.scheduled_on s event) as [t|] eqn:Hs;
      [destruct (Mm.tids s !! t)|];
      cbn [fst Mm.tids Mm.set_tids Mm.set_mm]; try (rewrite Hk; exact Hsame).
    rewrite lookup_alter_ne by exact (Hne event t Hs).
    rewrite Hk. exact Hsame.
  - rewrite block_dirty_buffer_tids, Hk. exact Hsame.
  - cbn. rewrite Hk. exact Hsame.
Qed.

Lemma exec_exclusive cs : forall s k p,
  (forall cpu cp, Mm.cpus s !! cpu = Some cp -> CPU.current_tid cp <> k) ->
  Mm.tids s !! k = Some p ->
  exists p', Mm.tids (MmLoop.exec s cs).1 !! k = Some p' /\
    Thread.allocated_pages p' = Thread.allocated_pages p /\
    Thread.freed_pages p' = Thread.freed_pages p.
Proof.
  induction cs as [|c cs IH]; intros s k p Hcpu Hk; cbn [MmLoop.exec].
  - exists p. repeat split. exact Hk.
  - destruct (step_exclusive s c k p Hcpu Hk) as (p1 & Hp1 & Ha & Hf).
    destruct (step_kept s c) as (Hc & _).
    destruct (MmLoop.step s c) as [s1 [|e]]; cbn [fst] in *.
    + destruct (IH s1 k p1) as (p' & Hp' & Ha' & Hf').
      * rewrite Hc. exact Hcpu.
      * exact Hp1.
      * exists p'. split; [exact Hp'|]. split; congruence.
    + exists p1. split; [exact Hp1|]. split; assumption.
Qed.

End MmExclusive.

(** X12. Attribution is exclusive to scheduled threads: a thread that no
    registered CPU is running keeps its [allocated_pages] and its
    [freed_pages] over any sequence of handler calls, on whatever CPUs the
    events occur. *)
Theorem unscheduled_thread_not_charged :
  forall (s : Mm.t) (cs : list MmLoop.Call) (k : Z) (p : Thread.t),
    (forall cpu cp, Mm.cpus s !! cpu = Some cp -> CPU.current_tid cp <> k) ->
    Mm.tids s !! k = Some p ->
    exists p', Mm.tids (MmLoop.exec s cs).1 !! k = Some p' /\
      Thread.allocated_pages p' = Thread.allocated_pages p /\
      Thread.freed_pages p' = Thread.freed_pages p.
Proof. intros s cs k p Hcpu Hk. exact (exec_exclusive cs s k p Hcpu Hk). Qed.

Lemma unscheduled_thread_not_charged_witness :
  let s := Mm.init {[0 := CPU.mk 200]}
                   {[100 := plain_thread 100 "a"; 200 := plain_thread 200 "b"]} in
  let cs := [MmLoop.PageAlloc (mm_event 0); MmLoop.PageAlloc (mm_event 1);
             MmLoop.PageFree (mm_event 0)] in
  exists p', Mm.tids (MmLoop.exec s cs).1 !! 100 = Some p' /\
             Thread.allocated_pages p' = 0 /\ Thread.freed_pages p' = 0.
Proof.
  intros s cs.
  apply (unscheduled_thread_not_charged s cs 100 (plain_thread 100 "a")).
  - intros cpu cp H. cbn in H.
    destruct (decide (cpu = 0)) as [->|Hne].
    + rewrite lookup_singleton_eq in H. injection H as <-. cbn. lia.
    + rewrite lookup_singleton_ne in H by congruence. discriminate.
  - reflexivity.
Defined.

(** * Properties of the command-line set-up *)

Section SplitFacts.

Variable sep : ascii.

Lemma split_nonempty (s : string) : split sep s <> [].
Proof.
  destruct s as [|c s]; cbn [split]; [discriminate|].
  destruct (Ascii.eqb c sep); [discriminate|].
  destruct (split sep s); discriminate.
Qed.

Lemma join_cons (x : string) (l : list string) :
  l <> [] -> join sep (x :: l) = String.append x (String sep (join sep l)).
Proof. destruct l; [contradiction | reflexivity]. Qed.

Lemma join_cons_char (c : ascii) (x : string) (l : list string) :
  join sep (String c x :: l) = String c (join sep (x :: l)).
Proof. destruct l; reflexivity. Qed.

Lemma join_split (s : string) : join sep (split sep s) = s.
Proof.
  induction s as [|c s IH]; cbn [split]; [reflexivity|].
  destruct (Ascii.eqb_spec c sep) as [->|Hne].
  - rewrite join_cons by apply split_nonempty. cbn. rewrite IH. reflexivity.
  - pose proof (split_nonempty s) as Hs.
    destruct (split sep s) as [|piece rest]; [contradiction|].
    rewrite join_cons_char, IH. reflexivity.
Qed.

Lemma split_pieces (s : string) :
  Forall (fun piece => contains sep piece = false) (split sep s).
Proof.
  induction s as [|c s IH]; cbn [split].
  - constructor; [reflexivity | constructor].
  - destruct (Ascii.eqb_spec c sep) as [->|Hne].
    + constructor; [reflexivity | exact IH].
    + pose proof (split_nonempty s) as Hs.
      destruct (split sep s) as [|piece rest]; [contradiction|].
      apply Forall_cons in IH as [Hp Hr].
      constructor; [|exact Hr]. cbn [contains].
      destruct (Ascii.eqb_spec c sep); [contradiction | exact Hp].
Qed.

Lemma split_plain (x : string) :
  contains sep x = false -> split sep x = [x].
Proof.
  induction x as [|c x IH]; cbn [split contains]; [reflexivity|].
  destruct (Ascii.eqb c sep); [discriminate|].
  intros H. rewrite (IH H). reflexivity.
Qed.

Lemma split_append (x rest : string) :
  contains sep x = false ->
  split sep (String.append x (String sep rest)) = x :: split sep rest.
Proof.
  induction x as [|c x IH].
  - intros _. change (String.append "" (String sep rest)) with (String sep rest).
    cbn [split]. rewrite Ascii.eqb_refl. reflexivity.
  - change (String.append (String c x) (String sep rest))
      with (String c (String.append x (String sep rest))).
    cbn [split contains].
    destruct (Ascii.eqb c sep); [discriminate|].
    intros H. rewrite (IH H). reflexivity.
Qed.

Lemma split_join (l : list string) :
  l <> [] ->
  Forall (fun piece => contains sep piece = false) l ->
  split sep (join sep l) = l.
Proof.
  induction l as [|x l IH]; intros Hne Hall; [contradiction|].
  apply Forall_cons in Hall as [Hx Hl].
  destruct l as [|y l].
  - cbn [join]. apply split_plain. exact Hx.
  - rewrite join_cons by discriminate. rewrite split_append by exact Hx.
    rewrite IH; [reflexivity | discriminate | exact Hl].
Qed.

End SplitFacts.

Section StrFacts.

Lemma uint_digits_no_comma (u : Decimal.uint) :
  contains ","%char (NilEmpty.string_of_uint u) = false.
Proof. induction u; cbn; assumption || reflexivity. Qed.

Lemma str_no_comma (n : Z) : contains ","%char (str n) = false.
Proof.
  unfold str. destruct (Z.to_int n) as [u|u]; cbn.
  - apply uint_digits_no_comma.
  - apply uint_digits_no_comma.
Qed.

Lemma str_in_map (t : Z) (l : list Z) :
  str_in (str t) (map str l) = true <-> t ∈ l.
Proof.
  induction l as [|x l IH]; cbn [map str_in].
  - split; [discriminate|]. intros H. apply elem_of_nil in H. contradiction.
  - destruct (String.eqb_spec (str t) (str x)) as [E|E].
    + apply str_inj in E. subst. split; [intros _; left | reflexivity].
    + rewrite IH. split.
      * intros H. right. exact H.
      * intros H. apply elem_of_cons in H as [->|H]; [contradiction | exact H].
Qed.

Lemma replace_clean (a b : ascii) (s : string) :
  a <> b -> contains a (replace a b s) = false.
Proof.
  intros Hab. induction s as [|c s IH]; cbn [replace contains]; [reflexivity|].
  destruct (Ascii.eqb_spec c a) as [->|Hne].
  - destruct (Ascii.eqb_spec b a); [congruence | exact IH].
  - destruct (Ascii.eqb_spec c a); [contradiction | exact IH].
Qed.

End StrFacts.

Section SetupFacts.

Lemma str_truthy (n : Z) : truthy_str (str n) = true.
Proof.
  unfold str. destruct n as [|q|q]; cbn; [reflexivity| |reflexivity].
  pose proof (Unsigned.to_uint_nonnil q) as Hq.
  destruct (Pos.to_uint q); [contradiction | reflexivity ..].
Qed.

Lemma join_truthy (x : string) (l : list string) :
  truthy_str x = true -> truthy_str (join ","%char (x :: l)) = true.
Proof.
  destruct x as [|c x]; [discriminate|]. intros _.
  rewrite join_cons_char. reflexivity.
Qed.

Lemma split_two (sep : ascii) (s : string) :
  contains sep s = true -> exists a b rest, split sep s = a :: b :: rest.
Proof.
  induction s as [|c s IH]; cbn [contains split]; [discriminate|].
  destruct (Ascii.eqb c sep).
  - intros _. pose proof (split_nonempty sep s) as Hs.
    destruct (split sep s) as [|b rest]; [contradiction|].
    exists EmptyString, b, rest. reflexivity.
  - intros H. destruct (IH H) as (a & b & rest & ->).
    exists (String c a), b, rest. reflexivity.
Qed.

Lemma index_minus_2_snoc {A : Type} (pre : list A) (x y : A) :
  index_minus_2 (pre ++ [x; y]) = Some x.
Proof. unfold index_minus_2. rewrite rev_app_distr. reflexivity. Qed.

Lemma index_minus_2_none {A : Type} (l : list A) :
  index_minus_2 l = None <-> (length l < 2)%nat.
Proof.
  unfold index_minus_2. rewrite <- (length_rev l).
  destruct (rev l) as [|a [|b r]]; cbn; split; intros H;
    try reflexivity; try discriminate; lia.
Qed.

End SetupFacts.

(** X13. The lists that [__main__] derives from [--type] and [--tid] are
    never empty, so the filters that test them are active whenever the
    option is given: [types] is absent exactly for ['all'], [tid] exactly
    for the default and the empty string, and otherwise the list holds the
    comma-free pieces of the option, whose comma-join is the option
    itself. *)
Theorem option_lists_round_trip :
  forall (type_ : string) (raw_tid : option string),
    match Setup.parse_types type_ with
    | None => type_ = "all"
    | Some l =>
        type_ <> "all" /\ Perf.truthy_list (Some l) = true /\
        join ","%char l = type_ /\
        Forall (fun piece => contains ","%char piece = false) l
    end /\
    match Setup.parse_tid raw_tid with
    | None => raw_tid = None \/ raw_tid = Some ""
    | Some l =>
        Perf.truthy_list (Some l) = true /\
        Some (join ","%char l) = raw_tid /\
        Forall (fun piece => contains ","%char piece = false) l
    end.
Proof.
  intros type_ raw_tid.
  assert (Htruthy : forall s, Perf.truthy_list (Some (split ","%char s)) = true).
  { intros s. pose proof (split_nonempty ","%char s) as H.
    destruct (split ","%char s); [contradiction | reflexivity]. }
  split.
  - unfold Setup.parse_types. destruct (String.eqb_spec type_ "all") as [E|E]; cbn [negb].
    + exact E.
    + split; [exact E|]. split; [apply Htruthy|].
      split; [apply join_split | apply split_pieces].
  - unfold Setup.parse_tid. destruct raw_tid as [s|]; [|left; reflexivity].
    destruct s as [|c s]; cbn [truthy_str]; [right; reflexivity|].
    split; [apply Htruthy|]. split; [rewrite join_split; reflexivity | apply split_pieces].
Qed.

(** X14. With [--tid] given as the comma-separated decimal tids of a
    non-empty list, the allow-list of the emitter lets through exactly the
    tids of that list. *)
Theorem tid_option_selects_listed_tids :
  forall (args : Perf.Args) (l : list Z) (t : Z),
    l <> [] ->
    (Filter.tid_allowed
       (Filter.with_tid (Setup.parse_tid (Some (join ","%char (map str l)))) args) t
     = true <-> t ∈ l).
Proof.
  intros args l t Hne.
  assert (Hparse : Setup.parse_tid (Some (join ","%char (map str l))) = Some (map str l)).
  { unfold Setup.parse_tid. destruct l as [|x l]; [contradiction|].
    cbn [map]. rewrite (join_truthy (str x) (map str l) (str_truthy x)).
    rewrite split_join; [reflexivity | discriminate |].
    apply Forall_forall. intros piece Hin. change (x :: l) with ([x] ++ l) in Hin.
    change (str x :: map str l) with (map str (x :: l)) in Hin.
    apply list_elem_of_fmap in Hin as (n & -> & _). apply str_no_comma. }
  rewrite Hparse. unfold Filter.tid_allowed. cbn [Filter.with_tid Perf.tid].
  destruct l as [|x l]; [contradiction|]. cbn [map].
  change (str x :: map str l) with (map str (x :: l)). apply str_in_map.
Qed.

Lemma tid_option_selects_listed_tids_witness :
  Filter.tid_allowed
    (Filter.with_tid (Setup.parse_tid (Some "100,200")) no_args) 200 = true.
Proof.
  assert (Hne : [100; 200] <> ([] : list Z)) by discriminate.
  apply (proj2 (tid_option_selects_listed_tids no_args [100; 200] 200 Hne)).
  apply elem_of_cons. right. apply elem_of_cons. left. reflexivity.
Defined.

(** X15. The session name is free of hyphens; computing it raises
    [IndexError] exactly for a trace path without ['/']; and for a path
    made of ['/']-separated pieces it is the last piece but one, hyphens
    replaced by underscores - the last piece being empty when the path ends
    with ['/']. *)
Theorem session_name_of_path :
  (forall path name,
     Setup.session_name path = Some name -> contains "-"%char name = false) /\
  (forall path,
     Setup.session_name path = None <-> contains "/"%char path = false) /\
  (forall (pre : list string) (name last : string),
     Forall (fun piece => contains "/"%char piece = false) (pre ++ [name; last]) ->
     Setup.session_name (join "/"%char (pre ++ [name; last])) =
       Some (replace "-"%char "_"%char name)).
Proof.
  split; [|split].
  - intros path name. unfold Setup.session_name.
    destruct (index_minus_2 (split "/"%char path)); [|discriminate].
    intros [= <-]. apply replace_clean. discriminate.
  - intros path. unfold Setup.session_name.
    destruct (index_minus_2 (split "/"%char path)) as [n|] eqn:E.
    + split; [discriminate|]. intros H.
      rewrite (split_plain "/"%char path H) in E. discriminate.
    + split; [|reflexivity]. intros _.
      apply index_minus_2_none in E.
      destruct (contains "/"%char path) eqn:Ec; [|reflexivity].
      destruct (split_two "/"%char path Ec) as (a & b & rest & Hs).
      rewrite Hs in E. cbn in E. lia.
  - intros pre name last Hall. unfold Setup.session_name.
    rewrite split_join; [| destruct pre; discriminate | exact Hall].
    rewrite index_minus_2_snoc. reflexivity.
Qed.

Lemma session_name_of_path_witness :
  Setup.session_name "/home/u/my-trace/kernel/" = Some "kernel" /\
  Setup.session_name "/home/u/my-trace/kernel" = Some "my_trace" /\
  Setup.session_name "my-trace" = None.
Proof.
  destruct session_name_of_path as (_ & Hnone & Hpieces).
  split; [|split].
  - apply (Hpieces [""; "home"; "u"; "my-trace"] "kernel" "").
    repeat constructor.
  - apply (Hpieces [""; "home"; "u"] "my-trace" "kernel").
    repeat constructor.
  - apply Hnone. reflexivity.
Defined.

(** * Further properties of the record emitter *)

Section WindowFacts.

Implicit Types (args : Perf.Args) (self : Perf.t) (event : Event) (ret : dict).

(** [output_perf] depends on the time bounds through the window test
    only. *)
Lemma output_perf_window args self event ret (s e : option Z) :
  Perf.output_perf (with_window s e args) self event ret =
  if negb (Filter.tid_allowed args (ev_prev_tid event)) then (self, Returned)
  else
    match State.tids (Perf.state self) !! ev_prev_tid event with
    | None => (self, Raised KeyError)
    | Some th =>
        if negb (Filter.pname_allowed args (Thread.comm th)) then (self, Returned)
        else if negb (String.eqb (ev_name event) "sched_switch") then (self, Returned)
        else if negb (Filter.in_window (with_window s e args) (ev_timestamp event))
        then (self, Returned)
        else (Filter.emit args self event th ret, Returned)
    end.
Proof. rewrite output_perf_spec. reflexivity. Qed.

Lemma in_window_to_ns args (s e ts : Z) :
  s <> 0 -> e <> 0 ->
  Filter.in_window (with_window (Setup.to_ns (Some s)) (Setup.to_ns (Some e)) args) ts
  = (s * Setup.NS_IN_S <=? ts) && (ts <=? e * Setup.NS_IN_S).
Proof.
  intros Hs He.
  unfold Filter.in_window, Filter.after_start, Filter.before_end, Setup.to_ns.
  cbn [with_window Perf.start Perf.end_].
  destruct (Z.eqb_spec s 0); [contradiction|].
  destruct (Z.eqb_spec e 0); [contradiction|]. cbn [negb].
  unfold Setup.NS_IN_S.
  destruct (Z.eqb_spec (s * 1000000000) 0); [lia|].
  destruct (Z.eqb_spec (e * 1000000000) 0); [lia|]. reflexivity.
Qed.

End WindowFacts.

(** X16. A time bound of 0 is no bound: [--start 0] or [--end 0], which
    [__main__] leaves at 0, makes the emitter behave as without that
    option, whatever the timestamp of the event. *)
Theorem zero_bound_is_no_bound :
  forall (args : Perf.Args) (self : Perf.t) (event : Event) (ret : dict)
         (s e : option Z),
    Perf.output_perf (with_window (Setup.to_ns (Some 0)) e args) self event ret =
      Perf.output_perf (with_window None e args) self event ret /\
    Perf.output_perf (with_window s (Setup.to_ns (Some 0)) args) self event ret =
      Perf.output_perf (with_window s None args) self event ret.
Proof.
  intros args self event ret s e. rewrite !output_perf_window.
  split.
  - replace (Filter.in_window (with_window (Setup.to_ns (Some 0)) e args)
               (ev_timestamp event))
      with (Filter.in_window (with_window None e args) (ev_timestamp event));
      [reflexivity|].
    unfold Filter.in_window, Filter.after_start. reflexivity.
  - replace (Filter.in_window (with_window s (Setup.to_ns (Some 0)) args)
               (ev_timestamp event))
      with (Filter.in_window (with_window s None args) (ev_timestamp event));
      [reflexivity|].
    unfold Filter.in_window, Filter.before_end. cbn. reflexivity.
Qed.

(** X17. With [--start s] and [--end e] given in seconds and not 0, the
    emitter treats an event as without time bounds when its nanosecond
    timestamp lies in the closed interval from [s * 10^9] to [e * 10^9],
    and emits nothing for an event outside of it. *)
Theorem window_bounds_in_nanoseconds :
  forall (args : Perf.Args) (self : Perf.t) (event : Event) (ret : dict) (s e : Z),
    s <> 0 -> e <> 0 ->
    let a := with_window (Setup.to_ns (Some s)) (Setup.to_ns (Some e)) args in
    (s * 1000000000 <= ev_timestamp event <= e * 1000000000 ->
     Perf.output_perf a self event ret =
       Perf.output_perf (with_window None None args) self event ret) /\
    (ev_timestamp event < s * 1000000000 \/ e * 1000000000 < ev_timestamp event ->
     (Perf.output_perf a self event ret).1 = self).
Proof.
  intros args self event ret s e Hs He a. subst a.
  rewrite !output_perf_window, (in_window_to_ns args s e _ Hs He).
  unfold Setup.NS_IN_S.
  split.
  - intros [H1 H2].
    destruct (Z.leb_spec (s * 1000000000) (ev_timestamp event)); [|lia].
    destruct (Z.leb_spec (ev_timestamp event) (e * 1000000000)); [|lia].
    reflexivity.
  - intros H.
    assert (Hout : (s * 1000000000 <=? ev_timestamp event) &&
                   (ev_timestamp event <=? e * 1000000000) = false).
    { destruct (Z.leb_spec (s * 1000000000) (ev_timestamp event));
        destruct (Z.leb_spec (ev_timestamp event) (e * 1000000000));
        try reflexivity; lia. }
    rewrite Hout. cbn [negb].
    destruct (negb (Filter.tid_allowed args (ev_prev_tid event))); [reflexivity|].
    destruct (State.tids (Perf.state self) !! ev_prev_tid event) as [th|];
      [|reflexivity].
    destruct (negb (Filter.pname_allowed args (Thread.comm th))); [reflexivity|].
    destruct (negb (String.eqb (ev_name event) "sched_switch")); reflexivity.
Qed.

Lemma window_bounds_in_nanoseconds_witness :
  let self := Perf.init (State.mk ∅ {[100 := plain_thread 100 "a"]}) in
  let d := [("ts", 3000000000); ("tid", 100); ("perf_x", 15)] in
  Perf.stdout (Perf.output_perf
                 (with_window (Setup.to_ns (Some 3)) (Setup.to_ns (Some 3)) no_args)
                 self (sched_switch 3000000000 0 100 200 []) d).1
    = [Perf.mkLine (HourNsec 3000000000) "a" 100 "perf_x" 15] /\
  (Perf.output_perf
     (with_window (Setup.to_ns (Some 3)) (Setup.to_ns (Some 3)) no_args)
     self (sched_switch 3000000001 0 100 200 []) d).1 = self.
Proof.
  intros self d.
  assert (H3 : (3 : Z) <> 0) by discriminate.
  split.
  - destruct (window_bounds_in_nanoseconds no_args self
                (sched_switch 3000000000 0 100 200 []) d 3 3 H3 H3) as [H _].
    rewrite H; [reflexivity|]. cbn. lia.
  - destruct (window_bounds_in_nanoseconds no_args self
                (sched_switch 3000000001 0 100 200 []) d 3 3 H3 H3) as [_ H].
    apply H. right. cbn. lia.
Defined.

Section EmitFrame.

Implicit Types (args : Perf.Args) (self : Perf.t) (event : Event) (ret : dict).

Lemma log_metadata_dom self ts comm tid pid ret :
  dom (Perf.json_metadata self) ⊆
  dom (Perf.json_metadata (Perf.log_perf_event_json self ts comm tid pid ret)).
Proof.
  destruct (log_perf_event_json_metadata self ts comm tid pid ret)
    as (Hother & m & Hm & _).
  intros q Hq. apply elem_of_dom. apply elem_of_dom in Hq.
  destruct (decide (q = pid)) as [->|Hne].
  - rewrite Hm. eexists; reflexivity.
  - rewrite (Hother q Hne). exact Hq.
Qed.

Lemma emit_metadata args self event th ret :
  dom (Perf.json_metadata self) ⊆
    dom (Perf.json_metadata (Filter.emit args self event th ret)) /\
  (Filter.sink_configured args = false ->
   Perf.json_metadata (Filter.emit args self event th ret) = Perf.json_metadata self).
Proof.
  unfold Filter.emit. cbv zeta.
  destruct (Filter.sink_configured args).
  - split; [|discriminate].
    destruct (Filter.has_counter ret); cbn [andb]; [|reflexivity].
    etransitivity; [|apply log_metadata_dom]. reflexivity.
  - rewrite andb_false_r. split; reflexivity.
Qed.

Lemma emit_grows args self event th ret :
  grows self (Filter.emit args self event th ret).
Proof.
  destruct (emit_fields args self event th ret) as (_ & Hp & Ho).
  destruct (emit_metadata args self event th ret) as (Hd & _).
  unfold grows. rewrite Hp, Ho.
  split; [apply prefix_app_r; reflexivity|].
  split; [apply prefix_app_r; reflexivity | exact Hd].
Qed.

Lemma grows_refl self : grows self self.
Proof. unfold grows. repeat split; reflexivity. Qed.

Lemma grows_trans (a b c : Perf.t) : grows a b -> grows b c -> grows a c.
Proof.
  intros (A1 & A2 & A3) (B1 & B2 & B3). unfold grows.
  split; [etransitivity; eassumption|].
  split; [etransitivity; eassumption|]. set_solver.
Qed.

Lemma output_perf_grows args self event ret :
  grows self (Perf.output_perf args self event ret).1 /\
  Perf.state (Perf.output_perf args self event ret).1 = Perf.state self.
Proof.
  rewrite output_perf_spec. cbv zeta.
  destruct (negb (Filter.tid_allowed args (ev_prev_tid event)));
    [split; [apply grows_refl | reflexivity]|].
  destruct (State.tids (Perf.state self) !! ev_prev_tid event) as [th|];
    [|split; [apply grows_refl | reflexivity]].
  destruct (negb (Filter.pname_allowed args (Thread.comm th)));
    [split; [apply grows_refl | reflexivity]|].
  destruct (negb (String.eqb (ev_name event) "sched_switch"));
    [split; [apply grows_refl | reflexivity]|].
  destruct (negb (Filter.in_window args (ev_timestamp event)));
    [split; [apply grows_refl | reflexivity]|].
  split; [apply emit_grows|]. apply emit_fields.
Qed.

End EmitFrame.

(** X18. Logging a second record of the same thread changes the metadata
    no further: [log_perf_event_json] called twice with the same [comm],
    [tid] and [pid] leaves the metadata of the first call, appends the two
    records in call order, and touches neither the registries nor the
    output. *)
Theorem log_perf_event_json_idempotent :
  forall (self : Perf.t) (ts ts' : timefmt) (comm : string) (tid pid : Z)
         (r1 r2 : dict),
    let s1 := Perf.log_perf_event_json self ts comm tid pid r1 in
    let s2 := Perf.log_perf_event_json s1 ts' comm tid pid r2 in
    Perf.json_metadata s2 = Perf.json_metadata s1 /\
    Perf.perf s2 = (Perf.perf self ++ [r1; r2])%list /\
    Perf.state s2 = Perf.state self /\
    Perf.stdout s2 = Perf.stdout self.
Proof.
  intros self ts ts' comm tid pid r1 r2 s1 s2.
  split; [|split; [|split; reflexivity]].
  - destruct (log_perf_event_json_metadata self ts comm tid pid r1)
      as (_ & m1 & Hm1 & H1).
    destruct (log_perf_event_json_metadata s1 ts' comm tid pid r2)
      as (Hother & m2 & Hm2 & H2).
    fold s1 in Hm1. fold s2 in Hm2, Hother. cbv zeta in Hother.
    apply map_eq. intros q. destruct (decide (q = pid)) as [->|Hne];
      [|exact (Hother q Hne)].
    rewrite Hm1, Hm2. f_equal.
    rewrite Hm1 in H2. cbn [from_option] in H2.
    destruct m1 as [n1 t1], m2 as [n2 t2]. cbn [Perf.md_pname Perf.md_threads] in *.
    destruct (pid =? tid).
    + destruct H1 as [-> _], H2 as [-> ->]. reflexivity.
    + destruct H1 as [_ ->], H2 as [-> ->]. rewrite insert_insert_eq. reflexivity.
  - subst s2 s1. cbn. rewrite <- app_assoc. reflexivity.
Qed.

(** X19. [output_perf] never changes the registries; it only appends to
    the buffer (nothing, or the record itself) and to the output, and never
    drops a metadata key.  It raises [KeyError] exactly when the tid passes
    the allow-list and is not registered, leaving everything as it was;
    when quiet it prints nothing, and with no sink configured it leaves the
    buffer and the metadata alone. *)
Theorem output_perf_frame :
  forall (args : Perf.Args) (self : Perf.t) (event : Event) (ret : dict),
    let r := Perf.output_perf args self event ret in
    Perf.state r.1 = Perf.state self /\
    (Perf.perf r.1 = Perf.perf self \/ Perf.perf r.1 = (Perf.perf self ++ [ret])%list) /\
    Perf.stdout self `prefix_of` Perf.stdout r.1 /\
    dom (Perf.json_metadata self) ⊆ dom (Perf.json_metadata r.1) /\
    r.2 = (if Filter.tid_allowed args (ev_prev_tid event) &&
              bool_decide (State.tids (Perf.state self) !! ev_prev_tid event = None)
           then Raised KeyError else Returned) /\
    match r.2 with Raised _ => r.1 = self | Returned => True end /\
    (if Perf.quiet args then Perf.stdout r.1 = Perf.stdout self else True) /\
    (if Filter.sink_configured args then True
     else Perf.perf r.1 = Perf.perf self /\
          Perf.json_metadata r.1 = Perf.json_metadata self).
Proof.
  intros args self event ret r.
  destruct (output_perf_grows args self event ret) as ((_ & Ho & Hd) & Hst).
  fold r in Ho, Hd, Hst.
  split; [exact Hst|].
  assert (Hrest :
    (Perf.perf r.1 = Perf.perf self \/ Perf.perf r.1 = (Perf.perf self ++ [ret])%list) /\
    r.2 = (if Filter.tid_allowed args (ev_prev_tid event) &&
              bool_decide (State.tids (Perf.state self) !! ev_prev_tid event = None)
           then Raised KeyError else Returned) /\
    match r.2 with Raised _ => r.1 = self | Returned => True end /\
    (if Perf.quiet args then Perf.stdout r.1 = Perf.stdout self else True) /\
    (if Filter.sink_configured args then True
     else Perf.perf r.1 = Perf.perf self /\
          Perf.json_metadata r.1 = Perf.json_metadata self)).
  { subst r. rewrite output_perf_spec. cbv zeta.
    assert (Hq : if Perf.quiet args then Perf.stdout self = Perf.stdout self else True)
      by (destruct (Perf.quiet args); [reflexivity | exact I]).
    assert (Hs : if Filter.sink_configured args then True
                 else Perf.perf self = Perf.perf self /\
                      Perf.json_metadata self = Perf.json_metadata self)
      by (destruct (Filter.sink_configured args); [exact I | split; reflexivity]).
    destruct (Filter.tid_allowed args (ev_prev_tid event)); cbn [negb andb];
      [|repeat split; try (left; reflexivity); assumption].
    destruct (State.tids (Perf.state self) !! ev_prev_tid event) as [th|];
      [|repeat split; try (left; reflexivity); assumption].
    cbn [bool_decide]. rewrite bool_decide_eq_false_2 by discriminate.
    destruct (negb (Filter.pname_allowed args (Thread.comm th)));
      [repeat split; try (left; reflexivity); assumption|].
    destruct (negb (String.eqb (ev_name event) "sched_switch"));
      [repeat split; try (left; reflexivity); assumption|].
    destruct (negb (Filter.in_window args (ev_timestamp event)));
      [repeat split; try (left; reflexivity); assumption|].
    destruct (emit_fields args self event th ret) as (_ & Hp & Hout).
    destruct (emit_metadata args self event th ret) as (_ & Hmd).
    cbn [fst snd]. split; [|split; [reflexivity|split; [exact I|split]]].
    - rewrite Hp.
      destruct (Filter.has_counter ret && Filter.sink_configured args);
        [right; reflexivity | left; apply app_nil_r].
    - rewrite Hout. unfold Filter.lines_of.
      destruct (Perf.quiet args); [apply app_nil_r | exact I].
    - destruct (Filter.sink_configured args) eqn:Es; [exact I|].
      split; [|apply Hmd; reflexivity].
      rewrite Hp, andb_false_r. apply app_nil_r. }
  destruct Hrest as (H1 & H2 & H3 & H4 & H5).
  repeat split; assumption.
Qed.

(** X20. A record that passes the filters is printed, unless quiet, as one
    line per counter-namespaced field, in field order, each with the
    timestamp, the [comm] and the tid of the thread and the value of the
    field; the other fields of the record are not printed. *)
Theorem passing_record_prints_counters :
  forall (args : Perf.Args) (self : Perf.t) (event : Event) (ret : dict)
         (th : Thread.t),
    State.tids (Perf.state self) !! ev_prev_tid event = Some th ->
    Filter.tid_allowed args (ev_prev_tid event) = true ->
    Filter.pname_allowed args (Thread.comm th) = true ->
    ev_name event = "sched_switch" ->
    Filter.in_window args (ev_timestamp event) = true ->
    Perf.quiet args = false ->
    Perf.stdout (Perf.output_perf args self event ret).1 =
      (Perf.stdout self ++
       map (fun kv => Perf.mkLine (Filter.endtime_of args (ev_timestamp event))
                                  (Thread.comm th) (ev_prev_tid event) kv.1 kv.2)
           (List.filter (fun kv => startswith "perf_" kv.1) ret))%list.
Proof.
  intros args self event ret th Hth Htid Hpname Hname Hwin Hquiet.
  rewrite output_perf_spec. cbv zeta.
  rewrite Htid, Hth, Hpname, Hname, Hwin.
  change (negb ("sched_switch" =? "sched_switch")%string) with false.
  cbn [negb fst].
  destruct (emit_fields args self event th ret) as (_ & _ & Hout).
  rewrite Hout. unfold Filter.lines_of. rewrite Hquiet. reflexivity.
Qed.

Lemma passing_record_prints_counters_witness :
  let self := Perf.init (State.mk ∅ {[100 := plain_thread 100 "a"]}) in
  let d := [("ts", 3); ("tid", 100); ("perf_x", 15); ("perf_y", 7)] in
  Perf.stdout (Perf.output_perf no_args self (sched_switch 3 0 100 200 []) d).1 =
    [Perf.mkLine (HourNsec 3) "a" 100 "perf_x" 15;
     Perf.mkLine (HourNsec 3) "a" 100 "perf_y" 7].
Proof.
  intros self d.
  rewrite (passing_record_prints_counters no_args self (sched_switch 3 0 100 200 []) d
             (plain_thread 100 "a") eq_refl eq_refl eq_refl eq_refl eq_refl eq_refl).
  reflexivity.
Defined.

Section DictFacts.

Lemma str_in_elem (k : string) (l : list string) : str_in k l = true <-> k ∈ l.
Proof.
  induction l as [|x l IH]; cbn [str_in].
  - split; [discriminate|]. intros H. apply elem_of_nil in H. contradiction.
  - destruct (String.eqb_spec k x) as [->|Hne].
    + split; [intros _; left | reflexivity].
    + rewrite IH. split; [intros H; right; exact H|].
      intros H. apply elem_of_cons in H as [->|H]; [contradiction | exact H].
Qed.

Lemma keys_dict_set (k : string) (v : Z) (d : dict) :
  keys (dict_set k v d) = if str_in k (keys d) then keys d else (keys d ++ [k])%list.
Proof.
  induction d as [|[k' v'] d IH]; cbn [dict_set keys map fst str_in app].
  - reflexivity.
  - destruct (String.eqb k k'); cbn [map fst]; [reflexivity|].
    fold (keys (dict_set k v d)). fold (keys d). rewrite IH.
    destruct (str_in k (keys d)); reflexivity.
Qed.

Lemma dict_set_nodup (k : string) (v : Z) (d : dict) :
  NoDup (keys d) -> NoDup (keys (dict_set k v d)).
Proof.
  intros H. rewrite keys_dict_set.
  destruct (str_in k (keys d)) eqn:E; [exact H|].
  apply NoDup_app. split; [exact H|]. split; [|apply NoDup_singleton].
  intros x Hx Hk. apply list_elem_of_singleton in Hk. subst x.
  apply str_in_elem in Hx. congruence.
Qed.

Lemma dict_set_forall (Q : string -> Prop) (k : string) (v : Z) (d : dict) :
  Q k -> Forall Q (keys d) -> Forall Q (keys (dict_set k v d)).
Proof.
  intros Hk H. rewrite keys_dict_set.
  destruct (str_in k (keys d)); [exact H|].
  apply Forall_app. split; [exact H|]. constructor; [exact Hk | constructor].
Qed.

Lemma dict_set_skip (k : string) (v : Z) (k0 : string) (v0 : Z) (d : dict) :
  k <> k0 -> dict_set k v ((k0, v0) :: d) = (k0, v0) :: dict_set k v d.
Proof.
  intros Hne. cbn [dict_set].
  destruct (String.eqb_spec k k0); [contradiction | reflexivity].
Qed.

End DictFacts.

Section RecordShape.

Variables (args : Perf.Args) (types : option (list string)) (st : State.t) (tid : Z).
Variables (ts0 tid0 : Z).

Lemma fill_record_shape (items : dict) : forall (rest d' : dict),
  NoDup (keys rest) ->
  Forall (fun k => startswith "perf_" k = true /\
                   Filter.type_allowed types k = true) (keys rest) ->
  Perf.fill_record args types st tid items (("ts", ts0) :: ("tid", tid0) :: rest) = Ok d' ->
  exists rest',
    d' = ("ts", ts0) :: ("tid", tid0) :: rest' /\
    NoDup (keys rest') /\
    Forall (fun k => startswith "perf_" k = true /\
                     Filter.type_allowed types k = true) (keys rest').
Proof.
  induction items as [|[c v] items IH]; intros rest d' Hnd Hall;
    cbn [Perf.fill_record].
  - intros [= <-]. exists rest. repeat split; assumption.
  - rewrite type_allowed_code.
    destruct (Filter.type_allowed types c) eqn:Et; cbn [negb]; [|apply IH; assumption].
    destruct (startswith "perf_" c) eqn:Ep; [|apply IH; assumption].
    assert (Hts : c <> "ts") by (intros ->; discriminate).
    assert (Htid : c <> "tid") by (intros ->; discriminate).
    assert (Hset : forall x, dict_set c x (("ts", ts0) :: ("tid", tid0) :: rest) =
                             ("ts", ts0) :: ("tid", tid0) :: dict_set c x rest).
    { intros x. rewrite dict_set_skip by exact Hts.
      rewrite dict_set_skip by exact Htid. reflexivity. }
    assert (Hstep : forall x d', 
              Perf.fill_record args types st tid items
                (("ts", ts0) :: ("tid", tid0) :: dict_set c x rest) = Ok d' ->
              exists rest',
                d' = ("ts", ts0) :: ("tid", tid0) :: rest' /\
                NoDup (keys rest') /\
                Forall (fun k => startswith "perf_" k = true /\
                                 Filter.type_allowed types k = true) (keys rest')).
    { intros x d0. apply IH.
      - apply dict_set_nodup. exact Hnd.
      - apply dict_set_forall; [split; assumption | exact Hall]. }
    destruct (Perf.delta args).
    + rewrite Hset. apply Hstep.
    + destruct (State.tids st !! tid) as [th|]; [|discriminate].
      destruct (Thread.perf th !! c) as [x|]; [|discriminate].
      rewrite Hset. apply Hstep.
Qed.

End RecordShape.

Section RunFacts.

Variable switch : State.t -> Event -> State.t * dict.
Variable process_state : State.t -> Event -> State.t.
Variables (args : Perf.Args) (types : option (list string)).

Lemma grows_set_state (st : State.t) (self : Perf.t) :
  grows self (Perf.set_state st self).
Proof. unfold grows. cbn. repeat split; reflexivity. Qed.

Lemma output_perf_buffer (self : Perf.t) (event : Event) (ret : dict) :
  Perf.perf (Perf.output_perf args self event ret).1 = Perf.perf self \/
  Perf.perf (Perf.output_perf args self event ret).1 = (Perf.perf self ++ [ret])%list.
Proof.
  rewrite output_perf_spec. cbv zeta.
  destruct (negb (Filter.tid_allowed args (ev_prev_tid event))); [left; reflexivity|].
  destruct (State.tids (Perf.state self) !! ev_prev_tid event) as [th|];
    [|left; reflexivity].
  destruct (negb (Filter.pname_allowed args (Thread.comm th))); [left; reflexivity|].
  destruct (negb (String.eqb (ev_name event) "sched_switch")); [left; reflexivity|].
  destruct (negb (Filter.in_window args (ev_timestamp event))); [left; reflexivity|].
  destruct (emit_fields args self event th ret) as (_ & Hp & _).
  cbn [fst]. rewrite Hp.
  destruct (Filter.has_counter ret && Filter.sink_configured args);
    [right; reflexivity | left; apply app_nil_r].
Qed.

(** One event: what the buffer gains, and that the rest only grows. *)
Lemma process_event_step (self : Perf.t) (event : Event) :
  let self' := (Perf.process_event switch process_state args types self event).1 in
  grows self self' /\
  (Perf.perf self' = Perf.perf self \/
   (is_sched_switch event = true /\
    exists d, Perf.perf self' = (Perf.perf self ++ [d])%list /\
              record_from types event d)).
Proof.
  cbv zeta. unfold Perf.process_event, is_sched_switch.
  destruct (String.eqb (ev_name event) "sched_switch").
  - destruct (switch (Perf.state self) event) as [st ret].
    destruct (0 <? Z.of_nat (length (keys ret)));
      [|split; [apply grows_set_state | left; reflexivity]].
    destruct (Perf.fill_record args types (Perf.state (Perf.set_state st self))
                (ev_prev_tid event) ret
                [("ts", ev_timestamp event); ("tid", ev_prev_tid event)])
      as [d|e] eqn:Ef; [|split; [apply grows_set_state | left; reflexivity]].
    split.
    + eapply grows_trans; [apply grows_set_state|]. apply output_perf_grows.
    + destruct (output_perf_buffer (Perf.set_state st self) event d) as [H|H].
      * left. exact H.
      * right. split; [reflexivity|]. exists d. split; [exact H|].
        apply (fill_record_shape args types _ _ _ _ ret [] d) in Ef.
        -- exact Ef.
        -- apply NoDup_nil_2.
        -- constructor.
  - destruct (String.eqb (ev_name event) "lttng_statedump_process_state");
      (split; [|left; reflexivity]).
    + apply grows_set_state.
    + apply grows_refl.
Qed.

Lemma run_grows (events : list Event) : forall (self : Perf.t),
  grows self (Perf.run switch process_state args types self events).1.
Proof.
  induction events as [|event events IH]; intros self; cbn [Perf.run].
  - apply grows_refl.
  - destruct (process_event_step self event) as [Hg _]. cbv zeta in Hg.
    destruct (Perf.process_event switch process_state args types self event)
      as [self1 [|e]]; cbn [fst] in Hg |- *.
    + exact (grows_trans _ _ _ Hg (IH self1)).
    + exact Hg.
Qed.

Lemma run_records (events : list Event) : forall (self : Perf.t),
  exists (evs : list Event) (new : list dict),
    evs `sublist_of` List.filter is_sched_switch events /\
    Perf.perf (Perf.run switch process_state args types self events).1
      = (Perf.perf self ++ new)%list /\
    Forall2 (record_from types) evs new.
Proof.
  induction events as [|event events IH]; intros self; cbn [Perf.run List.filter].
  - exists [], []. split; [constructor|]. split; [symmetry; apply app_nil_r | constructor].
  - destruct (process_event_step self event) as [_ Hstep]. cbv zeta in Hstep.
    destruct (Perf.process_event switch process_state args types self event)
      as [self1 o]; cbn [fst] in Hstep.
    assert (Hrest : exists evs new,
              evs `sublist_of` List.filter is_sched_switch events /\
              Perf.perf (match o with
                         | Returned => Perf.run switch process_state args types self1 events
                         | Raised e => (self1, Raised e)
                         end).1 = (Perf.perf self1 ++ new)%list /\
              Forall2 (record_from types) evs new).
    { destruct o as [|e]; [apply IH|].
      exists [], []. split; [apply sublist_nil_l|].
      split; [symmetry; apply app_nil_r | constructor]. }
    destruct Hrest as (evs & new & Hsub & Hperf & Hall).
    assert (Heq : (let (self0, o0) := (self1, o) in
                   match o0 with
                   | Returned => Perf.run switch process_state args types self0 events
                   | Raised e => (self0, Raised e)
                   end) =
                  match o with
                  | Returned => Perf.run switch process_state args types self1 events
                  | Raised e => (self1, Raised e)
                  end) by reflexivity.
    destruct Hstep as [Hsame | (Hsw & d & Hd & Hrec)].
    + exists evs, new. split.
      * destruct (is_sched_switch event); [apply sublist_cons|]; exact Hsub.
      * split; [|exact Hall]. destruct o; cbn [fst] in *; rewrite Hperf, Hsame; reflexivity.
    + exists (event :: evs), (d :: new). rewrite Hsw. split; [apply sublist_skip; exact Hsub|].
      split; [|constructor; assumption].
      destruct o; cbn [fst] in *; rewrite Hperf, Hd, <- app_assoc; reflexivity.
Qed.

Lemma process_event_state (a a' : Perf.Args) (t t' : option (list string))
    (self self' : Perf.t) (event : Event) :
  Perf.state self = Perf.state self' ->
  Perf.state (Perf.process_event switch process_state a t self event).1 =
  Perf.state (Perf.process_event switch process_state a' t' self' event).1.
Proof.
  intros Hst. unfold Perf.process_event. rewrite Hst.
  destruct (String.eqb (ev_name event) "sched_switch").
  - destruct (switch (Perf.state self') event) as [st ret].
    destruct (0 <? Z.of_nat (length (keys ret))); [|reflexivity].
    assert (H : forall b u s0,
              Perf.state (match Perf.fill_record b u (Perf.state (Perf.set_state st s0))
                                  (ev_prev_tid event) ret
                                  [("ts", ev_timestamp event); ("tid", ev_prev_tid event)]
                          with
                          | Ok d => Perf.output_perf b (Perf.set_state st s0) event d
                          | Raise e => (Perf.set_state st s0, Raised e)
                          end).1 = st).
    { intros b u s0.
      destruct (Perf.fill_record b u _ _ ret _) as [d|e]; [|reflexivity].
      destruct (output_perf_grows b (Perf.set_state st s0) event d) as [_ H].
      rewrite H. reflexivity. }
    rewrite !H. reflexivity.
  - destruct (String.eqb (ev_name event) "lttng_statedump_process_state"); cbn;
      [reflexivity | exact Hst].
Qed.

Lemma run_state (a a' : Perf.Args) (t t' : option (list string))
    (events : list Event) : forall (self self' : Perf.t),
  Perf.state self = Perf.state self' ->
  (Perf.run switch process_state a t self events).2 = Returned ->
  (Perf.run switch process_state a' t' self' events).2 = Returned ->
  Perf.state (Perf.run switch process_state a t self events).1 =
  Perf.state (Perf.run switch process_state a' t' self' events).1.
Proof.
  induction events as [|event events IH]; intros self self' Hst; cbn [Perf.run].
  - intros _ _. exact Hst.
  - pose proof (process_event_state a a' t t' self self' event Hst) as Hs.
    destruct (Perf.process_event switch process_state a t self event) as [s1 [|e]];
      [|discriminate].
    destruct (Perf.process_event switch process_state a' t' self' event) as [s1' [|e']];
      [|intros _; discriminate].
    cbn [fst] in Hs. apply IH. exact Hs.
Qed.

End RunFacts.

(** X21. A run only appends: whatever the trackers, the options and the
    events, and whether it ends normally or by an exception, the record
    buffer and the output it starts from are prefixes of those it ends
    with, and no metadata key is dropped. *)
Theorem run_only_appends :
  forall (switch : State.t -> Event -> State.t * dict)
         (process_state : State.t -> Event -> State.t)
         (args : Perf.Args) (types : option (list string))
         (self : Perf.t) (events : list Event),
    let self' := (Perf.run switch process_state args types self events).1 in
    Perf.perf self `prefix_of` Perf.perf self' /\
    Perf.stdout self `prefix_of` Perf.stdout self' /\
    dom (Perf.json_metadata self) ⊆ dom (Perf.json_metadata self').
Proof.
  intros switch process_state args types self events.
  exact (run_grows switch process_state args types events self).
Qed.

(** X22. The records a run adds to the buffer come, one each and in event
    order, from a subsequence of the schedule-switch events: each record
    starts with the timestamp and the [prev_tid] of its event, followed by
    distinct keys that are all counter-namespaced and pass the type
    filter. *)
Theorem buffer_records_follow_events :
  forall (switch : State.t -> Event -> State.t * dict)
         (process_state : State.t -> Event -> State.t)
         (args : Perf.Args) (types : option (list string))
         (self : Perf.t) (events : list Event),
    exists (evs : list Event) (new : list dict),
      evs `sublist_of` List.filter is_sched_switch events /\
      Perf.perf (Perf.run switch process_state args types self events).1
        = (Perf.perf self ++ new)%list /\
      Forall2 (record_from types) evs new.
Proof.
  intros switch process_state args types self events.
  exact (run_records switch process_state args types events self).
Qed.

(** X23. The options of the emitter never influence the correlation: two
    runs over the same events from the same registries, with any two
    command lines and type filters, end with the same registries whenever
    both run to their end. *)
Theorem registries_independent_of_options :
  forall (switch : State.t -> Event -> State.t * dict)
         (process_state : State.t -> Event -> State.t)
         (a a' : Perf.Args) (t t' : option (list string))
         (self self' : Perf.t) (events : list Event),
    Perf.state self = Perf.state self' ->
    (Perf.run switch process_state a t self events).2 = Returned ->
    (Perf.run switch process_state a' t' self' events).2 = Returned ->
    Perf.state (Perf.run switch process_state a t self events).1 =
    Perf.state (Perf.run switch process_state a' t' self' events).1.
Proof.
  intros switch process_state a a' t t' self self' events.
  exact (run_state switch process_state a a' t t' events self self').
Qed.

Lemma registries_independent_of_options_witness :
  let quiet_json := Perf.mkArgs (Some ["100"]) None None None true true
                                (Some "out") None true in
  Perf.state (Perf.run Sched.switch Statedump.process_state no_args None
                       (Perf.init (State.mk ∅ ∅)) sample_events).1 =
  Perf.state (Perf.run Sched.switch Statedump.process_state quiet_json (Some ["perf_x"])
                       (Perf.init (State.mk ∅ ∅)) sample_events).1.
Proof.
  intros quiet_json.
  apply (registries_independent_of_options Sched.switch Statedump.process_state
           no_args quiet_json None (Some ["perf_x"])
           (Perf.init (State.mk ∅ ∅)) (Perf.init (State.mk ∅ ∅)) sample_events).
  - reflexivity.
  - vm_compute. reflexivity.
  - vm_compute. reflexivity.
Defined.
